(** * MathCrew: problem bank, gamification and the scaffold state machine

    A shallow embedding of the tutoring core of [db.py] and [web_tutor.py].
    SQLite tables are lists in primary-key order (an AUTOINCREMENT key is the
    1-based position of its row, rows are never deleted), the per-session
    dictionaries of [web_tutor.py] are finite maps keyed by the session id. *)

From Stdlib Require Import ZArith NArith List String Ascii Bool Lia Floats Uint63.
From stdpp Require Import base option list sorting gmap strings pretty.

Set Warnings "-register-all,-inexact-float".
Open Scope string_scope.
Open Scope list_scope.
Open Scope Z_scope.

(** ** JSON values *)

(** What [json.loads] returns.  An integer literal is a Python [int]; a
    literal with a fraction or an exponent (and the constants [NaN],
    [Infinity], [-Infinity]) is a Python [float], kept by its text.  An object
    is a [dict]: keys in insertion order, one binding per key. *)
Inductive json :=
| JNull
| JBool (b : bool)
| JInt (z : Z)
| JFloat (lexeme : string)
| JStr (s : string)
| JArr (items : list json)
| JObj (fields : list (string * json)).

(** ** Strict JSON reading ([json.loads]) *)

Definition dquote : ascii := "034"%char.
Definition backslash : ascii := "092"%char.

Definition code (c : ascii) : N := N_of_ascii c.

Fixpoint char_in (c : ascii) (cs : string) : bool :=
  match cs with
  | "" => false
  | String d cs' => Ascii.eqb c d || char_in c cs'
  end.

Definition is_digit (c : ascii) : bool := (48 <=? code c)%N && (code c <=? 57)%N.

Definition is_letter (c : ascii) : bool :=
  ((65 <=? code c)%N && (code c <=? 90)%N) || ((97 <=? code c)%N && (code c <=? 122)%N).

(** The characters that may follow the backslash of a JSON escape: the class
    of the regular expression in [_parse_json_lenient] (double quote,
    backslash, slash, b, f, n, r, t, u). *)
Definition is_json_escape_char (c : ascii) : bool :=
  Ascii.eqb c dquote || Ascii.eqb c backslash || char_in c "/bfnrtu".

Inductive char_class :=
| CQuote | CBackslash | CSpace | CPunct | CWord | COther.

Definition classify (c : ascii) : char_class :=
  if Ascii.eqb c dquote then CQuote
  else if Ascii.eqb c backslash then CBackslash
  else if (code c =? 32)%N || (code c =? 9)%N || (code c =? 10)%N || (code c =? 13)%N
  then CSpace
  else if char_in c "{}[]:," then CPunct
  else if is_digit c || is_letter c || char_in c "+-." then CWord
  else COther.

Inductive token :=
| TPunct (c : ascii)
| TString (s : string)
| TWord (w : string).

(** A string literal is read into units: a character of the text, or the
    16-bit value of a [\uXXXX] escape. *)
Inductive str_unit :=
| Raw (c : ascii)
| Esc (n : N).

Definition hex_value (c : ascii) : option N :=
  if is_digit c then Some (code c - 48)%N
  else if (97 <=? code c)%N && (code c <=? 102)%N then Some (code c - 87)%N
  else if (65 <=? code c)%N && (code c <=? 70)%N then Some (code c - 55)%N
  else None.

Definition hex4 (a b c d : ascii) : option N :=
  x ← hex_value a; y ← hex_value b; z ← hex_value c; w ← hex_value d;
  Some (((x * 16 + y) * 16 + z) * 16 + w)%N.

Definition unescape (e : ascii) : option ascii :=
  if Ascii.eqb e dquote then Some dquote
  else if Ascii.eqb e backslash then Some backslash
  else if Ascii.eqb e "/" then Some "/"%char
  else if Ascii.eqb e "b" then Some "008"%char
  else if Ascii.eqb e "f" then Some "012"%char
  else if Ascii.eqb e "n" then Some "010"%char
  else if Ascii.eqb e "r" then Some "013"%char
  else if Ascii.eqb e "t" then Some "009"%char
  else None.

Definition byte (n : N) : ascii := ascii_of_N n.

(** UTF-8 bytes of a code point. *)
Definition utf8 (cp : N) : list ascii :=
  if (cp <? 128)%N then [byte cp]
  else if (cp <? 2048)%N then [byte (192 + cp / 64); byte (128 + cp mod 64)]
  else if (cp <? 65536)%N then
    [byte (224 + cp / 4096); byte (128 + (cp / 64) mod 64); byte (128 + cp mod 64)]
  else [byte (240 + cp / 262144); byte (128 + (cp / 4096) mod 64);
        byte (128 + (cp / 64) mod 64); byte (128 + cp mod 64)].

(** Two adjacent escapes that form a surrogate pair are one code point. *)
Fixpoint decode_units (us : list str_unit) : list ascii :=
  match us with
  | [] => []
  | Raw c :: us' => c :: decode_units us'
  | Esc hi :: us' =>
      match us' with
      | Esc lo :: us'' =>
          if (55296 <=? hi)%N && (hi <=? 56319)%N && (56320 <=? lo)%N && (lo <=? 57343)%N
          then utf8 (65536 + (hi - 55296) * 1024 + (lo - 56320))%N ++ decode_units us''
          else utf8 hi ++ decode_units us'
      | _ => utf8 hi ++ decode_units us'
      end
  end.

Definition string_of_units (rev_units : list str_unit) : string :=
  string_of_list_ascii (decode_units (rev rev_units)).

Definition string_of_rev (rev_chars : list ascii) : string :=
  string_of_list_ascii (rev rev_chars).

Inductive lex_mode :=
| Outside
| InWord (rev_chars : list ascii)
| InStr (rev_units : list str_unit).

(** Words end at whitespace, punctuation or a quote. *)
Definition flush (m : lex_mode) : list token :=
  match m with
  | InWord w => [TWord (string_of_rev w)]
  | _ => []
  end.

Definition word_of (m : lex_mode) : list ascii :=
  match m with
  | InWord w => w
  | _ => []
  end.

Fixpoint lex (m : lex_mode) (s : string) : option (list token) :=
  match s with
  | "" =>
      match m with
      | InStr _ => None
      | _ => Some (flush m)
      end
  | String c s' =>
      match m with
      | InStr us =>
          match classify c with
          | CQuote => cons (TString (string_of_units us)) <$> lex Outside s'
          | CBackslash =>
              match s' with
              | String e s'' =>
                  if Ascii.eqb e "u" then
                    match s'' with
                    | String h1 (String h2 (String h3 (String h4 s3))) =>
                        n ← hex4 h1 h2 h3 h4; lex (InStr (Esc n :: us)) s3
                    | _ => None
                    end
                  else d ← unescape e; lex (InStr (Raw d :: us)) s''
              | "" => None
              end
          | _ => if (code c <? 32)%N then None else lex (InStr (Raw c :: us)) s'
          end
      | _ =>
          match classify c with
          | CQuote => app (flush m) <$> lex (InStr []) s'
          | CSpace => app (flush m) <$> lex Outside s'
          | CPunct => (λ ts, flush m ++ TPunct c :: ts) <$> lex Outside s'
          | CWord => lex (InWord (c :: word_of m)) s'
          | _ => None
          end
      end
  end.

(** Numbers: an optional minus, 0 or a non-zero digit followed by digits,
    an optional fraction (a dot and digits), an optional exponent (e or E, an
    optional sign, digits). *)
Fixpoint span_digits (s : string) : string * string :=
  match s with
  | String c s' =>
      if is_digit c then let '(ds, r) := span_digits s' in (String c ds, r)
      else ("", s)
  | "" => ("", "")
  end.

Fixpoint digits_value (acc : Z) (ds : string) : Z :=
  match ds with
  | String c ds' => digits_value (10 * acc + Z.of_N (code c - 48)) ds'
  | "" => acc
  end.

Definition valid_exponent (s : string) : bool :=
  match s with
  | "" => true
  | String c s' =>
      if char_in c "eE" then
        let s'' := match s' with
                   | String g r => if char_in g "+-" then r else s'
                   | "" => s'
                   end in
        let '(ds, r) := span_digits s'' in
        negb (String.eqb ds "") && String.eqb r ""
      else false
  end.

Definition number_value (w : string) : option json :=
  let '(neg, body) := match w with
                      | String c r => if Ascii.eqb c "-" then (true, r) else (false, w)
                      | "" => (false, w)
                      end in
  let '(ip, r) := span_digits body in
  let int_ok := match ip with
                | "" => false
                | String c ip' => negb (Ascii.eqb c "0") || String.eqb ip' ""
                end in
  if negb int_ok then None
  else match r with
       | "" => Some (JInt (if neg then - digits_value 0 ip else digits_value 0 ip))
       | String c r' =>
           if Ascii.eqb c "." then
             let '(fp, r'') := span_digits r' in
             if negb (String.eqb fp "") && valid_exponent r'' then Some (JFloat w)
             else None
           else if valid_exponent r then Some (JFloat w) else None
       end.

Definition word_value (w : string) : option json :=
  if String.eqb w "null" then Some JNull
  else if String.eqb w "true" then Some (JBool true)
  else if String.eqb w "false" then Some (JBool false)
  else if String.eqb w "NaN" || String.eqb w "Infinity" || String.eqb w "-Infinity"
  then Some (JFloat w)
  else number_value w.

(** [d[k] = v] on a dict kept in insertion order. *)
Fixpoint dict_set (k : string) (v : json) (d : list (string * json)) : list (string * json) :=
  match d with
  | [] => [(k, v)]
  | (k', v') :: d' => if String.eqb k k' then (k, v) :: d' else (k', v') :: dict_set k v d'
  end.

Definition dict_get (k : string) (d : list (string * json)) : option json :=
  snd <$> List.find (λ kv, String.eqb k kv.1) d.

Definition is_punct (c : string) (t : token) : bool :=
  match t with
  | TPunct p => String.eqb (String p "") c
  | _ => false
  end.

(** Recursive descent over the tokens; every call is made after at least one
    token was consumed, so fuel above the number of tokens is never used up. *)
Fixpoint parse_value (fuel : nat) (ts : list token) : option (json * list token) :=
  match fuel with
  | O => None
  | S fuel' =>
      match ts with
      | TString s :: r => Some (JStr s, r)
      | TWord w :: r => v ← word_value w; Some (v, r)
      | TPunct p :: r =>
          if Ascii.eqb p "[" then
            match r with
            | t :: r' =>
                if is_punct "]" t then Some (JArr [], r')
                else '(v, r'') ← parse_value fuel' r; parse_items fuel' r'' [v]
            | [] => None
            end
          else if Ascii.eqb p "{" then
            match r with
            | TPunct q :: r' => if Ascii.eqb q "}" then Some (JObj [], r') else None
            | TString k :: t :: r' =>
                if is_punct ":" t then
                  '(v, r'') ← parse_value fuel' r'; parse_members fuel' r'' [(k, v)]
                else None
            | _ => None
            end
          else None
      | [] => None
      end
  end
with parse_items (fuel : nat) (ts : list token) (acc : list json)
    : option (json * list token) :=
  match fuel with
  | O => None
  | S fuel' =>
      match ts with
      | TPunct p :: r =>
          if Ascii.eqb p "]" then Some (JArr acc, r)
          else if Ascii.eqb p "," then
            '(v, r') ← parse_value fuel' r; parse_items fuel' r' (acc ++ [v])
          else None
      | _ => None
      end
  end
with parse_members (fuel : nat) (ts : list token) (acc : list (string * json))
    : option (json * list token) :=
  match fuel with
  | O => None
  | S fuel' =>
      match ts with
      | TPunct p :: r =>
          if Ascii.eqb p "}" then Some (JObj acc, r)
          else if Ascii.eqb p "," then
            match r with
            | TString k :: t :: r' =>
                if is_punct ":" t then
                  '(v, r'') ← parse_value fuel' r'; parse_members fuel' r'' (dict_set k v acc)
                else None
            | _ => None
            end
          else None
      | _ => None
      end
  end.

Definition json_loads (s : string) : option json :=
  ts ← lex Outside s;
  match parse_value (S (length ts)) ts with
  | Some (v, []) => Some v
  | _ => None
  end.

(** ** Lenient parsing ([_parse_json_lenient]) *)

Definition next_is_escape (rest : string) : bool :=
  match rest with
  | String e _ => is_json_escape_char e
  | "" => false
  end.

(** The substitution: every backslash that is not followed by one of the
    escape characters becomes two backslashes. *)
Fixpoint sanitize (raw : string) : string :=
  match raw with
  | "" => ""
  | String c rest =>
      if Ascii.eqb c backslash then
        if next_is_escape rest then String backslash (sanitize rest)
        else String backslash (String backslash (sanitize rest))
      else String c (sanitize rest)
  end.

Section Lenient.
(** [json.loads]: [None] stands for [JSONDecodeError]. *)
Variable loads : string → option json.

Definition _parse_json_lenient (raw : string) : option json :=
  match loads raw with
  | Some v => Some v
  | None => loads (sanitize raw)
  end.
End Lenient.

(** An unescaped backslash followed by a character that is no JSON escape
    character: backslashes are read in pairs from the left, as a JSON reader
    pairs them. *)
Fixpoint has_invalid_escape (s : string) : bool :=
  match s with
  | "" => false
  | String c s' =>
      if Ascii.eqb c backslash then
        match s' with
        | "" => false
        | String e s'' =>
            if is_json_escape_char e then has_invalid_escape s'' else true
        end
      else has_invalid_escape s'
  end.

(** ** Tables of [db.py] *)

(** The number [check_answer_bg] parses from the submitted text. *)
Inductive pynum :=
| PyInt (z : Z)
| PyFloat (f : float).

(** The [student_answer] column: [str()] of the parsed number, or the literal
    text a route writes. *)
Inductive submitted :=
| AnsNum (n : pynum)
| AnsText (s : string).

Record history_row := HistoryRow {
  h_student_id : Z;
  h_question : string;
  h_correct_answer : option json;
  h_student_answer : submitted;
  h_is_correct : bool;
  h_topic : option string;
  h_requested_topic : option string;
  h_feedback : option string;
  h_weakness : option string;
  h_misconception_type : option string;
  h_misconception_detail : option string;
  h_scaffold_level : Z;
  h_scaffold_parent_id : option Z
}.

Record bank_row := BankRow {
  b_grade : Z;
  b_curriculum_style : string;
  b_topic : string;
  b_question : string;
  b_correct_answer : string;
  b_hint : string;
  b_is_scaffold : bool;
  b_scaffold_misconception_type : option string;
  b_times_served : Z
}.

Record database := Database {
  history : list history_row;
  problem_bank : list bank_row;
  achievements : list (Z * string)
}.

(** Rows with their primary key, in key order. *)
Definition with_ids {A} (rows : list A) : list (Z * A) :=
  imap (λ i r, (Z.of_nat (S i), r)) rows.

(** [LIMIT n]: SQLite reads a negative limit as no limit. *)
Definition sql_limit {A} (n : Z) (rows : list A) : list A :=
  if n <? 0 then rows else take (Z.to_nat n) rows.

(** [UPDATE ... WHERE id = ?]: no row is touched when the key is absent. *)
Definition update_row {A} (f : A → A) (id : Z) (rows : list A) : list A :=
  if id <? 1 then rows else alter f (Z.to_nat (id - 1)) rows.

(** [SELECT ... FROM history WHERE student_id = ? ORDER BY id]. *)
Definition student_history (db : database) (student_id : Z) : list history_row :=
  filter (λ r, h_student_id r = student_id) (history db).

Definition save_result (db : database) (row : history_row) : database :=
  Database (history db ++ [row]) (problem_bank db) (achievements db).

Definition set_feedback (fb : string) (r : history_row) : history_row :=
  HistoryRow (h_student_id r) (h_question r) (h_correct_answer r)
    (h_student_answer r) (h_is_correct r) (h_topic r) (h_requested_topic r)
    (Some fb) (h_weakness r) (h_misconception_type r)
    (h_misconception_detail r) (h_scaffold_level r) (h_scaffold_parent_id r).

Definition update_feedback (db : database) (history_id : Z) (fb : string) : database :=
  Database (update_row (set_feedback fb) history_id (history db))
    (problem_bank db) (achievements db).

Definition set_misconception (ty detail : option string) (r : history_row) : history_row :=
  HistoryRow (h_student_id r) (h_question r) (h_correct_answer r)
    (h_student_answer r) (h_is_correct r) (h_topic r) (h_requested_topic r)
    (h_feedback r) (h_weakness r) ty detail
    (h_scaffold_level r) (h_scaffold_parent_id r).

Definition update_misconception (db : database) (history_id : Z)
    (ty detail : option string) : database :=
  Database (update_row (set_misconception ty detail) history_id (history db))
    (problem_bank db) (achievements db).

(** [SELECT id FROM history WHERE student_id = ? ORDER BY id DESC LIMIT 1]. *)
Definition get_last_history_id (db : database) (student_id : Z) : option Z :=
  fst <$> last (filter (λ ir, h_student_id ir.2 = student_id) (with_ids (history db))).

(** ** Problem bank *)

(** Python truthiness of an optional text: [None] and [""] are false. *)
Definition truthy (o : option string) : bool :=
  match o with
  | Some s => negb (String.eqb s "")
  | None => false
  end.

Definition save_to_problem_bank (db : database) (grade : Z)
    (curriculum_style topic question correct_answer hint : string)
    (is_scaffold : bool) (scaffold_misconception_type : option string)
    : Z * database :=
  let row := BankRow grade curriculum_style topic question correct_answer hint
               is_scaffold scaffold_misconception_type 0 in
  (Z.of_nat (S (length (problem_bank db))),
   Database (history db) (problem_bank db ++ [row]) (achievements db)).

(** The [WHERE] clause of the two queries of [find_reusable_problem]: the
    misconception type is compared only for a scaffold lookup that names one. *)
Definition bank_matches (grade : Z) (curriculum_style topic : string)
    (is_scaffold : bool) (scaffold_misconception_type : option string)
    (r : bank_row) : bool :=
  bool_decide (b_grade r = grade)
  && bool_decide (b_curriculum_style r = curriculum_style)
  && bool_decide (b_topic r = topic)
  && (if is_scaffold && truthy scaffold_misconception_type
      then b_is_scaffold r
           && bool_decide (b_scaffold_misconception_type r = scaffold_misconception_type)
      else bool_decide (b_is_scaffold r = is_scaffold)).

(** [ORDER BY times_served ASC, RANDOM()]: [rnd] is the value [RANDOM()]
    takes on each row, named by its key. *)
Definition served_order (rnd : Z → Z) (x y : Z * bank_row) : Prop :=
  b_times_served x.2 < b_times_served y.2
  ∨ (b_times_served x.2 = b_times_served y.2 ∧ rnd x.1 ≤ rnd y.1).

Global Instance served_order_dec rnd x y : Decision (served_order rnd x y).
Proof. unfold served_order. apply _. Defined.

(** The questions of the student's [exclude_recent] latest history rows. *)
Definition seen_questions (db : database) (student_id exclude_recent : Z) : list string :=
  h_question <$> sql_limit exclude_recent (reverse (student_history db student_id)).

Definition bank_candidates (db : database) (rnd : Z → Z) (grade : Z)
    (curriculum_style topic : string) (is_scaffold : bool)
    (scaffold_misconception_type : option string) : list (Z * bank_row) :=
  merge_sort (served_order rnd)
    (filter (λ ir, bank_matches grade curriculum_style topic is_scaffold
                     scaffold_misconception_type ir.2 = true)
            (with_ids (problem_bank db))).

Definition find_reusable_problem (db : database) (rnd : Z → Z) (grade : Z)
    (curriculum_style topic : string) (student_id : Z) (is_scaffold : bool)
    (scaffold_misconception_type : option string) (exclude_recent : Z)
    : option (Z * bank_row) :=
  let seen := seen_questions db student_id exclude_recent in
  snd <$> list_find (λ ir, b_question ir.2 ∉ seen)
            (bank_candidates db rnd grade curriculum_style topic is_scaffold
               scaffold_misconception_type).

Definition serve (r : bank_row) : bank_row :=
  BankRow (b_grade r) (b_curriculum_style r) (b_topic r) (b_question r)
    (b_correct_answer r) (b_hint r) (b_is_scaffold r)
    (b_scaffold_misconception_type r) (b_times_served r + 1).

Definition increment_times_served (db : database) (bank_id : Z) : database :=
  Database (history db) (update_row serve bank_id (problem_bank db)) (achievements db).

(** ** Gamification *)

(** [min(int(0.4 * sqrt(xp)) + 1, 50)].  For an integer [xp >= 0] the floor of
    [0.4 * sqrt xp] is the [k] with [(5k)^2 <= 4 xp < (5(k+1))^2], that is
    [Z.sqrt (4 xp) / 5]; [level_binary64_agrees] checks this against the
    binary64 computation on every XP value below the cap.  [sqrt] is never
    applied to a negative number: XP is a sum of non-negative awards. *)
Definition _level_from_xp (xp : Z) : Z :=
  Z.min (Z.sqrt (4 * xp) / 5 + 1) 50.

Definition LEVEL_TITLES : list (Z * string) :=
  [ (1, "Beginner"); (2, "Learner"); (3, "Explorer"); (4, "Thinker");
    (5, "Star"); (6, "Problem Pro"); (7, "Math Hero"); (8, "Number Ninja");
    (9, "Super Brain"); (10, "Genius"); (11, "Mastermind"); (12, "Legend") ].

Definition _level_title (level : Z) : string :=
  match list_find (λ kv, kv.1 = level) LEVEL_TITLES with
  | Some (_, (_, title)) => title
  | None => "Math Wizard"
  end.

Record gam_state := GamState {
  g_xp : Z;
  g_streak : Z;
  g_best_streak : Z
}.

Definition streak_bonus (streak : Z) : Z :=
  if streak =? 3 then 3
  else if streak =? 5 then 5
  else if streak =? 10 then 10
  else if streak =? 20 then 20
  else 0.

(** One iteration of the loop of [get_gamification_stats]. *)
Definition gam_step (g : gam_state) (r : history_row) : gam_state :=
  if h_is_correct r then
    let xp := g_xp g + (if 0 <? h_scaffold_level r then 8 else 10) in
    let streak := g_streak g + 1 in
    let best := if g_best_streak g <? streak then streak else g_best_streak g in
    GamState (xp + streak_bonus streak) streak best
  else GamState (g_xp g + 2) 0 (g_best_streak g).

Definition gam_fold (rows : list history_row) : gam_state :=
  foldl gam_step (GamState 0 0 0) rows.

Record gam_stats := GamStats {
  xp : Z;
  level : Z;
  level_title : string;
  xp_for_next : Z;
  xp_progress_pct : Z;
  streak : Z;
  best_streak : Z
}.

(** The level thresholds are [((level - 1) / 0.4) ** 2 = 6.25 (level - 1)^2];
    [xp_for_next] truncates the next one, the percentage is
    [int(xp_in_level / xp_needed * 100)] clamped to [0, 100]. *)
Definition stats_of (g : gam_state) : gam_stats :=
  let level := _level_from_xp (g_xp g) in
  let pct := 100 * (4 * g_xp g - 25 * (level - 1) * (level - 1))
             / (25 * (2 * level - 1)) in
  GamStats (g_xp g) level (_level_title level) (25 * level * level / 4)
    (Z.max 0 (Z.min 100 pct)) (g_streak g) (g_best_streak g).

Definition get_gamification_stats (db : database) (student_id : Z) : gam_stats :=
  stats_of (gam_fold (student_history db student_id)).

(** What each history entry adds to the XP total, in order. *)
Fixpoint xp_contributions (g : gam_state) (rows : list history_row) : list Z :=
  match rows with
  | [] => []
  | r :: rows' =>
      let g' := gam_step g r in (g_xp g' - g_xp g) :: xp_contributions g' rows'
  end.

(** [api_gamification]: the route answers with a fixed snapshot when the
    cookie carries no (or a zero) student id. *)
Definition api_gamification (db : database) (student_id : option Z) : gam_stats :=
  match student_id with
  | Some id => if id =? 0 then GamStats 0 1 "Beginner" 6 0 0 0
               else get_gamification_stats db id
  | None => GamStats 0 1 "Beginner" 6 0 0 0
  end.

(** The same three numbers computed as Python does, in binary64. *)
Definition float_of_small (z : Z) : float := PrimFloat.of_uint63 (Uint63.of_Z z).

Definition int_of_float (f : float) : Z :=
  match Prim2SF f with
  | S754_finite s m e =>
      let v := if 0 <=? e then Z.shiftl (Z.pos m) e else Z.shiftr (Z.pos m) (- e) in
      if s then - v else v
  | _ => 0
  end.

Definition level_binary64 (xp : Z) : Z :=
  Z.min (int_of_float (0x1.999999999999ap-2 * PrimFloat.sqrt (float_of_small xp)) + 1) 50.

Definition threshold_binary64 (l : Z) : float :=
  let q := (float_of_small l / 0x1.999999999999ap-2)%float in (q * q)%float.

Definition stats_binary64 (xp : Z) : Z * Z * Z :=
  let level := level_binary64 xp in
  let cur := if 1 <? level then threshold_binary64 (level - 1) else 0%float in
  let nxt := threshold_binary64 level in
  let in_level := (float_of_small xp - cur)%float in
  let needed := (nxt - cur)%float in
  let pct := if PrimFloat.ltb 0 needed
             then int_of_float (in_level / needed * 100)%float else 0 in
  (level, int_of_float nxt, Z.max 0 (Z.min 100 pct)).

(** The comparison of the two computations, and a bounded loop to run it. *)
Definition agrees_with_binary64 (xp : Z) : bool :=
  let s := stats_of (GamState xp 0 0) in
  let '(l, n, p) := stats_binary64 xp in
  (level s =? l) && (xp_for_next s =? n) && (xp_progress_pct s =? p).

Fixpoint all_from (f : Z → bool) (start : Z) (n : nat) : bool :=
  match n with
  | O => true
  | S n' => f start && all_from f (start + 1) n'
  end.

Definition ACHIEVEMENTS : list string :=
  [ "first_correct"; "ten_correct"; "fifty_correct"; "hundred_correct";
    "streak_3"; "streak_5"; "streak_10"; "try_3_topics"; "try_5_topics";
    "ten_problems"; "fifty_problems"; "scaffold_win"; "scaffold_master";
    "perfect_session_5"; "level_5" ].

(** [INSERT INTO achievements]: the [UNIQUE(student_id, achievement_key)]
    constraint makes a second insert fail, which the function turns into
    [False]. *)
Definition unlock_achievement (db : database) (student_id : Z) (key : string)
    : bool * database :=
  if bool_decide ((student_id, key) ∈ achievements db) then (false, db)
  else (true, Database (history db) (problem_bank db)
                (achievements db ++ [(student_id, key)])).

Definition count_where (P : history_row → bool) (rows : list history_row) : Z :=
  Z.of_nat (length (List.filter P rows)).

(** The [checks] dictionary, in insertion order. *)
Definition achievement_checks (db : database) (student_id : Z) : list (string * bool) :=
  let stats := get_gamification_stats db student_id in
  let rows := student_history db student_id in
  let correct := count_where h_is_correct rows in
  let total := Z.of_nat (length rows) in
  let topics := Z.of_nat (length (remove_dups (omap h_topic rows))) in
  let scaffold_wins :=
    count_where (λ r, h_is_correct r && (0 <? h_scaffold_level r)) rows in
  [ ("first_correct", 1 <=? correct);
    ("ten_correct", 10 <=? correct);
    ("fifty_correct", 50 <=? correct);
    ("hundred_correct", 100 <=? correct);
    ("streak_3", 3 <=? best_streak stats);
    ("streak_5", 5 <=? best_streak stats);
    ("streak_10", 10 <=? best_streak stats);
    ("try_3_topics", 3 <=? topics);
    ("try_5_topics", 5 <=? topics);
    ("ten_problems", 10 <=? total);
    ("fifty_problems", 50 <=? total);
    ("scaffold_win", 1 <=? scaffold_wins);
    ("scaffold_master", 5 <=? scaffold_wins);
    ("perfect_session_5", 5 <=? best_streak stats);
    ("level_5", 5 <=? level stats) ].

(** The unlock loop: [acc] is [newly_unlocked] so far. *)
Definition unlock_step (student_id : Z) (acc : list string * database)
    (check : string * bool) : list string * database :=
  if check.2 && bool_decide (check.1 ∈ ACHIEVEMENTS) then
    let '(ok, db') := unlock_achievement acc.2 student_id check.1 in
    if ok then ((acc.1 ++ [check.1]), db') else (acc.1, db')
  else acc.

Definition check_achievements (db : database) (student_id : Z)
    : list string * database :=
  foldl (unlock_step student_id) ([], db) (achievement_checks db student_id).

(** ** Session state of [web_tutor.py] *)

Record student := Student {
  s_id : Z;
  s_name : string;
  s_grade : Z;
  s_curriculum_style : string
}.

(** The problem dictionary kept in [current_problems].  A generated problem
    is read through the four keys its prompt fixes ([question],
    [correct_answer], [hint], [topic]); [is_scaffold] and [scaffold_level]
    are the values [check_answer_bg] reads back with their defaults. *)
Record problem := Problem {
  p_question : string;
  p_correct_answer : option json;
  p_hint : string;
  p_topic : option string;
  p_requested_topic : option string;
  p_is_scaffold : bool;
  p_scaffold_level : Z
}.

(** The analyst's diagnosis; a field is [None] when its key is missing. *)
Record misconception := Misconception {
  m_misconception_type : option string;
  m_misconception_detail : option string;
  m_scaffold_topic : option string;
  m_scaffold_hint : option string
}.

Record scaffold_ctx := ScaffoldCtx {
  sc_misconception : misconception;
  sc_scaffold_level : Z;
  sc_parent_history_id : option Z;
  sc_topic : option string;
  sc_original_question : string
}.

(** The payload of a [feedback] event; an optional flag is [None] when the
    event does not carry the key. *)
Record feedback_event := FeedbackEvent {
  f_is_correct : bool;
  f_correct_answer : option json;
  f_feedback : string;
  f_skipped : bool;
  f_analyzing : option bool;
  f_scaffold_maxed : option bool;
  f_scaffold_complete : option bool;
  f_xp_earned : Z;
  f_stats : gam_stats;
  f_leveled_up : bool;
  f_new_achievements : list string
}.

Inductive event :=
| EvPipeline (agents : list (string * string))
| EvProblem (p : problem)
| EvFeedback (f : feedback_event)
| EvScaffoldReady (m : misconception) (scaffold_level : Z)
| EvErrorMsg (message : string).

Inductive agent := Manager | Creator | Helper | Analyst.

(** What the worker does, in order: events it sends, agents it runs, history
    rows it inserts. *)
Inductive effect :=
| Sent (session_id : string) (ev : event)
| AgentRun (role : agent)
| HistoryInsert (row : history_row).

Definition is_history_insert (e : effect) : bool :=
  match e with
  | HistoryInsert _ => true
  | _ => false
  end.

Definition is_scaffold_ready (e : effect) : bool :=
  match e with
  | Sent _ (EvScaffoldReady _ _) => true
  | _ => false
  end.

Definition feedback_of (e : effect) : option feedback_event :=
  match e with
  | Sent _ (EvFeedback f) => Some f
  | _ => None
  end.

(** [run_agent_task]: the text of the reply, or the exception it raises. *)
Inductive reply :=
| Says (text : string)
| Fails (message : string).

Record world := World {
  db : database;
  current_problems : gmap string problem;
  scaffold_states : gmap string scaffold_ctx;
  trace : list effect
}.

Definition initial_world (d : database) : world := World d ∅ ∅ [].

(** The depth bound, on everything a worker leaves behind: the problems and
    scaffold offers of all sessions, and the problems served, offers made and
    rows inserted so far. *)
Definition effect_depth_ok (e : effect) : Prop :=
  match e with
  | Sent _ (EvProblem p) => 0 ≤ p_scaffold_level p ≤ 2
  | Sent _ (EvScaffoldReady _ scaffold_level) => 1 ≤ scaffold_level ≤ 2
  | HistoryInsert row => 0 ≤ h_scaffold_level row ≤ 2
  | _ => True
  end.

Definition depth_ok (w : world) : Prop :=
  (∀ session_id p,
     current_problems w !! session_id = Some p → 0 ≤ p_scaffold_level p ≤ 2)
  ∧ (∀ session_id c,
       scaffold_states w !! session_id = Some c → 1 ≤ sc_scaffold_level c ≤ 2)
  ∧ Forall effect_depth_ok (trace w).

(** [float(x)]: the value, a [ValueError] or [TypeError] (which the grading
    code catches), or another exception (an [OverflowError] for an integer
    outside the binary64 range), which it does not. *)
Inductive conversion :=
| Float (f : float)
| ValueOrTypeError
| OtherError (message : string).

(** The Python functions the workers call on texts and numbers. *)
Class python := Python {
  py_int : string → option Z;
  py_float : string → option float;
  float_of_num : pynum → conversion;
  float_of_json : json → conversion;
  py_str : json → string;
  py_strip : string → string;
  _clean_latex : string → string
}.

Definition send_event (session_id : string) (ev : event) (w : world) : world :=
  World (db w) (current_problems w) (scaffold_states w)
    (trace w ++ [Sent session_id ev]).

Definition record (e : effect) (w : world) : world :=
  World (db w) (current_problems w) (scaffold_states w) (trace w ++ [e]).

Definition with_db (d : database) (w : world) : world :=
  World d (current_problems w) (scaffold_states w) (trace w).

Definition set_problem (session_id : string) (p : problem) (w : world) : world :=
  World (db w) (<[session_id := p]> (current_problems w)) (scaffold_states w)
    (trace w).

Definition set_scaffold (session_id : string) (c : scaffold_ctx) (w : world) : world :=
  World (db w) (current_problems w) (<[session_id := c]> (scaffold_states w))
    (trace w).

(** [scaffold_states.pop(session_id, None)]. *)
Definition pop_scaffold (session_id : string) (w : world) : world :=
  World (db w) (current_problems w) (delete session_id (scaffold_states w))
    (trace w).

Definition pipeline (session_id : string) (agents : list (string * string))
    (w : world) : world :=
  send_event session_id (EvPipeline agents) w.

(** *** Topic extraction *)

Definition KNOWN_TOPICS : list string :=
  [ "Addition"; "Subtraction"; "Multiplication"; "Division";
    "Mixed Operations"; "Fractions"; "Decimals"; "Geometry"; "Word Problems" ].

Definition lower_char (c : ascii) : ascii :=
  if (65 <=? code c)%N && (code c <=? 90)%N then ascii_of_N (code c + 32) else c.

Fixpoint lower (s : string) : string :=
  match s with
  | "" => ""
  | String c s' => String (lower_char c) (lower s')
  end.

Fixpoint contains (needle s : string) : bool :=
  String.prefix needle s
  || match s with
     | String _ s' => contains needle s'
     | "" => false
     end.

Definition _extract_topic_from_analysis (analysis_text : string) : option string :=
  List.find (λ topic, contains (lower topic) (lower analysis_text)) KNOWN_TOPICS.

(** [a or b] on optional texts. *)
Definition or_else (a b : option string) : option string :=
  if truthy a then a else b.

(** *** Reading a reply *)

Fixpoint find_char (c : ascii) (s : string) : option nat :=
  match s with
  | "" => None
  | String d s' => if Ascii.eqb c d then Some O else S <$> find_char c s'
  end.

Fixpoint rfind_char (c : ascii) (s : string) : option nat :=
  match s with
  | "" => None
  | String d s' =>
      match rfind_char c s' with
      | Some i => Some (S i)
      | None => if Ascii.eqb c d then Some O else None
      end
  end.

(** The outermost brace-to-brace span of the reply, parsed leniently; an
    empty object counts as no problem ([if not problem]). *)
Definition parse_reply (result : string) : option (list (string * json)) :=
  match find_char "{" result, rfind_char "}" result with
  | Some start, Some stop =>
      if (start <? stop)%nat then
        match _parse_json_lenient json_loads
                (String.substring start (S stop - start) result) with
        | Some (JObj ((k, v) :: fields)) => Some ((k, v) :: fields)
        | _ => None
        end
      else None
  | _, _ => None
  end.

Section Workers.
Context {py : python}.

(** [d.get(key)]: JSON [null] is Python [None]. *)
Definition get_value (key : string) (d : list (string * json)) : option json :=
  match dict_get key d with
  | Some JNull => None
  | o => o
  end.

(** A value that is not a string stands for its text. *)
Definition get_text (key : string) (d : list (string * json)) : option string :=
  match get_value key d with
  | Some (JStr s) => Some s
  | Some v => Some (py_str v)
  | None => None
  end.

Definition misconception_of (d : list (string * json)) : misconception :=
  Misconception (get_text "misconception_type" d)
    (get_text "misconception_detail" d) (get_text "scaffold_topic" d)
    (get_text "scaffold_hint" d).

(** *** [generate_problem_bg] *)

Definition publish_problem (session_id : string) (p : problem) (w : world) : world :=
  send_event session_id (EvProblem p) (set_problem session_id p w).

Definition generate_problem_bg (session_id : string) (st : student)
    (requested_topic : option string) (manager_says creator_says : reply)
    (rnd : Z → Z) (w : world) : world :=
  let w := pipeline session_id [("manager", "working"); ("creator", "waiting")] w in
  let w := record (AgentRun Manager) w in
  match manager_says with
  | Fails message => send_event session_id (EvErrorMsg message) w
  | Says analysis =>
      let extracted_topic := _extract_topic_from_analysis analysis in
      let resolved_topic := or_else requested_topic extracted_topic in
      let cached :=
        match resolved_topic with
        | Some topic =>
            if truthy resolved_topic then
              find_reusable_problem (db w) rnd (s_grade st)
                (s_curriculum_style st) topic (s_id st) false None 20
            else None
        | None => None
        end in
      match cached with
      | Some (bank_id, row) =>
          let w := with_db (increment_times_served (db w) bank_id) w in
          let w := pipeline session_id [("manager", "done"); ("creator", "done")] w in
          publish_problem session_id
            (Problem (b_question row) (Some (JStr (b_correct_answer row)))
               (b_hint row) (Some (b_topic row)) requested_topic false 0) w
      | None =>
          let w := pipeline session_id [("manager", "done"); ("creator", "working")] w in
          let w := record (AgentRun Creator) w in
          match creator_says with
          | Fails message => send_event session_id (EvErrorMsg message) w
          | Says result =>
              let w := pipeline session_id [("manager", "done"); ("creator", "done")] w in
              let '(question, answer, hint, topic) :=
                match parse_reply result with
                | Some d =>
                    (default "" (get_text "question" d), get_value "correct_answer" d,
                     default "" (get_text "hint" d), get_text "topic" d)
                | None =>
                    (py_strip result, None, "Try your best!",
                     or_else requested_topic (Some "Unknown"))
                end in
              let question := _clean_latex question in
              let hint := _clean_latex hint in
              let save_topic :=
                default "Unknown" (or_else topic (or_else resolved_topic (Some "Unknown"))) in
              let w :=
                match answer with
                | Some a =>
                    with_db (save_to_problem_bank (db w) (s_grade st)
                               (s_curriculum_style st) save_topic question
                               (py_str a) hint false None).2 w
                | None => w
                end in
              publish_problem session_id
                (Problem question answer hint topic requested_topic false 0) w
          end
      end
  end.

(** *** [check_answer_bg] *)

(** [int(answer_str)], then [float(answer_str)]. *)
Definition parse_answer (answer_str : string) : option pynum :=
  match py_int answer_str with
  | Some z => Some (PyInt z)
  | None => PyFloat <$> py_float answer_str
  end.

Inductive grading :=
| Graded (is_correct : bool)
| GradingRaised (message : string).

(** [float(student_num) == float(correct_answer)] under
    [except (ValueError, TypeError)]; a missing answer is never correct. *)
Definition grade (student_num : pynum) (correct_answer : option json) : grading :=
  match correct_answer with
  | None => Graded false
  | Some a =>
      match float_of_num student_num with
      | Float x =>
          match float_of_json a with
          | Float y => Graded (PrimFloat.eqb x y)
          | ValueOrTypeError => Graded false
          | OtherError message => GradingRaised message
          end
      | ValueOrTypeError => Graded false
      | OtherError message => GradingRaised message
      end
  end.

(** The gamification block that precedes every [feedback] event. *)
Definition feedback_with_stats (session_id : string) (st : student)
    (gam_before : gam_stats)
    (make : Z → gam_stats → bool → list string → feedback_event)
    (w : world) : world :=
  let gam_after := get_gamification_stats (db w) (s_id st) in
  let '(new_achievements, d) := check_achievements (db w) (s_id st) in
  let w := with_db d w in
  send_event session_id
    (EvFeedback (make (xp gam_after - xp gam_before) gam_after
                   (level gam_before <? level gam_after) new_achievements)) w.

Definition store_feedback (history_id : option Z) (feedback : string) (w : world) : world :=
  match history_id with
  | Some id => with_db (update_feedback (db w) id feedback) w
  | None => w
  end.

Definition unknown_misconception (topic : option string) : misconception :=
  Misconception (Some "unknown") (Some "Could not determine the specific error")
    (or_else topic (Some "General math")) (Some "Try thinking step by step!").

Definition check_answer_bg (session_id : string) (st : student)
    (answer_str : string) (helper_says analyst_says : reply) (w : world) : world :=
  match current_problems w !! session_id with
  | None => send_event session_id (EvErrorMsg "No active problem") w
  | Some problem =>
      let question := p_question problem in
      let correct_answer := p_correct_answer problem in
      let topic := p_topic problem in
      let scaffold_level := p_scaffold_level problem in
      match parse_answer answer_str with
      | None => send_event session_id (EvErrorMsg "Please enter a number") w
      | Some student_num =>
          match grade student_num correct_answer with
          | GradingRaised message => send_event session_id (EvErrorMsg message) w
          | Graded is_correct =>
              let parent_history_id :=
                scaffold_states w !! session_id ≫= sc_parent_history_id in
              let gam_before := get_gamification_stats (db w) (s_id st) in
              let row :=
                HistoryRow (s_id st) question correct_answer (AnsNum student_num)
                  is_correct topic (p_requested_topic problem) None
                  (if is_correct then None else Some "needs review") None None
                  scaffold_level parent_history_id in
              let w := record (HistoryInsert row) (with_db (save_result (db w) row) w) in
              let history_id := get_last_history_id (db w) (s_id st) in
              let w := pipeline session_id [("helper", "working")] w in
              let w := record (AgentRun Helper) w in
              match helper_says with
              | Fails message => send_event session_id (EvErrorMsg message) w
              | Says feedback =>
                  let w := store_feedback history_id feedback w in
                  let w := pipeline session_id [("helper", "done")] w in
                  if is_correct then
                    if p_is_scaffold problem then
                      feedback_with_stats session_id st gam_before
                        (λ earned after up new,
                           FeedbackEvent true correct_answer feedback false None
                             None (Some true) earned after up new)
                        (pop_scaffold session_id w)
                    else
                      feedback_with_stats session_id st gam_before
                        (λ earned after up new,
                           FeedbackEvent true correct_answer feedback false None
                             None None earned after up new) w
                  else if 2 <=? scaffold_level then
                    feedback_with_stats session_id st gam_before
                      (λ earned after up new,
                         FeedbackEvent false correct_answer feedback false
                           (Some false) (Some true) None earned after up new)
                      (pop_scaffold session_id w)
                  else
                    let w :=
                      feedback_with_stats session_id st gam_before
                        (λ earned after up new,
                           FeedbackEvent false correct_answer feedback false
                             (Some true) None None earned after up new) w in
                    let w := pipeline session_id [("analyst", "working")] w in
                    let w := record (AgentRun Analyst) w in
                    match analyst_says with
                    | Fails message => send_event session_id (EvErrorMsg message) w
                    | Says analyst_result =>
                        let w := pipeline session_id [("analyst", "done")] w in
                        let m :=
                          match parse_reply analyst_result with
                          | Some d => misconception_of d
                          | None => unknown_misconception topic
                          end in
                        let w :=
                          match history_id with
                          | Some id =>
                              with_db (update_misconception (db w) id
                                         (Some (default "unknown" (m_misconception_type m)))
                                         (Some (default "" (m_misconception_detail m)))) w
                          | None => w
                          end in
                        let next_level := scaffold_level + 1 in
                        let parent :=
                          match parent_history_id with
                          | Some id => if id =? 0 then history_id else Some id
                          | None => history_id
                          end in
                        let w :=
                          set_scaffold session_id
                            (ScaffoldCtx m next_level parent topic question) w in
                        send_event session_id (EvScaffoldReady m next_level) w
                    end
              end
          end
      end
  end.

(** *** [generate_scaffold_problem_bg] *)

Definition generate_scaffold_problem_bg (session_id : string) (st : student)
    (creator_says : reply) (rnd : Z → Z) (w : world) : world :=
  match scaffold_states w !! session_id with
  | None => send_event session_id (EvErrorMsg "No scaffold context") w
  | Some ctx =>
      let m := sc_misconception ctx in
      let scaffold_level := sc_scaffold_level ctx in
      let topic := sc_topic ctx in
      let misconception_type := m_misconception_type m in
      let cached :=
        match topic with
        | Some t =>
            find_reusable_problem (db w) rnd (s_grade st) (s_curriculum_style st)
              t (s_id st) true misconception_type 20
        | None => None
        end in
      let finish (question : string) (answer : option json) (hint : string)
                 (problem_topic : option string) (w : world) : world :=
        publish_problem session_id
          (Problem question answer hint problem_topic None true scaffold_level) w in
      match cached with
      | Some (bank_id, row) =>
          let w := with_db (increment_times_served (db w) bank_id) w in
          let w := pipeline session_id [("creator", "done")] w in
          finish (b_question row) (Some (JStr (b_correct_answer row))) (b_hint row)
            (Some (b_topic row)) w
      | None =>
          let w := pipeline session_id [("creator", "working")] w in
          let w := record (AgentRun Creator) w in
          match creator_says with
          | Fails message => send_event session_id (EvErrorMsg message) w
          | Says result =>
              let w := pipeline session_id [("creator", "done")] w in
              let '(question, answer, hint, problem_topic, bank_topic) :=
                match parse_reply result with
                | Some d =>
                    (default "" (get_text "question" d), get_value "correct_answer" d,
                     default "" (get_text "hint" d), get_text "topic" d,
                     match dict_get "topic" d with
                     | Some _ => get_text "topic" d
                     | None => topic
                     end)
                | None =>
                    let t := or_else topic (Some "Unknown") in
                    (py_strip result, None,
                     default "Try your best!" (m_scaffold_hint m), t, t)
                end in
              let question := _clean_latex question in
              let hint := _clean_latex hint in
              match answer, bank_topic with
              | Some a, None =>
                  send_event session_id
                    (EvErrorMsg "NOT NULL constraint failed: problem_bank.topic") w
              | Some a, Some t =>
                  finish question answer hint problem_topic
                    (with_db (save_to_problem_bank (db w) (s_grade st)
                                (s_curriculum_style st) t question (py_str a) hint
                                true misconception_type).2 w)
              | None, _ => finish question answer hint problem_topic w
              end
          end
      end
  end.

(** *** Routes *)

(** [api_new_problem] drops the scaffold context before the worker runs. *)
Definition api_new_problem (session_id : string) (st : student)
    (topic : option string) (manager_says creator_says : reply) (rnd : Z → Z)
    (w : world) : world :=
  generate_problem_bg session_id st topic manager_says creator_says rnd
    (pop_scaffold session_id w).

(** [api_submit_answer] strips the text and refuses an empty answer. *)
Definition api_submit_answer (session_id : string) (st : student)
    (answer : string) (helper_says analyst_says : reply) (w : world) : world :=
  let answer := py_strip answer in
  if String.eqb answer "" then w
  else check_answer_bg session_id st answer helper_says analyst_says w.

(** [api_scaffold_problem] answers 400 without a scaffold context. *)
Definition api_scaffold_problem (session_id : string) (st : student)
    (creator_says : reply) (rnd : Z → Z) (w : world) : world :=
  match scaffold_states w !! session_id with
  | None => w
  | Some _ => generate_scaffold_problem_bg session_id st creator_says rnd w
  end.

(** [api_skip]: the row it writes for the active problem, and the snapshot
    it answers with. *)
Definition skipped_row (student_id : Z) (p : problem) : history_row :=
  HistoryRow student_id (p_question p) (p_correct_answer p) (AnsText "skipped")
    false (p_topic p) (p_requested_topic p) None (Some "skipped") None None 0 None.

Definition api_skip (session_id : string) (student_id : Z) (w : world)
    : option gam_stats * world :=
  if (student_id =? 0) || String.eqb session_id "" then (None, w)
  else
    let w :=
      match current_problems w !! session_id with
      | Some p =>
          let row := skipped_row student_id p in
          record (HistoryInsert row) (with_db (save_result (db w) row) w)
      | None => w
      end in
    (Some (get_gamification_stats (db w) student_id), w).

(** *** Sessions as sequences of requests *)

Inductive request :=
| NewProblem (session_id : string) (st : student) (topic : option string)
    (manager_says creator_says : reply) (rnd : Z → Z)
| SubmitAnswer (session_id : string) (st : student) (answer : string)
    (helper_says analyst_says : reply)
| ScaffoldProblem (session_id : string) (st : student) (creator_says : reply)
    (rnd : Z → Z)
| SkipProblem (session_id : string) (student_id : Z).

Definition handle (w : world) (r : request) : world :=
  match r with
  | NewProblem sid st topic m c rnd => api_new_problem sid st topic m c rnd w
  | SubmitAnswer sid st answer h a => api_submit_answer sid st answer h a w
  | ScaffoldProblem sid st c rnd => api_scaffold_problem sid st c rnd w
  | SkipProblem sid student_id => (api_skip sid student_id w).2
  end.

Definition serve_requests (d : database) (requests : list request) : world :=
  foldl handle (initial_world d) requests.
End Workers.

(** ** Sample data *)

Definition dq (s : string) : string :=
  string_of_list_ascii
    ((λ c, if Ascii.eqb c "'" then dquote else c) <$> list_ascii_of_string s).


Definition correct_row (student_id : Z) (q : string) : history_row :=
  HistoryRow student_id q (Some (JInt 4)) (AnsNum (PyInt 4)) true
    (Some "Addition") None None None None None 0 None.

Definition wrong_row (student_id : Z) (q : string) : history_row :=
  HistoryRow student_id q (Some (JInt 4)) (AnsNum (PyInt 5)) false
    (Some "Addition") None None (Some "needs review") None None 0 None.

Definition five_correct_db : database :=
  Database [correct_row 1 "a"; wrong_row 2 "x"; correct_row 1 "b";
            correct_row 1 "c"; correct_row 1 "d"; correct_row 1 "e"] [] [].

Definition bank_2plus3 : bank_row :=
  BankRow 4 "common_core" "Addition" "2+3" "5" "Count on" false None 0.

Definition bank_9plus1 : bank_row :=
  BankRow 4 "common_core" "Addition" "9+1" "10" "hint" false None 0.

Definition one_problem_db : database := Database [] [bank_2plus3] [].

Definition served_problem_db : database := Database [] [serve bank_2plus3] [].


Definition latex_reply : string :=
  dq "{'question': 'What is \( 3 + 4 \)?', 'correct_answer': 7}".

Definition mixed_reply : string :=
  dq "{'question': 'C:\\dir and \( 3 + 4 \)', 'correct_answer': 7}".

(** A small instance of the Python interface, exact on plain decimal
    literals (a sign, digits, an optional fraction); it runs the workers on
    the examples below. *)
Definition split_sign (s : string) : bool * string :=
  match s with
  | String c r =>
      if Ascii.eqb c "-" then (true, r)
      else if Ascii.eqb c "+" then (false, r) else (false, s)
  | "" => (false, s)
  end.

Definition decimal_int (s : string) : option Z :=
  let '(neg, body) := split_sign s in
  let '(ds, r) := span_digits body in
  if negb (String.eqb ds "") && String.eqb r ""
  then Some (if neg then - digits_value 0 ds else digits_value 0 ds)
  else None.

(** [float(z)] for an integer: round to nearest even. *)
Definition float_of_Z (z : Z) : float :=
  SF2Prim (binary_normalize prec emax z 0 false).

(** [m / 10^k], rounded once: the quotient is taken with more than 64 bits
    and a sticky bit for the remainder. *)
Definition float_of_decimal (neg : bool) (m : Z) (k : nat) : float :=
  let d := 10 ^ Z.of_nat k in
  let s := Z.max 0 (64 + Z.log2 d - Z.log2 m) in
  let q := (m * 2 ^ s) / d in
  let sticky := if (m * 2 ^ s) mod d =? 0 then 0 else 1 in
  SF2Prim (binary_normalize prec emax
             ((if neg then -1 else 1) * (2 * q + sticky)) (- (s + 1)) neg).

Definition decimal_float (s : string) : option float :=
  let '(neg, body) := split_sign s in
  let '(ip, r) := span_digits body in
  match r with
  | "" =>
      if String.eqb ip "" then None
      else Some (float_of_decimal neg (digits_value 0 ip) 0)
  | String c r' =>
      let '(fp, r'') := span_digits r' in
      if Ascii.eqb c "." && String.eqb r'' ""
         && negb (String.eqb ip "" && String.eqb fp "")
      then Some (float_of_decimal neg (digits_value 0 (ip ++ fp)%string)
                   (String.length fp))
      else None
  end.

Definition float_of_int (z : Z) : conversion :=
  if 2 ^ 1024 - 2 ^ 970 <=? Z.abs z
  then OtherError "int too large to convert to float"
  else Float (float_of_Z z).

Definition is_space (c : ascii) : bool :=
  (code c =? 32)%N || ((9 <=? code c)%N && (code c <=? 13)%N).

Fixpoint lstrip (s : string) : string :=
  match s with
  | String c s' => if is_space c then lstrip s' else s
  | "" => ""
  end.

Definition strip (s : string) : string :=
  String.rev (lstrip (String.rev (lstrip s))).

Definition sample_python : python :=
  {| py_int := decimal_int;
     py_float := decimal_float;
     float_of_num := λ n, match n with
                          | PyInt z => float_of_int z
                          | PyFloat f => Float f
                          end;
     float_of_json := λ v, match v with
                           | JInt z => float_of_int z
                           | JBool b => Float (if b then 1 else 0)
                           | JFloat s | JStr s =>
                               match decimal_float s with
                               | Some f => Float f
                               | None => ValueOrTypeError
                               end
                           | _ => ValueOrTypeError
                           end;
     py_str := λ v, match v with
                    | JStr s | JFloat s => s
                    | JInt z => pretty z
                    | JBool true => "True"
                    | JBool false => "False"
                    | JNull => "None"
                    | _ => ""
                    end;
     py_strip := strip;
     _clean_latex := λ s, s |}.

Definition ada : student := Student 1 "Ada" 4 "common_core".

Definition depth0_problem : problem :=
  Problem "What is 2+2?" (Some (JInt 4)) "Count up" (Some "Addition") None false 0.

Definition depth2_problem : problem :=
  Problem "What is 1+3?" (Some (JStr "4")) "Count up" (Some "Addition") None true 2.

Definition depth2_context : scaffold_ctx :=
  ScaffoldCtx (Misconception (Some "careless") (Some "slip") (Some "Addition")
                 (Some "Go slowly"))
    2 (Some 1) (Some "Addition") "What is 2+2?".

Definition depth0_world : world :=
  World (Database [] [] []) {[ "s1" := depth0_problem ]} ∅ [].

Definition depth2_world : world :=
  World (Database [wrong_row 1 "What is 2+2?"] [] [])
    {[ "s1" := depth2_problem ]} {[ "s1" := depth2_context ]} [].

Definition huge_answer : string :=
  String "1" (string_of_list_ascii (replicate 400 "0"%char)).

Definition same_float (o : option float) (f : float) : bool :=
  match o with
  | Some g => PrimFloat.eqb g f
  | None => false
  end.
(** ** Gamification: what one more row does *)

Definition run_bonus (streak : Z) : Z :=
  (if 3 <=? streak then 3 else 0) + (if 5 <=? streak then 5 else 0)
  + (if 10 <=? streak then 10 else 0) + (if 20 <=? streak then 20 else 0).

(** [get_history]: the student's rows with their keys, newest first. *)
Definition get_history (d : database) (student_id limit : Z)
    : list (Z * history_row) :=
  sql_limit limit
    (reverse (filter (λ ir, h_student_id ir.2 = student_id)
                (with_ids (history d)))).

(** The columns the queries over a student's history read. *)
Definition same_core (r r' : history_row) : Prop :=
  h_student_id r = h_student_id r' ∧ h_question r = h_question r'
  ∧ h_is_correct r = h_is_correct r' ∧ h_topic r = h_topic r'
  ∧ h_scaffold_level r = h_scaffold_level r'.

(** [int(part / whole * 100)] in binary64; the counts are far below 2^53. *)
Definition pct_binary64 (part whole : Z) : Z :=
  int_of_float (float_of_small part / float_of_small whole * 100)%float.

(** The percentage is at most one below the exact one, never above it and
    never negative. *)
Definition pct_close (whole part : Z) : bool :=
  let exact := 100 * part / whole in
  let pct := pct_binary64 part whole in
  (Z.max 0 (exact - 1) <=? pct) && (pct <=? exact).

Definition pct_close_upto (whole : Z) : bool :=
  all_from (pct_close whole) 0 (Z.to_nat (whole + 1)).

Record topic_stats := TopicStats {
  ts_total : Z;
  ts_correct : Z;
  ts_pct : Z
}.

Record stats := Stats {
  st_total : Z;
  st_correct : Z;
  st_pct : Z;
  st_topics : gmap string topic_stats
}.

Definition has_topic (topic : string) (r : history_row) : bool :=
  bool_decide (h_topic r = Some topic).

(** One group of [GROUP BY topic]. *)
Definition topic_group (rows : list history_row) (topic : string) : topic_stats :=
  let total := count_where (has_topic topic) rows in
  let correct := count_where (λ r, has_topic topic r && h_is_correct r) rows in
  TopicStats total correct (if 0 <? total then pct_binary64 correct total else 0).

Definition get_stats (d : database) (student_id : Z) : stats :=
  let rows := student_history d student_id in
  let total := Z.of_nat (length rows) in
  let correct := count_where h_is_correct rows in
  Stats total correct (if 0 <? total then pct_binary64 correct total else 0)
    (list_to_map ((λ topic, (topic, topic_group rows topic))
                    <$> remove_dups (omap h_topic rows))).

(** The loop of [get_score_over_time]: problem number, correctness and
    running percentage. *)
Fixpoint running_accuracy (i running_correct : Z) (rows : list history_row)
    : list (Z * bool * Z) :=
  match rows with
  | [] => []
  | r :: rows' =>
      let running_correct := running_correct + (if h_is_correct r then 1 else 0) in
      (i + 1, h_is_correct r, pct_binary64 running_correct (i + 1))
      :: running_accuracy (i + 1) running_correct rows'
  end.

(** The student's latest [limit] rows, oldest first. *)
Definition latest_rows (d : database) (student_id limit : Z) : list history_row :=
  reverse (sql_limit limit (reverse (student_history d student_id))).

Definition get_score_over_time (d : database) (student_id limit : Z)
    : list (Z * bool * Z) :=
  running_accuracy 0 0 (latest_rows d student_id limit).

(** A row of the [student] table, without its two timestamps. *)
Record student_row := StudentRow {
  sr_name : string;
  sr_pin : string;
  sr_grade : Z;
  sr_curriculum_style : string
}.

(** The two functions of the [bcrypt] package [db.py] calls: [hashpw] with
    the salt [gensalt] drew, and [checkpw], which raises ([None]) on a text
    that is no hash. *)
Class bcrypt := Bcrypt {
  hashpw : string → string → string;
  checkpw : string → string → option bool
}.

Definition get_student (students : list student_row) (student_id : Z)
    : option student_row :=
  if student_id <? 1 then None else students !! Z.to_nat (student_id - 1).

Definition set_pin (pin : string) (r : student_row) : student_row :=
  StudentRow (sr_name r) pin (sr_grade r) (sr_curriculum_style r).

Section Students.

Context {bc : bcrypt}.

Definition _hash_pin (salt pin : string) : string := hashpw pin salt.

Definition _verify_pin_hash (pin hashed : string) : option bool :=
  checkpw pin hashed.

Definition _migrate_pin (students : list student_row) (salt : string)
    (student_id : Z) (pin : string) : list student_row :=
  update_row (set_pin (_hash_pin salt pin)) student_id students.

(** [verify_pin]: the answer ([None] when [checkpw] raises) and the table
    it leaves. *)
Definition verify_pin (students : list student_row) (salt : string)
    (student_id : Z) (pin : string) : option bool * list student_row :=
  match get_student students student_id with
  | None => (Some false, students)
  | Some row =>
      let stored := sr_pin row in
      if String.prefix "$2" stored then (_verify_pin_hash pin stored, students)
      else if String.eqb stored pin
           then (Some true, _migrate_pin students salt student_id pin)
           else (Some false, students)
  end.

Definition create_student (students : list student_row) (salt : string)
    (name pin : string) (grade : Z) (curriculum_style : string)
    : Z * list student_row :=
  (Z.of_nat (S (length students)),
   students ++ [StudentRow name (_hash_pin salt pin) grade curriculum_style]).

(** [update_student]: a field that is [None] keeps its value; with no field
    at all no statement is run. *)
Definition update_student (students : list student_row) (salt : string)
    (student_id : Z) (name : option string) (grade : option Z)
    (pin curriculum_style : option string) : list student_row :=
  match name, grade, pin, curriculum_style with
  | None, None, None, None => students
  | _, _, _, _ =>
      update_row
        (λ r, StudentRow (default (sr_name r) name)
                (default (sr_pin r) (_hash_pin salt <$> pin))
                (default (sr_grade r) grade)
                (default (sr_curriculum_style r) curriculum_style))
        student_id students
  end.

End Students.

(** A stand-in for [bcrypt] to run the functions on: the hash is the
    marked PIN, the salt is not used. *)
Definition sample_bcrypt : bcrypt :=
  {| hashpw := λ pin salt, String "$" (String "2" (String "b" (String "$" pin)));
     checkpw := λ pin hashed,
       if String.prefix "$2b$" hashed
       then Some (String.eqb hashed
                    (String "$" (String "2" (String "b" (String "$" pin)))))
       else None |}.

Definition legacy_students : list student_row :=
  [StudentRow "Ada" "1234" 4 "common_core"; StudentRow "Bo" "$2b$s$9999" 2 "rsm"].

(** No two backslashes next to each other. *)
Fixpoint backslashes_apart (s : string) : bool :=
  match s with
  | "" => true
  | String c s' =>
      (if Ascii.eqb c backslash
       then match s' with
            | String d _ => negb (Ascii.eqb d backslash)
            | "" => true
            end
       else true)
      && backslashes_apart s'
  end.

(** A backslash that the pattern matches: no escape character follows. *)
Fixpoint lone_backslash (s : string) : bool :=
  match s with
  | "" => false
  | String c s' =>
      (Ascii.eqb c backslash && negb (next_is_escape s')) || lone_backslash s'
  end.

Fixpoint without_backslashes (s : string) : string :=
  match s with
  | "" => ""
  | String c s' =>
      if Ascii.eqb c backslash then without_backslashes s'
      else String c (without_backslashes s')
  end.

(** ** Clearing LaTeX ([_clean_latex]) *)

Definition form_feed : ascii := "012"%char.

(** [s] without the prefix [p], when it starts with it. *)
Fixpoint strip_prefix (p s : string) : option string :=
  match p with
  | "" => Some s
  | String c p' =>
      match s with
      | String d s' => if Ascii.eqb c d then strip_prefix p' s' else None
      | "" => None
      end
  end.

(** The text up to the first [c] and the text after it. *)
Fixpoint span_until (c : ascii) (s : string) : option (string * string) :=
  match s with
  | "" => None
  | String d s' =>
      if Ascii.eqb c d then Some ("", s')
      else '(before, after) ← span_until c s'; Some (String d before, after)
  end.

(** [re.sub] and [str.replace] for a pattern that matches no empty text:
    [pattern] tries a match at the start of the text and gives the
    replacement and the text after the match.  The scan goes on behind the
    match; [fuel] bounds its steps. *)
Fixpoint re_sub (fuel : nat) (pattern : string → option (string * string))
    (text : string) : string :=
  match fuel, text with
  | S fuel', String c text' =>
      match pattern text with
      | Some (replacement, rest) => (replacement ++ re_sub fuel' pattern rest)%string
      | None => String c (re_sub fuel' pattern text')
      end
  | _, _ => text
  end.

Definition sub_all (pattern : string → option (string * string)) (text : string)
    : string :=
  re_sub (String.length text) pattern text.

(** The fraction command: [lead], then [rac], a braced numerator and a
    braced denominator, neither holding a closing brace; replaced by the
    numerator, a slash and the denominator.  [lead] is the way the command
    starts: a backslash and [f], or a form feed. *)
Definition frac_pattern (lead : string) (text : string) : option (string * string) :=
  rest ← strip_prefix (lead ++ "rac{")%string text;
  '(numerator, rest) ← span_until "}" rest;
  rest ← strip_prefix "{" rest;
  '(denominator, rest) ← span_until "}" rest;
  Some ((numerator ++ "/" ++ denominator)%string, rest).

(** A backslash and one of the two characters, replaced by nothing. *)
Definition delimiter_pattern (a b : ascii) (text : string) : option (string * string) :=
  match text with
  | String c (String d rest) =>
      if Ascii.eqb c backslash && (Ascii.eqb d a || Ascii.eqb d b)
      then Some ("", rest) else None
  | _ => None
  end.

(** [str.replace(old, new)]. *)
Definition literal_pattern (old new : string) (text : string) : option (string * string) :=
  rest ← strip_prefix old text; Some (new, rest).

(** The text command with a braced argument that holds no closing brace,
    replaced by the argument. *)
Definition text_pattern (text : string) : option (string * string) :=
  rest ← strip_prefix (String backslash "text{") text;
  '(inner, rest) ← span_until "}" rest;
  Some (inner, rest).

Definition clean_latex_passes (text : string) : string :=
  let text := sub_all (frac_pattern (String backslash "f")) text in
  let text := sub_all (frac_pattern (String form_feed "")) text in
  let text := sub_all (delimiter_pattern "(" "[") text in
  let text := sub_all (delimiter_pattern ")" "]") text in
  let text := sub_all (literal_pattern (String backslash "times") "x") text in
  let text := sub_all (literal_pattern (String backslash "div") "/") text in
  let text := sub_all (literal_pattern (String backslash "cdot") "*") text in
  let text := sub_all text_pattern text in
  sub_all (literal_pattern (String form_feed "") "") text.

Section CleanLatex.

Context {py : python}.

(** [_clean_latex] on a text: the empty text comes back as it is. *)
Definition clean_latex (text : string) : string :=
  if String.eqb text "" then text else py_strip (clean_latex_passes text).

End CleanLatex.

(** No backslash and no form feed. *)
Fixpoint plain (s : string) : bool :=
  match s with
  | "" => true
  | String c s' =>
      negb (Ascii.eqb c backslash) && negb (Ascii.eqb c form_feed) && plain s'
  end.

Fixpoint has_char (c : ascii) (s : string) : bool :=
  match s with
  | "" => false
  | String d s' => Ascii.eqb c d || has_char c s'
  end.

(** A pattern that can only match at the character [c0]. *)
Definition triggered_by (c0 : ascii) (pattern : string → option (string * string)) : Prop :=
  ∀ c text, Ascii.eqb c0 c = false → pattern (String c text) = None.

(** A match leaves less text than there was. *)
Definition consumes (pattern : string → option (string * string)) : Prop :=
  ∀ c text replacement rest,
    pattern (String c text) = Some (replacement, rest) →
    (String.length rest ≤ String.length text)%nat.

(** The nine passes of [_clean_latex] with the character each starts at. *)
Definition latex_patterns : list (ascii * (string → option (string * string))) :=
  [ (backslash, frac_pattern (String backslash "f"));
    (form_feed, frac_pattern (String form_feed ""));
    (backslash, delimiter_pattern "(" "[");
    (backslash, delimiter_pattern ")" "]");
    (backslash, literal_pattern (String backslash "times") "x");
    (backslash, literal_pattern (String backslash "div") "/");
    (backslash, literal_pattern (String backslash "cdot") "*");
    (backslash, text_pattern);
    (form_feed, literal_pattern (String form_feed "") "") ].

(** ** Curriculum information ([get_curriculum_info]) *)

Record curriculum_style := CurriculumStyle {
  cs_display_name : string;
  cs_pedagogy : string;
  cs_grades : list (Z * string)
}.

Definition common_core_style : curriculum_style :=
  CurriculumStyle "Common Core"
    "Focus on conceptual understanding and real-world problem solving. Use visual models (number lines, area models, tape diagrams). Emphasize explaining reasoning and multiple solution strategies. Align with California Common Core State Standards."
    [ (1, "Addition and subtraction within 20, place value to 120, measuring lengths, basic shapes");
      (2, "Addition and subtraction within 100, intro to place value (hundreds), measuring/estimating lengths, basic arrays for multiplication");
      (3, "Multiplication and division within 100, fractions on number lines, area and perimeter, rounding to nearest 10/100");
      (4, "Multi-digit arithmetic, fraction equivalence and ordering, decimal notation (tenths/hundredths), angles and lines, multi-step word problems");
      (5, "Fraction operations (add/subtract/multiply), decimal operations, volume, coordinate plane, order of operations");
      (6, "Ratios and proportional relationships, dividing fractions, integers and rational numbers, expressions and equations, statistical thinking") ].

Definition rsm_style : curriculum_style :=
  CurriculumStyle "RSM"
    "Emphasize logical reasoning and algebraic thinking from early grades. Use challenging multi-step problems that build abstract thinking. Introduce concepts 1-2 years ahead of standard curriculum. Focus on problem-solving strategies, pattern recognition, and mathematical proof. Russian School of Mathematics approach."
    [ (1, "Addition/subtraction within 100, intro to multiplication as groups, simple logic puzzles, number patterns, basic algebraic thinking (find the missing number)");
      (2, "Multiplication/division facts, multi-step addition/subtraction, intro to fractions as parts, number patterns and sequences, simple equations with unknowns");
      (3, "Multi-digit multiplication, long division, fraction operations, intro to negative numbers, algebraic expressions, logic and combinatorics problems");
      (4, "Advanced fraction/decimal operations, intro to ratios, order of operations with parentheses, coordinate graphing, multi-step challenge word problems, basic number theory (factors/multiples/primes)");
      (5, "Ratio and proportion, percent applications, integer arithmetic, algebraic equations (one variable), geometry proofs (angles, triangles), combinatorics and probability intro");
      (6, "Linear equations and inequalities, advanced ratios/proportions/percents, geometry (circles, Pythagorean theorem intro), statistics, exponents, intro to functions") ].

Definition singapore_style : curriculum_style :=
  CurriculumStyle "Singapore Math"
    "CPA (Concrete-Pictorial-Abstract) approach. Use bar models for word problems and part-whole/comparison models. Emphasize number bonds, mental math strategies, and place value mastery. Build deep number sense before moving to algorithms. Singapore Math / Math in Focus methodology."
    [ (1, "Number bonds within 20, addition/subtraction strategies (making 10), place value to 100, mental math, bar models for simple word problems, basic shapes and patterns");
      (2, "Addition/subtraction within 1000, multiplication tables (2,3,4,5,10), bar models for two-step problems, mental math strategies, measurement (length, mass, volume), money");
      (3, "All multiplication/division facts, bar models for multi-step problems, fraction concepts (naming, comparing, equivalent), mental math (compensation, rounding), area and perimeter, time and measurement");
      (4, "Multi-digit multiplication/division, fraction operations (like denominators), decimal concepts and operations, bar models for fraction/ratio word problems, angles and geometric figures, data analysis");
      (5, "Fraction operations (unlike denominators, multiply/divide), decimal operations, ratio and proportion, percent, volume of solids, coordinate geometry, algebraic expressions");
      (6, "Advanced ratio/proportion/percent, algebraic expressions and equations, geometry (area of triangles/circles, nets, surface area), data analysis and probability, negative numbers, rate and speed problems") ].

Definition CURRICULUM_STYLES : list (string * curriculum_style) :=
  [ ("common_core", common_core_style); ("rsm", rsm_style);
    ("singapore", singapore_style) ].

Definition VALID_STYLES : list string := fst <$> CURRICULUM_STYLES.

(** [d.get(key)] on a dictionary literal. *)
Definition assoc_get {K V} `{EqDecision K} (key : K) (d : list (K * V)) : option V :=
  snd <$> List.find (λ kv, bool_decide (kv.1 = key)) d.

Definition get_curriculum_info (grade : Z) (style : string) : string * string :=
  let s := default common_core_style (assoc_get style CURRICULUM_STYLES) in
  let grade_scope :=
    default (default "" (assoc_get 4 (cs_grades s))) (assoc_get grade (cs_grades s)) in
  (grade_scope, cs_pedagogy s).

(** [count] skip requests in a row. *)
Fixpoint skip_repeatedly (count : nat) (session_id : string) (student_id : Z)
    (w : world) : world :=
  match count with
  | O => w
  | S count' =>
      (api_skip session_id student_id
         (skip_repeatedly count' session_id student_id w)).2
  end.

(** ** Sessions do not interfere *)

Definition request_session (r : request) : string :=
  match r with
  | NewProblem session_id _ _ _ _ _ => session_id
  | SubmitAnswer session_id _ _ _ _ => session_id
  | ScaffoldProblem session_id _ _ _ => session_id
  | SkipProblem session_id _ => session_id
  end.

(** An event names the session it is sent to; the other effects name none. *)
Definition sent_to (session_id : string) (e : effect) : Prop :=
  match e with
  | Sent s _ => s = session_id
  | _ => True
  end.

(** What a worker for [session_id] may do to the session state: extend the
    trace with effects of its own session, and leave the entries of the other
    sessions alone. *)
Definition session_frame (session_id : string) (w w' : world) : Prop :=
  (∀ other, other ≠ session_id →
     current_problems w' !! other = current_problems w !! other
     ∧ scaffold_states w' !! other = scaffold_states w !! other)
  ∧ ∃ added, trace w' = trace w ++ added ∧ Forall (sent_to session_id) added.

(** ** The history only grows *)

Definition request_student (r : request) : Z :=
  match r with
  | NewProblem _ st _ _ _ _ => s_id st
  | SubmitAnswer _ st _ _ _ => s_id st
  | ScaffoldProblem _ st _ _ => s_id st
  | SkipProblem _ student_id => student_id
  end.

(** ** More sample data *)

Definition two_problem_db : database :=
  Database [] [bank_2plus3; bank_9plus1] [].

(** * Properties *)

(** ** Lenient parsing *)

Lemma classify_backslash (c : ascii) :
  classify c = CBackslash ↔ Ascii.eqb c backslash = true.
Proof.
  destruct c as [[] [] [] [] [] [] [] []]; vm_compute; split; congruence.
Qed.

Lemma unescape_is_escape (e : ascii) (d : ascii) :
  unescape e = Some d → is_json_escape_char e = true.
Proof.
  destruct e as [[] [] [] [] [] [] [] []]; vm_compute; congruence.
Qed.

Lemma hex_not_backslash (c : ascii) (n : N) :
  hex_value c = Some n → Ascii.eqb c backslash = false.
Proof.
  destruct c as [[] [] [] [] [] [] [] []]; vm_compute; congruence.
Qed.

Lemma has_invalid_escape_skip (c : ascii) (s : string) :
  Ascii.eqb c backslash = false →
  has_invalid_escape (String c s) = has_invalid_escape s.
Proof. intros H. cbn [has_invalid_escape]. by rewrite H. Qed.


Lemma classify_not_backslash (c : ascii) :
  classify c ≠ CBackslash → Ascii.eqb c backslash = false.
Proof.
  intros Hc. destruct (Ascii.eqb c backslash) eqn:E; [|done].
  by apply classify_backslash in E.
Qed.

Lemma hex4_not_backslash (a b c d : ascii) (n : N) (s : string) :
  hex4 a b c d = Some n →
  has_invalid_escape (String a (String b (String c (String d s))))
  = has_invalid_escape s.
Proof.
  unfold hex4. intros H.
  destruct (hex_value a) eqn:Ha; [|done].
  destruct (hex_value b) eqn:Hb; [|done].
  destruct (hex_value c) eqn:Hc; [|done].
  destruct (hex_value d) eqn:Hd; [|done].
  rewrite !has_invalid_escape_skip by eauto using hex_not_backslash. done.
Qed.

(** The tokenizer accepts no text with an invalid escape. *)
Lemma lex_no_invalid_escape (n : nat) :
  ∀ s m, (String.length s < n)%nat → is_Some (lex m s) → has_invalid_escape s = false.
Proof.
  induction n as [|n IH]; intros s m Hlen Hlex; [lia|].
  destruct s as [|c s']; [done|]. cbn [String.length] in Hlen.
  assert (classify c = CBackslash ∨ classify c ≠ CBackslash) as [Hc|Hc]
    by (destruct (classify c); auto).
  - pose proof (proj1 (classify_backslash c) Hc) as Hb.
    cbn [lex] in Hlex. rewrite Hc in Hlex.
    destruct m as [|w|us]; try by destruct Hlex.
    cbn [has_invalid_escape]. rewrite Hb.
    destruct s' as [|e s'']; [done|]. cbn [String.length] in Hlen.
    destruct (Ascii.eqb e "u") eqn:Hu.
    + apply Ascii.eqb_eq in Hu. subst e.
      change (is_json_escape_char "u") with true. cbn match.
      destruct s'' as [|h1 [|h2 [|h3 [|h4 s3]]]]; try by destruct Hlex.
      cbn [String.length] in Hlen.
      destruct (hex4 h1 h2 h3 h4) as [k|] eqn:Hk; [|by destruct Hlex].
      rewrite (hex4_not_backslash _ _ _ _ _ _ Hk).
      cbn in Hlex. apply (IH s3 _ ltac:(lia) Hlex).
    + destruct (unescape e) as [d|] eqn:Hd; [|by destruct Hlex].
      rewrite (unescape_is_escape _ _ Hd). cbn in Hlex.
      apply (IH s'' _ ltac:(lia) Hlex).
  - rewrite has_invalid_escape_skip by by apply classify_not_backslash.
    cbn [lex] in Hlex.
    assert (∃ m', is_Some (lex m' s')) as [m' Hm'].
    { destruct m as [|w|us], (classify c); try done;
        try (by destruct Hlex);
        try (apply fmap_is_Some in Hlex; eauto; fail);
        try (eauto; fail).
      all: destruct (code c <? 32)%N; [by destruct Hlex|eauto]. }
    apply (IH s' m' ltac:(lia) Hm').
Qed.

Lemma json_loads_rejects_invalid_escape (s : string) :
  has_invalid_escape s = true → json_loads s = None.
Proof.
  intros Hbad. unfold json_loads.
  destruct (lex Outside s) as [ts|] eqn:Hlex; [|done].
  rewrite (lex_no_invalid_escape (S (String.length s)) s Outside) in Hbad; [done|lia|].
  by rewrite Hlex.
Qed.

Section LenientParsing.
Variable loads : string → option json.

(** What strict JSON reading guarantees about escapes. *)
Hypothesis loads_strict : ∀ s, has_invalid_escape s = true → loads s = None.

Lemma parse_json_lenient_strict_success (raw : string) (v : json) :
  loads raw = Some v → _parse_json_lenient loads raw = Some v.
Proof. intros H. unfold _parse_json_lenient. by rewrite H. Qed.

Lemma parse_json_lenient_fallback (raw : string) :
  loads raw = None → _parse_json_lenient loads raw = loads (sanitize raw).
Proof. intros H. unfold _parse_json_lenient. by rewrite H. Qed.

End LenientParsing.


Example parse_json_lenient_latex :
  json_loads latex_reply = None
  ∧ _parse_json_lenient json_loads latex_reply
    = Some (JObj [("question", JStr "What is \( 3 + 4 \)?");
                  ("correct_answer", JInt 7)]).
Proof. vm_compute. done. Qed.

(** The substitution looks at one backslash at a time: the second backslash
    of an escaped pair is doubled as well when no escape character follows
    it, so a text that mixes both forms stays unreadable. *)
Example sanitize_escaped_pair :
  sanitize "\\d" = "\\\d"
  ∧ _parse_json_lenient json_loads mixed_reply = None.
Proof. vm_compute. done. Qed.
(** ** Level curve *)

Lemma level_floor_sqrt (xp : Z) :
  0 ≤ xp →
  let k := Z.sqrt (4 * xp) / 5 in
  0 ≤ k ∧ (5 * k) * (5 * k) ≤ 4 * xp < (5 * (k + 1)) * (5 * (k + 1)).
Proof.
  intros Hxp k.
  pose proof (Z.sqrt_spec (4 * xp) ltac:(lia)) as [Hlo Hhi].
  pose proof (Z.sqrt_nonneg (4 * xp)) as Hs.
  assert (Hk : 5 * k ≤ Z.sqrt (4 * xp) < 5 * k + 5).
  { subst k. pose proof (Z.mul_div_le (Z.sqrt (4 * xp)) 5 ltac:(lia)).
    pose proof (Z.mul_succ_div_gt (Z.sqrt (4 * xp)) 5 ltac:(lia)). lia. }
  assert (0 ≤ k) by (subst k; apply Z.div_pos; lia).
  split; [done|]. split; nia.
Qed.

Lemma all_from_spec (f : Z → bool) (n : nat) :
  ∀ start, all_from f start n = true →
  ∀ x, start ≤ x < start + Z.of_nat n → f x = true.
Proof.
  induction n as [|n IH]; cbn [all_from]; intros start Hall x Hx; [lia|].
  apply andb_true_iff in Hall as [Hn Hrest].
  destruct (decide (x = start)) as [->|]; [done|].
  apply (IH (start + 1)); [done | lia].
Qed.

(** The integer formulas of [_level_from_xp] and [stats_of] give what the
    binary64 expressions of [db.py] give, for every XP total up to the point
    where level and percentage are both saturated. *)
Lemma level_binary64_agrees (xp : Z) :
  0 ≤ xp < 16000 → agrees_with_binary64 xp = true.
Proof.
  intros Hxp. apply (all_from_spec _ (Z.to_nat 16000) 0).
  - vm_compute. reflexivity.
  - lia.
Qed.

(** C8: the level is non-decreasing in the XP total and never exceeds 50. *)
Theorem level_monotone_capped (xp xp' : Z) :
  0 ≤ xp → xp ≤ xp' →
  _level_from_xp xp ≤ _level_from_xp xp' ∧ _level_from_xp xp' ≤ 50
  ∧ 1 ≤ _level_from_xp xp.
Proof.
  intros Hxp Hle. unfold _level_from_xp.
  assert (Z.sqrt (4 * xp) / 5 ≤ Z.sqrt (4 * xp') / 5).
  { apply Z.div_le_mono; [lia|]. apply Z.sqrt_le_mono. lia. }
  assert (0 ≤ Z.sqrt (4 * xp) / 5).
  { apply Z.div_pos; [apply Z.sqrt_nonneg | lia]. }
  lia.
Qed.

Lemma level_monotone_capped_witness :
  _level_from_xp 57 ≤ _level_from_xp 58 ∧ _level_from_xp 58 ≤ 50
  ∧ 1 ≤ _level_from_xp 57.
Proof. apply (level_monotone_capped 57 58); lia. Defined.

(** ** Gamification snapshot *)

(** The loop looks at two columns only. *)
Lemma gam_step_ext (g : gam_state) (r r' : history_row) :
  h_is_correct r = h_is_correct r' →
  (0 <? h_scaffold_level r) = (0 <? h_scaffold_level r') →
  gam_step g r = gam_step g r'.
Proof. intros Hc Hl. unfold gam_step. by rewrite Hc, Hl. Qed.

Lemma gam_rows_ext (rows rows' : list history_row) :
  Forall2 (λ r r', h_is_correct r = h_is_correct r'
                   ∧ (0 <? h_scaffold_level r) = (0 <? h_scaffold_level r'))
          rows rows' →
  ∀ g, foldl gam_step g rows = foldl gam_step g rows'
       ∧ xp_contributions g rows = xp_contributions g rows'.
Proof.
  induction 1 as [|r r' rows rows' [Hc Hl] _ IH]; intros g; [done|].
  cbn [foldl xp_contributions].
  rewrite (gam_step_ext g r r' Hc Hl).
  destruct (IH (gam_step g r')) as [-> ->]. done.
Qed.

(** C2: five correct answers at depth 0 and nothing else give 58 XP in the
    steps 10, 10, 13, 10, 15, level 4, streak 5 and best streak 5. *)
Theorem five_correct_stats (db : database) (student_id : Z) :
  length (student_history db student_id) = 5%nat →
  Forall (λ r, h_is_correct r = true ∧ h_scaffold_level r = 0)
         (student_history db student_id) →
  let stats := get_gamification_stats db student_id in
  xp_contributions (GamState 0 0 0) (student_history db student_id)
    = [10; 10; 13; 10; 15]
  ∧ xp stats = 58 ∧ level stats = 4 ∧ streak stats = 5 ∧ best_streak stats = 5.
Proof.
  unfold get_gamification_stats, gam_fold.
  generalize (student_history db student_id) as rows.
  intros rows Hlen Hall.
  assert (Forall2 (λ r r', h_is_correct r = h_is_correct r'
                     ∧ (0 <? h_scaffold_level r) = (0 <? h_scaffold_level r'))
            rows (replicate 5 (correct_row 0 ""))) as Hext.
  { rewrite <- Hlen. clear Hlen.
    induction Hall as [|r rows [Hc Hl] _ IH]; cbn [length replicate];
      constructor; [|done].
    by rewrite Hc, Hl. }
  destruct (gam_rows_ext _ _ Hext (GamState 0 0 0)) as [-> ->].
  vm_compute. done.
Qed.

Lemma five_correct_stats_witness :
  let stats := get_gamification_stats five_correct_db 1 in
  xp_contributions (GamState 0 0 0) (student_history five_correct_db 1)
    = [10; 10; 13; 10; 15]
  ∧ xp stats = 58 ∧ level stats = 4 ∧ streak stats = 5 ∧ best_streak stats = 5.
Proof.
  apply (five_correct_stats five_correct_db 1).
  - reflexivity.
  - vm_compute. repeat constructor.
Defined.

(** C10: with no history the snapshot is XP 0, level 1, streak 0, best streak
    0, 6 XP for the next level and 0 percent; the route serves the same
    numbers. *)
Theorem empty_history_stats (db : database) (student_id : Z) :
  student_history db student_id = [] →
  get_gamification_stats db student_id = GamStats 0 1 "Beginner" 6 0 0 0
  ∧ api_gamification db (Some student_id) = GamStats 0 1 "Beginner" 6 0 0 0
  ∧ api_gamification db None = GamStats 0 1 "Beginner" 6 0 0 0.
Proof.
  intros Hrows.
  assert (get_gamification_stats db student_id = GamStats 0 1 "Beginner" 6 0 0 0) as Hs.
  { unfold get_gamification_stats. rewrite Hrows. reflexivity. }
  split; [done|]. split; [|done].
  unfold api_gamification. rewrite Hs. by destruct (student_id =? 0).
Qed.

Lemma empty_history_stats_witness :
  get_gamification_stats five_correct_db 3 = GamStats 0 1 "Beginner" 6 0 0 0
  ∧ api_gamification five_correct_db (Some 3) = GamStats 0 1 "Beginner" 6 0 0 0
  ∧ api_gamification five_correct_db None = GamStats 0 1 "Beginner" 6 0 0 0.
Proof. apply (empty_history_stats five_correct_db 3). reflexivity. Defined.

(** ** Problem bank *)

Global Instance served_order_trans rnd : Transitive (served_order rnd).
Proof. intros x y z. unfold served_order. lia. Qed.

Global Instance served_order_total rnd : Total (served_order rnd).
Proof. intros x y. unfold served_order. lia. Qed.

Lemma strongly_sorted_lookup {A} (R : relation A) (l : list A) (i j : nat) (x y : A) :
  StronglySorted R l → l !! i = Some x → l !! j = Some y → (i < j)%nat → R x y.
Proof.
  intros Hs. revert i j.
  induction Hs as [|a l Hs IH Hall]; intros i j Hi Hj Hlt; [done|].
  destruct j as [|j]; [lia|]. cbn in Hj.
  destruct i as [|i]; cbn in Hi.
  - simplify_eq. rewrite Forall_forall in Hall.
    apply Hall. by eapply list_elem_of_lookup_2.
  - eapply IH; [done..|lia].
Qed.

Lemma strongly_sorted_weaken {A} (R R' : relation A) (l : list A) :
  (∀ x y, R x y → R' x y) → StronglySorted R l → StronglySorted R' l.
Proof.
  intros HR. induction 1 as [|a l _ IH Hall]; constructor; [done|].
  eapply Forall_impl; [exact Hall|]. intros y. apply HR.
Qed.

Lemma bank_candidates_sorted db rnd grade style topic is_scaffold mtype :
  bank_candidates db rnd grade style topic is_scaffold mtype
    ≡ₚ filter (λ ir, bank_matches grade style topic is_scaffold mtype ir.2 = true)
         (with_ids (problem_bank db))
  ∧ StronglySorted (λ x y, b_times_served x.2 ≤ b_times_served y.2)
      (bank_candidates db rnd grade style topic is_scaffold mtype).
Proof.
  unfold bank_candidates. split; [apply merge_sort_Permutation|].
  eapply strongly_sorted_weaken; [|apply StronglySorted_merge_sort; apply _].
  intros x y. unfold served_order. lia.
Qed.

(** What [find_reusable_problem] returns. *)
Lemma find_reusable_problem_spec (db : database) (rnd : Z → Z) (grade : Z)
    (style topic : string) (student_id : Z) (is_scaffold : bool)
    (mtype : option string) (exclude_recent : Z) :
  let seen := seen_questions db student_id exclude_recent in
  let found := find_reusable_problem db rnd grade style topic student_id
                 is_scaffold mtype exclude_recent in
  let matching (ir : Z * bank_row) :=
    ir ∈ with_ids (problem_bank db)
    ∧ bank_matches grade style topic is_scaffold mtype ir.2 = true in
  (∃ rows,
      rows ≡ₚ filter (λ ir, bank_matches grade style topic is_scaffold mtype ir.2 = true)
                (with_ids (problem_bank db))
      ∧ StronglySorted (λ x y, b_times_served x.2 ≤ b_times_served y.2) rows
      ∧ found = snd <$> list_find (λ ir, b_question ir.2 ∉ seen) rows)
  ∧ (∀ ir, found = Some ir →
       (b_question ir.2 ∉ seen) ∧ matching ir
       ∧ (∀ ir', matching ir' → b_question ir'.2 ∉ seen →
                 b_times_served ir.2 ≤ b_times_served ir'.2))
  ∧ (found = None ↔ ∀ ir', matching ir' → b_question ir'.2 ∈ seen).
Proof.
  intros seen found matching.
  destruct (bank_candidates_sorted db rnd grade style topic is_scaffold mtype)
    as [Hperm Hsorted].
  assert (Hmem : ∀ ir, ir ∈ bank_candidates db rnd grade style topic is_scaffold mtype
                       ↔ matching ir).
  { intros ir. rewrite Hperm, list_elem_of_filter. unfold matching. tauto. }
  split; [|split].
  - eexists. split; [exact Hperm|]. split; [exact Hsorted|]. reflexivity.
  - intros ir Hfound. subst found. unfold find_reusable_problem in Hfound.
    apply fmap_Some in Hfound as ([i ir0] & Hfind & ->).
    apply list_find_Some in Hfind as (Hi & Hunseen & Hfirst). cbn [snd].
    split; [exact Hunseen|]. split.
    { apply Hmem. by eapply list_elem_of_lookup_2. }
    intros ir' Hm' Hunseen'. apply Hmem in Hm'.
    apply list_elem_of_lookup_1 in Hm' as [j Hj].
    destruct (decide (j < i)%nat) as [Hlt|Hge].
    { destruct (Hfirst j ir' Hj Hlt Hunseen'). }
    destruct (decide (j = i)) as [->|Hne]; [by simplify_eq|].
    apply (strongly_sorted_lookup _ _ i j ir0 ir' Hsorted Hi Hj). lia.
  - subst found. unfold find_reusable_problem.
    rewrite fmap_None, list_find_None, Forall_forall. split.
    + intros Hall ir' Hm'. apply Hmem in Hm'. specialize (Hall ir' Hm').
      destruct (decide (b_question ir'.2 ∈ seen)); tauto.
    + intros Hall ir' Hin Hunseen. apply Hunseen, Hall, Hmem, Hin.
Qed.

(** C3: the lookup never returns a recently seen question; it returns the
    first unseen row of the matching rows in ascending times-served order, and
    nothing exactly when every matching row was recently seen. *)
Theorem find_reusable_problem_unseen (db : database) (rnd : Z → Z) (grade : Z)
    (style topic : string) (student_id : Z) (is_scaffold : bool)
    (mtype : option string) (exclude_recent : Z) :
  let seen := seen_questions db student_id exclude_recent in
  let found := find_reusable_problem db rnd grade style topic student_id
                 is_scaffold mtype exclude_recent in
  let matching (ir : Z * bank_row) :=
    ir ∈ with_ids (problem_bank db)
    ∧ bank_matches grade style topic is_scaffold mtype ir.2 = true in
  (∃ rows,
      rows ≡ₚ filter (λ ir, bank_matches grade style topic is_scaffold mtype ir.2 = true)
                (with_ids (problem_bank db))
      ∧ StronglySorted (λ x y, b_times_served x.2 ≤ b_times_served y.2) rows
      ∧ found = snd <$> list_find (λ ir, b_question ir.2 ∉ seen) rows)
  ∧ (∀ ir, found = Some ir →
       (b_question ir.2 ∉ seen) ∧ matching ir
       ∧ (∀ ir', matching ir' → b_question ir'.2 ∉ seen →
                 b_times_served ir.2 ≤ b_times_served ir'.2))
  ∧ (found = None ↔ ∀ ir', matching ir' → b_question ir'.2 ∈ seen).
Proof.
  apply find_reusable_problem_spec.
Qed.

Lemma with_ids_lookup {A} (rows : list A) (i : nat) :
  with_ids rows !! i = (λ r, (Z.of_nat (S i), r)) <$> rows !! i.
Proof. unfold with_ids. by rewrite list_lookup_imap. Qed.

Lemma with_ids_app {A} (rows : list A) (r : A) :
  with_ids (rows ++ [r]) = with_ids rows ++ [(Z.of_nat (S (length rows)), r)].
Proof.
  unfold with_ids. rewrite imap_app. cbn. by rewrite Nat.add_0_r.
Qed.

Lemma bank_matches_saved grade style topic question answer hint is_scaffold mtype ts :
  bank_matches grade style topic is_scaffold mtype
    (BankRow grade style topic question answer hint is_scaffold mtype ts) = true.
Proof.
  unfold bank_matches.
  cbn [b_grade b_curriculum_style b_topic b_is_scaffold
       b_scaffold_misconception_type].
  rewrite !bool_decide_eq_true_2 by done.
  by destruct is_scaffold, (truthy mtype).
Qed.

Lemma update_row_lookup {A} (f : A → A) (id : Z) (rows : list A) (i : nat) :
  update_row f id rows !! i
  = if bool_decide (1 ≤ id ∧ i = Z.to_nat (id - 1)) then f <$> rows !! i
    else rows !! i.
Proof.
  unfold update_row. destruct (Z.ltb_spec id 1).
  - rewrite bool_decide_eq_false_2 by lia. done.
  - rewrite list_lookup_alter.
    case_decide as Hd; [subst i|]; case_bool_decide as Hb; try done.
    + exfalso. apply Hb. done.
    + exfalso. apply Hd. symmetry. apply Hb.
Qed.

(** C5, as the code has it: right after a save, a lookup with the same
    criteria and nothing seen returns a matching row that was served no more
    often than the new one, and the new one itself when every other matching
    row has been served before; the new row starts at 0 serves and each
    [increment_times_served] adds exactly 1 to the row it names, leaving the
    others alone. *)
Theorem save_then_find (db : database) (rnd : Z → Z) (grade : Z)
    (style topic question answer hint : string) (is_scaffold : bool)
    (mtype : option string) (student_id exclude_recent : Z) :
  let saved := save_to_problem_bank db grade style topic question answer hint
                 is_scaffold mtype in
  let row := BankRow grade style topic question answer hint is_scaffold mtype 0 in
  seen_questions saved.2 student_id exclude_recent = [] →
  with_ids (problem_bank saved.2) !! length (problem_bank db) = Some (saved.1, row)
  ∧ (∃ found,
       find_reusable_problem saved.2 rnd grade style topic student_id
         is_scaffold mtype exclude_recent = Some found
       ∧ bank_matches grade style topic is_scaffold mtype found.2 = true
       ∧ b_times_served found.2 ≤ 0
       ∧ ((∀ ir, ir ∈ with_ids (problem_bank db) →
                 bank_matches grade style topic is_scaffold mtype ir.2 = true →
                 0 < b_times_served ir.2) →
          found = (saved.1, row)))
  ∧ (∀ bank_id i r,
       problem_bank saved.2 !! i = Some r →
       problem_bank (increment_times_served saved.2 bank_id) !! i
       = Some (if bool_decide (bank_id = Z.of_nat (S i)) then serve r else r)
       ∧ b_times_served (serve r) = b_times_served r + 1).
Proof.
  intros saved row. subst saved.
  cbn [save_to_problem_bank fst snd problem_bank]. intros Hseen.
  assert (Hnew : with_ids (problem_bank db ++ [row]) !! length (problem_bank db)
                 = Some (Z.of_nat (S (length (problem_bank db))), row)).
  { rewrite with_ids_lookup, list_lookup_middle by done. done. }
  split; [exact Hnew|]. split.
  - set (db' := Database _ _ _) in *.
    pose proof (find_reusable_problem_spec db' rnd grade style topic student_id
                  is_scaffold mtype exclude_recent) as (_ & Hsome & Hnone).
    cbn zeta in Hsome, Hnone. rewrite Hseen in Hsome, Hnone.
    assert (Hmatch : (Z.of_nat (S (length (problem_bank db))), row)
                       ∈ with_ids (problem_bank db')
                     ∧ bank_matches grade style topic is_scaffold mtype row = true).
    { split; [by eapply list_elem_of_lookup_2|apply bank_matches_saved]. }
    destruct (find_reusable_problem db' rnd grade style topic student_id
                is_scaffold mtype exclude_recent) as [found|] eqn:Hfound.
    + destruct (Hsome found eq_refl) as (_ & [Hin Hm] & Hmin).
      exists found. split; [done|]. split; [done|]. split.
      { apply (Hmin _ Hmatch). apply not_elem_of_nil. }
      intros Hserved. subst db'. cbn [problem_bank] in Hin.
      rewrite with_ids_app in Hin. apply elem_of_app in Hin as [Hold|Hlast].
      * specialize (Hserved found Hold Hm).
        pose proof (Hmin _ Hmatch (not_elem_of_nil _)) as Hle. cbn in Hle. lia.
      * by apply list_elem_of_singleton in Hlast.
    + pose proof (proj1 Hnone eq_refl _ Hmatch) as Hin.
      destruct (not_elem_of_nil _ Hin).
  - intros bank_id i r Hi. cbn [increment_times_served problem_bank].
    split; [|done].
    rewrite update_row_lookup, Hi. cbn.
    case_bool_decide; case_bool_decide; try done; lia.
Qed.

Lemma save_then_find_witness :
  let saved := save_to_problem_bank served_problem_db 4 "common_core" "Addition"
                 "9+1" "10" "hint" false None in
  with_ids (problem_bank saved.2) !! length (problem_bank served_problem_db)
    = Some (saved.1, bank_9plus1)
  ∧ (∃ found,
       find_reusable_problem saved.2 (λ k, - k) 4 "common_core" "Addition" 1
         false None 20 = Some found
       ∧ bank_matches 4 "common_core" "Addition" false None found.2 = true
       ∧ b_times_served found.2 ≤ 0
       ∧ ((∀ ir, ir ∈ with_ids (problem_bank served_problem_db) →
                 bank_matches 4 "common_core" "Addition" false None ir.2 = true →
                 0 < b_times_served ir.2) →
          found = (saved.1, bank_9plus1)))
  ∧ (∀ bank_id i r,
       problem_bank saved.2 !! i = Some r →
       problem_bank (increment_times_served saved.2 bank_id) !! i
       = Some (if bool_decide (bank_id = Z.of_nat (S i)) then serve r else r)
       ∧ b_times_served (serve r) = b_times_served r + 1).
Proof.
  apply (save_then_find served_problem_db (λ k, - k) 4 "common_core" "Addition"
           "9+1" "10" "hint" false None 1 20).
  reflexivity.
Defined.

(** C5 as stated fails: with an equally unserved matching row already in the
    bank, the lookup right after the save may return the older row. *)
Lemma save_then_find_returns_older :
  let saved := save_to_problem_bank one_problem_db 4 "common_core" "Addition"
                 "9+1" "10" "hint" false None in
  seen_questions saved.2 1 20 = []
  ∧ find_reusable_problem saved.2 (λ k, k) 4 "common_core" "Addition" 1
      false None 20 = Some (1, bank_2plus3)
  ∧ find_reusable_problem saved.2 (λ k, k) 4 "common_core" "Addition" 1
      false None 20 ≠ Some (saved.1, bank_9plus1).
Proof. vm_compute. split; [done|]. split; [done|]. discriminate. Qed.

(** ** Achievements *)

Lemma achievement_checks_history (db db' : database) (student_id : Z) :
  history db = history db' →
  achievement_checks db student_id = achievement_checks db' student_id.
Proof.
  intros Hh. unfold achievement_checks, get_gamification_stats, student_history.
  by rewrite Hh.
Qed.

Lemma unlock_step_cases (student_id : Z) (acc : list string) (db : database)
    (key : string) (cond : bool) :
  (cond = true ∧ key ∈ ACHIEVEMENTS ∧ ((student_id, key) ∉ achievements db)
   ∧ unlock_step student_id (acc, db) (key, cond)
     = (acc ++ [key],
        Database (history db) (problem_bank db)
          (achievements db ++ [(student_id, key)])))
  ∨ ((cond = false ∨ key ∉ ACHIEVEMENTS ∨ (student_id, key) ∈ achievements db)
     ∧ unlock_step student_id (acc, db) (key, cond) = (acc, db)).
Proof.
  unfold unlock_step, unlock_achievement. cbn [fst snd].
  destruct cond; cbn [andb]; [|right; auto].
  case_bool_decide as Hk; [|right; auto].
  case_bool_decide as Hin; [right; auto|left; auto].
Qed.

Lemma unlock_fold_saturated (student_id : Z) (checks : list (string * bool)) :
  ∀ acc db,
  (∀ key, (key, true) ∈ checks → key ∈ ACHIEVEMENTS →
          (student_id, key) ∈ achievements db) →
  foldl (unlock_step student_id) (acc, db) checks = (acc, db).
Proof.
  induction checks as [|[key cond] checks IH]; intros acc db Hsat; [done|].
  cbn [foldl].
  destruct (unlock_step_cases student_id acc db key cond)
    as [(-> & Hk & Hnew & _)|[_ ->]].
  - destruct Hnew. apply Hsat; [left|done].
  - apply IH. intros k Hin. apply Hsat. by right.
Qed.

Lemma unlock_fold_spec (student_id : Z) (checks : list (string * bool)) :
  ∀ acc db,
  let r := foldl (unlock_step student_id) (acc, db) checks in
  history r.2 = history db
  ∧ (∃ added,
       r.1 = acc ++ added
       ∧ achievements r.2 = achievements db ++ ((λ k, (student_id, k)) <$> added)
       ∧ NoDup added
       ∧ ∀ key, key ∈ added → (student_id, key) ∉ achievements db)
  ∧ (∀ key, (key, true) ∈ checks → key ∈ ACHIEVEMENTS →
            (student_id, key) ∈ achievements r.2).
Proof.
  induction checks as [|[key cond] checks IH]; intros acc db; cbn [foldl].
  - split; [done|]. split.
    + exists []. rewrite !app_nil_r. split_and!; [done..|constructor|].
      intros k Hk. by apply not_elem_of_nil in Hk.
    + intros k Hk. by apply not_elem_of_nil in Hk.
  - destruct (unlock_step_cases student_id acc db key cond)
      as [(-> & Hk & Hnew & ->)|[Hskip ->]].
    + specialize (IH (acc ++ [key])
                     (Database (history db) (problem_bank db)
                        (achievements db ++ [(student_id, key)]))).
      cbn zeta in IH. destruct IH as (Hh & (added & Hr & Ha & Hnd & Hfresh) & Hall).
      cbn [history achievements] in *.
      split; [done|]. split.
      * exists (key :: added). rewrite Hr, Ha, <- !app_assoc. cbn.
        split_and!; [done..| |].
        -- constructor; [|done]. intros Hin. apply (Hfresh key Hin).
           apply elem_of_app. right. by left.
        -- intros k [->|Hin]%elem_of_cons; [done|].
           intros Hold. apply (Hfresh k Hin). apply elem_of_app. by left.
      * intros k [Heq|Hin]%elem_of_cons Hach; [|by apply Hall].
        simplify_eq. rewrite Ha. apply elem_of_app. left.
        apply elem_of_app. right. by left.
    + specialize (IH acc db). cbn zeta in IH.
      destruct IH as (Hh & Hadded & Hall).
      split; [done|]. split; [done|].
      intros k [Heq|Hin]%elem_of_cons Hach; [|by apply Hall].
      simplify_eq. destruct Hskip as [?|[?|Hold]]; [done..|].
      destruct Hadded as (added & _ & -> & _). apply elem_of_app. by left.
Qed.

(** C7: two achievement checks in a row never report a key twice: the second
    run reports nothing and leaves the table as it is; a key already in the
    table is not reported, and the table holds each (student, key) pair at
    most once. *)
Theorem check_achievements_idempotent (db : database) (student_id : Z) :
  let first := check_achievements db student_id in
  let second := check_achievements first.2 student_id in
  (∀ key, key ∈ first.1 → key ∉ second.1)
  ∧ second.1 = [] ∧ second.2 = first.2
  ∧ NoDup first.1
  ∧ (∀ key, (student_id, key) ∈ achievements db → key ∉ first.1)
  ∧ (NoDup (achievements db) → NoDup (achievements first.2)).
Proof.
  unfold check_achievements. cbn zeta.
  pose proof (unlock_fold_spec student_id (achievement_checks db student_id) [] db)
    as Hspec.
  cbn zeta in Hspec. revert Hspec.
  generalize (foldl (unlock_step student_id) ([], db)
                (achievement_checks db student_id)).
  intros [new1 db1]. cbn [fst snd app].
  intros (Hh & (added & -> & Ha & Hnd & Hfresh) & Hall).
  rewrite (achievement_checks_history db1 db student_id Hh).
  rewrite unlock_fold_saturated by done. cbn [fst snd].
  split_and!; [|done..| |].
  - intros key _ Hin. by apply not_elem_of_nil in Hin.
  - intros key Hold Hin. by apply (Hfresh key Hin).
  - intros Hnodup. rewrite Ha. apply NoDup_app. split_and!; [done| |].
    + intros p Hp [k [-> Hk]]%list_elem_of_fmap. by apply (Hfresh k Hk).
    + apply NoDup_fmap; [|done]. by intros ?? [=].
Qed.

(** ** The sample instance *)

Example sample_python_numbers :
  decimal_int "42" = Some 42 ∧ decimal_int "-7" = Some (-7)
  ∧ decimal_int "4.5" = None ∧ decimal_int "abc" = None ∧ decimal_int "" = None
  ∧ same_float (decimal_float "0.1") 0.1 = true
  ∧ same_float (decimal_float "2.5") 2.5 = true
  ∧ same_float (decimal_float "-3.14159") (-3.14159) = true
  ∧ same_float (decimal_float "4") (float_of_Z 4) = true
  ∧ same_float (decimal_float "123456789012345678901234567890.5")
      123456789012345678901234567890.5 = true
  ∧ decimal_float "abc" = None ∧ decimal_float "." = None
  ∧ strip "  4 " = "4"
  ∧ float_of_int (10 ^ 400) = OtherError "int too large to convert to float"
  ∧ decimal_int huge_answer = Some (10 ^ 400).
Proof. vm_compute. repeat split. Qed.

(** ** Skipping and wrong answers *)

Lemma student_history_save (d : database) (row : history_row) (student_id : Z) :
  student_history (save_result d row) student_id
  = student_history d student_id
    ++ (if decide (h_student_id row = student_id) then [row] else []).
Proof.
  unfold student_history, save_result. cbn [history].
  by rewrite filter_app.
Qed.

Lemma gam_fold_snoc (rows : list history_row) (r : history_row) :
  gam_fold (rows ++ [r]) = gam_step (gam_fold rows) r.
Proof. unfold gam_fold. by rewrite foldl_app. Qed.

(** A row that is not correct is worth 2 XP and ends the streak. *)
Lemma stats_after_wrong (d : database) (row : history_row) :
  h_is_correct row = false →
  let before := get_gamification_stats d (h_student_id row) in
  let after := get_gamification_stats (save_result d row) (h_student_id row) in
  xp after = xp before + 2 ∧ streak after = 0
  ∧ best_streak after = best_streak before.
Proof.
  intros Hwrong. unfold get_gamification_stats.
  rewrite student_history_save, decide_True by done.
  rewrite gam_fold_snoc. unfold gam_step. rewrite Hwrong. done.
Qed.


(** ** Answer checking *)

Lemma get_last_history_id_save (d : database) (row : history_row)
    (student_id : Z) :
  h_student_id row = student_id →
  get_last_history_id (save_result d row) student_id
  = Some (Z.of_nat (S (length (history d)))).
Proof.
  intros Hid. unfold get_last_history_id, save_result. cbn [history].
  rewrite with_ids_app, filter_app, filter_cons, filter_nil.
  cbn [snd]. rewrite decide_True by done. by rewrite last_snoc.
Qed.

Lemma update_row_last {A} (f : A → A) (rows : list A) (r : A) :
  update_row f (Z.of_nat (S (length rows))) (rows ++ [r]) = rows ++ [f r].
Proof.
  unfold update_row.
  destruct (Z.ltb_spec (Z.of_nat (S (length rows))) 1); [lia|].
  replace (Z.to_nat (Z.of_nat (S (length rows)) - 1)) with (length rows + 0)%nat by lia.
  by rewrite alter_app_r.
Qed.

Lemma check_achievements_history (d : database) (student_id : Z) :
  history (check_achievements d student_id).2 = history d.
Proof.
  unfold check_achievements.
  by destruct (unlock_fold_spec student_id (achievement_checks d student_id) [] d)
    as (Hh & _).
Qed.

Ltac world_cbn :=
  cbn [trace db current_problems scaffold_states send_event record with_db
       set_problem set_scaffold pop_scaffold pipeline store_feedback
       update_feedback update_misconception save_result history].

Section FeedbackWorld.
Context {py : python}.

Lemma feedback_with_stats_spec (session_id : string) (st : student)
    (gam_before : gam_stats)
    (make : Z → gam_stats → bool → list string → feedback_event) (w : world) :
  let w' := feedback_with_stats session_id st gam_before make w in
  history (db w') = history (db w)
  ∧ current_problems w' = current_problems w
  ∧ scaffold_states w' = scaffold_states w
  ∧ ∃ earned after up new,
      trace w' = trace w ++ [Sent session_id (EvFeedback (make earned after up new))].
Proof.
  unfold feedback_with_stats.
  pose proof (check_achievements_history (db w) (s_id st)) as Hh.
  destruct (check_achievements (db w) (s_id st)) as [new d]. cbn [snd] in Hh.
  cbn. split_and!; [done..|]. by eexists _, _, _, _.
Qed.

Lemma store_feedback_last (d : database) (row : history_row) (feedback : string)
    (w : world) :
  history (db w) = history d ++ [row] →
  let w' := store_feedback (Some (Z.of_nat (S (length (history d))))) feedback w in
  history (db w') = history d ++ [set_feedback feedback row]
  ∧ current_problems w' = current_problems w
  ∧ scaffold_states w' = scaffold_states w
  ∧ trace w' = trace w.
Proof.
  intros Hh. cbn. rewrite Hh. by rewrite update_row_last.
Qed.

End FeedbackWorld.

(** Replaces the world [feedback_with_stats] returns by a name, with what is
    known of its components; to be used before the operations around it are
    simplified. *)
Ltac name_feedback_world :=
    match goal with
    | |- context [feedback_with_stats ?a ?b ?c ?d ?e] =>
        let Hh := fresh "Hh" in
        let Hc := fresh "Hc" in
        let Hs := fresh "Hs" in
        let Ht := fresh "Ht" in
        destruct (feedback_with_stats_spec a b c d e)
          as (Hh & Hc & Hs & (? & ? & ? & ? & Ht));
        cbn zeta in Hh, Hc, Hs, Ht;
        revert Hh Hc Hs Ht;
        generalize (feedback_with_stats a b c d e);
        world_cbn; rewrite ?update_row_last;
        intros ? Hh Hc Hs Ht
    end.

Section AnswerChecking.
Context {py : python}.

(** The row [check_answer_bg] inserts for a graded answer. *)
Lemma check_answer_bg_graded (session_id : string) (st : student)
    (answer : string) (helper_says analyst_says : reply) (w : world)
    (p : problem) (n : pynum) (c : bool) :
  current_problems w !! session_id = Some p →
  parse_answer answer = Some n →
  grade n (p_correct_answer p) = Graded c →
  let row :=
    HistoryRow (s_id st) (p_question p) (p_correct_answer p) (AnsNum n) c
      (p_topic p) (p_requested_topic p) None
      (if c then None else Some "needs review") None None (p_scaffold_level p)
      (scaffold_states w !! session_id ≫= sc_parent_history_id) in
  let w' := check_answer_bg session_id st answer helper_says analyst_says w in
  ∃ later row',
    trace w' = trace w ++ HistoryInsert row :: later
    ∧ Forall (λ e, is_history_insert e = false) later
    ∧ AgentRun Helper ∈ later
    ∧ history (db w') = history (db w) ++ [row']
    ∧ h_is_correct row' = c ∧ h_student_answer row' = AnsNum n
    ∧ h_student_id row' = s_id st
    ∧ h_scaffold_level row' = p_scaffold_level p
    ∧ current_problems w' = current_problems w.
Proof.
  intros Hp Hparse Hgrade.
  destruct helper_says as [feedback|message].
  2: { intros row w'. subst w'. unfold check_answer_bg.
       rewrite Hp, Hparse, Hgrade.
       exists [Sent session_id (EvPipeline [("helper", "working")]);
               AgentRun Helper; Sent session_id (EvErrorMsg message)], row.
       world_cbn. rewrite <- !app_assoc. split_and!; try done.
       - by repeat constructor.
       - apply list_elem_of_further, list_elem_of_here. }
  destruct c;
    [destruct (p_is_scaffold p) eqn:Hsc
    |destruct (2 <=? p_scaffold_level p) eqn:Hl;
     [|destruct analyst_says as [analyst_result|message]]].
  all: intros row w'; subst w'; unfold check_answer_bg;
       rewrite Hp, Hparse, Hgrade, ?Hsc, ?Hl;
       cbn [db record with_db];
       erewrite get_last_history_id_save by reflexivity;
       name_feedback_world; world_cbn;
       eexists _, _; rewrite Ht, Hh, Hc, ?update_row_last;
       rewrite <- !app_assoc; cbn [app];
       (split_and!;
        [reflexivity|by repeat constructor
        |apply list_elem_of_further, list_elem_of_here
        |reflexivity|done..]).
Qed.

End AnswerChecking.

(** ** Scaffold depth *)

Create HintDb depth.

Lemma depth_ok_initial (d : database) : depth_ok (initial_world d).
Proof. split_and!; [done..|constructor]. Qed.

Lemma depth_ok_record (e : effect) (w : world) :
  depth_ok w → effect_depth_ok e → depth_ok (record e w).
Proof.
  intros (Hp & Hs & Ht) He. split_and!; [done..|].
  cbn. apply Forall_app. split; [done|]. by constructor.
Qed.

Lemma depth_ok_send_event (session_id : string) (ev : event) (w : world) :
  depth_ok w → effect_depth_ok (Sent session_id ev) →
  depth_ok (send_event session_id ev w).
Proof. apply depth_ok_record. Qed.

Lemma depth_ok_pipeline (session_id : string) agents (w : world) :
  depth_ok w → depth_ok (pipeline session_id agents w).
Proof. intros. by apply depth_ok_send_event. Qed.

Lemma depth_ok_with_db (d : database) (w : world) :
  depth_ok w → depth_ok (with_db d w).
Proof. by intros (Hp & Hs & Ht). Qed.

Lemma depth_ok_set_problem (session_id : string) (p : problem) (w : world) :
  depth_ok w → 0 ≤ p_scaffold_level p ≤ 2 → depth_ok (set_problem session_id p w).
Proof.
  intros (Hp & Hs & Ht) Hl. split_and!; [|done..].
  intros sid q. cbn. rewrite lookup_insert. case_decide; [|by apply Hp].
  by intros [= <-].
Qed.

Lemma depth_ok_set_scaffold (session_id : string) (c : scaffold_ctx) (w : world) :
  depth_ok w → 1 ≤ sc_scaffold_level c ≤ 2 →
  depth_ok (set_scaffold session_id c w).
Proof.
  intros (Hp & Hs & Ht) Hl. split_and!; [done| |done].
  intros sid q. cbn. rewrite lookup_insert. case_decide; [|by apply Hs].
  by intros [= <-].
Qed.

Lemma depth_ok_pop_scaffold (session_id : string) (w : world) :
  depth_ok w → depth_ok (pop_scaffold session_id w).
Proof.
  intros (Hp & Hs & Ht). split_and!; [done| |done].
  intros sid q. cbn. rewrite lookup_delete. case_decide; [done|by apply Hs].
Qed.

Lemma depth_ok_publish_problem (session_id : string) (p : problem) (w : world) :
  depth_ok w → 0 ≤ p_scaffold_level p ≤ 2 →
  depth_ok (publish_problem session_id p w).
Proof.
  intros. unfold publish_problem.
  apply depth_ok_send_event; [by apply depth_ok_set_problem|done].
Qed.

#[local] Hint Resolve depth_ok_record depth_ok_send_event depth_ok_pipeline
  depth_ok_with_db depth_ok_set_problem depth_ok_set_scaffold
  depth_ok_pop_scaffold depth_ok_publish_problem : depth.
#[local] Hint Extern 1 (effect_depth_ok _) => cbn; lia : depth.
#[local] Hint Extern 1 (_ ≤ _ ≤ _) => cbn; lia : depth.

Section ScaffoldDepth.
Context {py : python}.

Lemma depth_ok_feedback_with_stats (session_id : string) (st : student)
    (gam_before : gam_stats)
    (make : Z → gam_stats → bool → list string → feedback_event) (w : world) :
  depth_ok w → depth_ok (feedback_with_stats session_id st gam_before make w).
Proof.
  intros. unfold feedback_with_stats.
  destruct (check_achievements (db w) (s_id st)). auto with depth.
Qed.

Lemma depth_ok_store_feedback (history_id : option Z) (feedback : string)
    (w : world) :
  depth_ok w → depth_ok (store_feedback history_id feedback w).
Proof. intros. destruct history_id; cbn [store_feedback]; auto with depth. Qed.

#[local] Hint Resolve depth_ok_feedback_with_stats depth_ok_store_feedback : depth.

Lemma depth_ok_generate_problem_bg (session_id : string) (st : student)
    (requested_topic : option string) (manager_says creator_says : reply)
    (rnd : Z → Z) (w : world) :
  depth_ok w →
  depth_ok (generate_problem_bg session_id st requested_topic manager_says
              creator_says rnd w).
Proof.
  intros. unfold generate_problem_bg.
  repeat case_match; auto 20 with depth.
Qed.

Lemma depth_ok_generate_scaffold_problem_bg (session_id : string)
    (st : student) (creator_says : reply) (rnd : Z → Z) (w : world) :
  depth_ok w →
  depth_ok (generate_scaffold_problem_bg session_id st creator_says rnd w).
Proof.
  intros Hw. unfold generate_scaffold_problem_bg.
  destruct (scaffold_states w !! session_id) as [ctx|] eqn:Hctx;
    [|auto with depth].
  pose proof (proj1 (proj2 Hw) _ _ Hctx).
  repeat case_match; auto 20 with depth.
Qed.

Lemma depth_ok_check_answer_bg (session_id : string) (st : student)
    (answer : string) (helper_says analyst_says : reply) (w : world) :
  depth_ok w →
  depth_ok (check_answer_bg session_id st answer helper_says analyst_says w).
Proof.
  intros Hw. unfold check_answer_bg.
  destruct (current_problems w !! session_id) as [p|] eqn:Hp;
    [|auto with depth].
  pose proof (proj1 Hw _ _ Hp).
  repeat case_match; auto 20 with depth.
  all: match goal with
       | H : (2 <=? _) = false |- _ => apply Z.leb_gt in H
       end.
  all: auto 20 with depth.
Qed.

Lemma depth_ok_handle (w : world) (r : request) :
  depth_ok w → depth_ok (handle w r).
Proof.
  intros Hw. destruct r; cbn [handle].
  - by apply depth_ok_generate_problem_bg, depth_ok_pop_scaffold.
  - unfold api_submit_answer. case_match; [done|].
    by apply depth_ok_check_answer_bg.
  - unfold api_scaffold_problem. case_match; [|done].
    by apply depth_ok_generate_scaffold_problem_bg.
  - unfold api_skip. repeat case_match; cbn [snd]; auto with depth.
Qed.

Lemma depth_ok_serve_requests (d : database) (requests : list request) :
  depth_ok (serve_requests d requests).
Proof.
  unfold serve_requests.
  induction requests as [|r requests IH] using rev_ind.
  - apply depth_ok_initial.
  - rewrite foldl_app. cbn [foldl]. by apply depth_ok_handle.
Qed.

(** A wrong answer at the depth limit: the events it sends and the state
    it leaves. *)
Lemma check_answer_bg_maxed (session_id : string) (st : student)
    (answer feedback : string) (analyst_says : reply) (w : world)
    (p : problem) (n : pynum) :
  current_problems w !! session_id = Some p →
  2 ≤ p_scaffold_level p →
  parse_answer answer = Some n →
  grade n (p_correct_answer p) = Graded false →
  let w' := check_answer_bg session_id st answer (Says feedback) analyst_says w in
  ∃ row f,
    trace w' = trace w ++ [ HistoryInsert row;
                            Sent session_id (EvPipeline [("helper", "working")]);
                            AgentRun Helper;
                            Sent session_id (EvPipeline [("helper", "done")]);
                            Sent session_id (EvFeedback f) ]
    ∧ f_is_correct f = false ∧ f_scaffold_maxed f = Some true
    ∧ scaffold_states w' = delete session_id (scaffold_states w).
Proof.
  intros Hp Hl Hparse Hgrade w'. subst w'. unfold check_answer_bg.
  rewrite Hp, Hparse, Hgrade.
  apply Z.leb_le in Hl. rewrite Hl.
  cbn [db record with_db].
  erewrite get_last_history_id_save by reflexivity.
  name_feedback_world. world_cbn.
  eexists _, _. rewrite Ht, Hs, <- !app_assoc. cbn [app].
  split_and!; reflexivity.
Qed.

End ScaffoldDepth.

(** ** The theorems on the sample worlds *)



(** The same worker on a number: one row, then the helper. *)
Example check_answer_bg_wrong_number :
  let w' := check_answer_bg (py := sample_python) "s1" ada "5"
              (Says "Nice try") (Fails "analyst down") depth0_world in
  history (db w')
  = [ HistoryRow 1 "What is 2+2?" (Some (JInt 4)) (AnsNum (PyInt 5)) false
        (Some "Addition") None (Some "Nice try") (Some "needs review")
        None None 0 None ]
  ∧ is_history_insert <$> trace w'
    = [true; false; false; false; false; false; false; false]
  ∧ scaffold_states w' !! "s1" = None.
Proof. vm_compute. done. Qed.


(** An integer too large for a binary64: the conversion in the grading step
    raises, the worker reports it and inserts no row. *)
Example check_answer_bg_overflow :
  let w' := check_answer_bg (py := sample_python) "s1" ada huge_answer
              (Says "Nice try") (Says "{}") depth0_world in
  py_int (python := sample_python) huge_answer = Some (10 ^ 400)
  ∧ trace w' = [Sent "s1" (EvErrorMsg "int too large to convert to float")]
  ∧ history (db w') = history (db depth0_world).
Proof. vm_compute. done. Qed.


(** A whole chain on the sample instance: wrong at depth 0, 1 and 2. *)
Example three_wrong_answers :
  let creator := Says (dq "{'question': 'What is 1+1?', 'correct_answer': 2, 'hint': 'h', 'topic': 'Addition'}") in
  let analyst := Says (dq "{'misconception_type': 'careless', 'misconception_detail': 'slip'}") in
  let w := serve_requests (py := sample_python) (Database [] [] [])
             [ NewProblem "s1" ada (Some "Addition") (Says "Addition, easy") creator (λ k, k);
               SubmitAnswer "s1" ada "3" (Says "no") analyst;
               ScaffoldProblem "s1" ada creator (λ k, k);
               SubmitAnswer "s1" ada "3" (Says "no") analyst;
               ScaffoldProblem "s1" ada creator (λ k, k);
               SubmitAnswer "s1" ada "3" (Says "no") analyst;
               ScaffoldProblem "s1" ada creator (λ k, k) ] in
  h_scaffold_level <$> history (db w) = [0; 1; 2]
  ∧ p_scaffold_level <$> current_problems w !! "s1" = Some 2
  ∧ scaffold_states w !! "s1" = None
  ∧ length (filter (λ e, is_scaffold_ready e = true) (trace w)) = 2%nat.
Proof. vm_compute. done. Qed.
Ltac split_comparisons :=
  repeat match goal with
         | |- context [?a <=? ?b] => destruct (Z.leb_spec a b)
         | |- context [?a <? ?b] => destruct (Z.ltb_spec a b)
         | |- context [?a =? ?b] => destruct (Z.eqb_spec a b)
         end.

Lemma count_where_snoc (P : history_row → bool) (rows : list history_row)
    (r : history_row) :
  count_where P (rows ++ [r]) = count_where P rows + (if P r then 1 else 0).
Proof.
  unfold count_where. rewrite List.filter_app, length_app. cbn [List.filter].
  destruct (P r); simpl; lia.
Qed.

Lemma streak_bonus_bounds (streak : Z) : 0 ≤ streak_bonus streak ≤ 20.
Proof. unfold streak_bonus. split_comparisons; lia. Qed.

Lemma run_bonus_step (streak : Z) :
  run_bonus (streak + 1) = run_bonus streak + streak_bonus (streak + 1).
Proof. unfold run_bonus, streak_bonus. split_comparisons; lia. Qed.

Lemma run_bonus_bounds (streak : Z) : 0 ≤ run_bonus streak ≤ 2 * Z.max 0 streak.
Proof. unfold run_bonus. split_comparisons; lia. Qed.

Lemma gam_fold_bounds (rows : list history_row) :
  let g := gam_fold rows in
  let total := Z.of_nat (length rows) in
  let correct := count_where h_is_correct rows in
  0 ≤ g_streak g ≤ g_best_streak g ∧ g_best_streak g ≤ correct ≤ total
  ∧ 2 * total + 6 * correct ≤ g_xp g
  ∧ g_xp g + 2 * g_streak g ≤ 2 * total + 10 * correct + run_bonus (g_streak g).
Proof.
  induction rows as [|r rows IH] using rev_ind; [by vm_compute|].
  cbn zeta in *. rewrite gam_fold_snoc, count_where_snoc, length_app.
  cbn [length]. unfold gam_step.
  pose proof (streak_bonus_bounds (g_streak (gam_fold rows) + 1)).
  pose proof (run_bonus_bounds (g_streak (gam_fold rows))).
  destruct (h_is_correct r); cbn [g_xp g_streak g_best_streak].
  - rewrite run_bonus_step. split_comparisons; lia.
  - change (run_bonus 0) with 0. lia.
Qed.

(** X1: whatever the history, the snapshot of [get_gamification_stats] is
    within these bounds: the streak is between 0 and the best streak, which
    is at most the number of correct rows; the XP total is between 8 per
    correct row plus 2 per other row and 12 per correct row plus 2 per other
    row; the level is between 1 and 50 and the percentage between 0 and
    100. *)
Theorem gamification_stats_bounds (d : database) (student_id : Z) :
  let rows := student_history d student_id in
  let stats := get_gamification_stats d student_id in
  let total := Z.of_nat (length rows) in
  let correct := count_where h_is_correct rows in
  0 ≤ streak stats ≤ best_streak stats
  ∧ best_streak stats ≤ correct ≤ total
  ∧ 2 * total + 6 * correct ≤ xp stats ≤ 2 * total + 10 * correct
  ∧ 1 ≤ level stats ≤ 50
  ∧ 0 ≤ xp_progress_pct stats ≤ 100.
Proof.
  intros rows stats total correct.
  pose proof (gam_fold_bounds rows) as Hb. cbn zeta in Hb.
  pose proof (run_bonus_bounds (g_streak (gam_fold rows))).
  subst stats. unfold get_gamification_stats, stats_of.
  cbn [xp level streak best_streak xp_progress_pct]. fold rows.
  split_and!; try lia.
  - unfold _level_from_xp.
    assert (0 ≤ Z.sqrt (4 * g_xp (gam_fold rows)) / 5).
    { apply Z.div_pos; [apply Z.sqrt_nonneg | lia]. }
    lia.
  - unfold _level_from_xp. lia.
Qed.

(** X2: a correct row adds the base award (10, or 8 for a scaffold problem)
    and the bonus of the streak it reaches. *)
Theorem correct_answer_award (d : database) (row : history_row) :
  h_is_correct row = true →
  let before := get_gamification_stats d (h_student_id row) in
  let after := get_gamification_stats (save_result d row) (h_student_id row) in
  xp after = xp before + (if 0 <? h_scaffold_level row then 8 else 10)
             + streak_bonus (streak before + 1)
  ∧ streak after = streak before + 1
  ∧ best_streak after = Z.max (best_streak before) (streak before + 1).
Proof.
  intros Hc. unfold get_gamification_stats.
  rewrite student_history_save, decide_True by done.
  rewrite gam_fold_snoc. unfold gam_step. rewrite Hc.
  cbn [stats_of xp streak best_streak g_xp g_streak g_best_streak].
  split_and!; [lia|done|]. split_comparisons; lia.
Qed.

Lemma level_from_xp_mono (a b : Z) : a ≤ b → _level_from_xp a ≤ _level_from_xp b.
Proof.
  intros Hle. unfold _level_from_xp.
  assert (Z.sqrt (4 * a) / 5 ≤ Z.sqrt (4 * b) / 5).
  { apply Z.div_le_mono; [lia|]. apply Z.sqrt_le_mono. lia. }
  lia.
Qed.

(** X3: a saved row never lowers anyone's XP, level or best streak. *)
Theorem save_result_never_lowers (d : database) (row : history_row)
    (student_id : Z) :
  let before := get_gamification_stats d student_id in
  let after := get_gamification_stats (save_result d row) student_id in
  (h_student_id row ≠ student_id → after = before)
  ∧ (h_student_id row = student_id →
       xp before + 2 ≤ xp after ≤ xp before + 30)
  ∧ xp before ≤ xp after
  ∧ level before ≤ level after
  ∧ best_streak before ≤ best_streak after.
Proof.
  intros before after. subst before after. unfold get_gamification_stats.
  rewrite student_history_save.
  destruct (decide (h_student_id row = student_id)) as [Hid|Hid].
  - rewrite gam_fold_snoc.
    generalize (gam_fold (student_history d student_id)) as g. intros g.
    assert (g_xp g + 2 ≤ g_xp (gam_step g row) ≤ g_xp g + 30
            ∧ g_best_streak g ≤ g_best_streak (gam_step g row)) as [Hxp Hbest].
    { unfold gam_step.
      pose proof (streak_bonus_bounds (g_streak g + 1)).
      destruct (h_is_correct row); cbn [g_xp g_best_streak];
        split_comparisons; lia. }
    cbn [stats_of xp level best_streak].
    split_and!; [done|done|lia| |done].
    apply level_from_xp_mono. lia.
  - rewrite app_nil_r. split_and!; [done|done|lia..].
Qed.

(** ** Level thresholds *)

Lemma level_from_xp_bracket (xp l : Z) :
  1 ≤ l ≤ 50 →
  25 * (l - 1) * (l - 1) ≤ 4 * xp →
  (4 * xp < 25 * l * l ∨ l = 50) →
  _level_from_xp xp = l.
Proof.
  intros Hl Hlo Hhi. assert (0 ≤ xp) by nia.
  destruct (level_floor_sqrt xp ltac:(done)) as [Hk Hb].
  unfold _level_from_xp. revert Hk Hb.
  generalize (Z.sqrt (4 * xp) / 5). intros k Hk Hb.
  destruct Hhi as [Hhi| ->].
  - assert (k = l - 1) by nia. lia.
  - assert (49 ≤ k) by nia. lia.
Qed.

Lemma level_from_xp_bounds (xp : Z) :
  0 ≤ xp →
  1 ≤ _level_from_xp xp ≤ 50
  ∧ (_level_from_xp xp < 50 →
     25 * (_level_from_xp xp - 1) * (_level_from_xp xp - 1) ≤ 4 * xp
       < 25 * _level_from_xp xp * _level_from_xp xp).
Proof.
  intros Hxp.
  destruct (level_floor_sqrt xp Hxp) as [Hk Hb].
  unfold _level_from_xp. revert Hk Hb.
  generalize (Z.sqrt (4 * xp) / 5). intros k Hk Hb.
  split; [lia|]. intros Hcap.
  replace (Z.min (k + 1) 50) with (k + 1) by lia. nia.
Qed.

(** X4: below the cap, the level is the bracket of the XP total between two
    thresholds [6.25 (l - 1)^2] and [6.25 l^2]; [xp_for_next] is the upper
    threshold rounded down, so the level changes at [xp_for_next] exactly
    when the current level is even and one point later when it is odd, and
    the percentage stays below 100. *)
Theorem xp_for_next_threshold (g : gam_state) :
  0 ≤ g_xp g →
  let stats := stats_of g in
  level stats < 50 →
  25 * (level stats - 1) * (level stats - 1) ≤ 4 * g_xp g
    < 25 * level stats * level stats
  ∧ g_xp g ≤ xp_for_next stats
  ∧ _level_from_xp (xp_for_next stats + 1) = level stats + 1
  ∧ _level_from_xp (xp_for_next stats)
    = (if Z.even (level stats) then level stats + 1 else level stats)
  ∧ 0 ≤ xp_progress_pct stats ≤ 99.
Proof.
  intros Hxp stats. subst stats.
  cbn [stats_of level xp_for_next xp_progress_pct].
  destruct (level_from_xp_bounds (g_xp g) Hxp) as [Hl Hbr].
  revert Hl Hbr. generalize (_level_from_xp (g_xp g)). intros l Hl Hbr Hcap.
  specialize (Hbr Hcap).
  assert (Hnext : 25 * l * l - 3 ≤ 4 * (25 * l * l / 4) ≤ 25 * l * l).
  { pose proof (Z.mul_div_le (25 * l * l) 4 ltac:(lia)).
    pose proof (Z.mul_succ_div_gt (25 * l * l) 4 ltac:(lia)). lia. }
  split; [done|]. split; [lia|]. split; [|split].
  - apply level_from_xp_bracket; [lia|lia|].
    destruct (decide (l = 49)) as [->|]; [by right|left; nia].
  - destruct (Z.even l) eqn:Heven.
    + apply Z.even_spec in Heven as [m ->].
      replace (25 * (2 * m) * (2 * m) / 4) with (25 * m * m).
      2: { apply Z.div_unique_exact; lia. }
      apply level_from_xp_bracket; [lia|lia|].
      destruct (decide (2 * m = 49)); [lia|left; nia].
    + assert (Z.odd l = true) as [m ->]%Z.odd_spec.
      { by rewrite <- Z.negb_even, Heven. }
      replace (25 * (2 * m + 1) * (2 * m + 1) / 4) with (25 * m * m + 25 * m + 6).
      2: { apply (Z.div_unique _ _ _ 1); lia. }
      apply level_from_xp_bracket; [lia|nia|left; nia].
  - assert (0 ≤ 100 * (4 * g_xp g - 25 * (l - 1) * (l - 1)) / (25 * (2 * l - 1)) < 100).
    { split; [apply Z.div_pos; lia|].
      apply Z.div_lt_upper_bound; lia. }
    lia.
Qed.

Lemma xp_for_next_threshold_witness :
  let stats := stats_of (GamState 6 0 0) in
  25 * (level stats - 1) * (level stats - 1) ≤ 4 * 6 < 25 * level stats * level stats
  ∧ 6 ≤ xp_for_next stats
  ∧ _level_from_xp (xp_for_next stats + 1) = level stats + 1
  ∧ _level_from_xp (xp_for_next stats)
    = (if Z.even (level stats) then level stats + 1 else level stats)
  ∧ 0 ≤ xp_progress_pct stats ≤ 99.
Proof.
  apply (xp_for_next_threshold (GamState 6 0 0)).
  - cbn. lia.
  - reflexivity.
Defined.

(** ** Topic extraction *)

Lemma find_first {A} (f : A → bool) (l : list A) :
  match List.find f l with
  | Some x => ∃ i, l !! i = Some x ∧ f x = true
                   ∧ ∀ j y, (j < i)%nat → l !! j = Some y → f y = false
  | None => ∀ y, y ∈ l → f y = false
  end.
Proof.
  induction l as [|a l IH]; cbn [List.find].
  - intros y Hy. by apply not_elem_of_nil in Hy.
  - destruct (f a) eqn:Ha.
    + exists 0%nat. split_and!; [done..|]. intros j y Hj. lia.
    + destruct (List.find f l) as [x|].
      * destruct IH as (i & Hi & Hx & Hfirst). exists (S i).
        split_and!; [done..|]. intros [|j] y Hj Hy; cbn in Hy.
        -- by simplify_eq.
        -- apply (Hfirst j y); [lia|done].
      * intros y [->|Hy]%elem_of_cons; [done|by apply IH].
Qed.

Lemma lower_idemp (s : string) : lower (lower s) = lower s.
Proof.
  induction s as [|c s IH]; [done|]. cbn [lower]. rewrite IH. f_equal.
  destruct c as [[] [] [] [] [] [] [] []]; reflexivity.
Qed.

(** X5: the topic taken from the manager's analysis is the first known
    topic, in the order of [KNOWN_TOPICS], whose lower-case form occurs in
    the lower-cased text, and none when no known topic occurs; the case of
    the letters of the text plays no role. *)
Theorem extract_topic_first_known (analysis_text : string) :
  match _extract_topic_from_analysis analysis_text with
  | Some topic =>
      ∃ i, KNOWN_TOPICS !! i = Some topic
           ∧ contains (lower topic) (lower analysis_text) = true
           ∧ ∀ j earlier, (j < i)%nat → KNOWN_TOPICS !! j = Some earlier →
                          contains (lower earlier) (lower analysis_text) = false
  | None =>
      ∀ topic, topic ∈ KNOWN_TOPICS →
               contains (lower topic) (lower analysis_text) = false
  end
  ∧ _extract_topic_from_analysis (lower analysis_text)
    = _extract_topic_from_analysis analysis_text
  ∧ ∀ other, lower other = lower analysis_text →
             _extract_topic_from_analysis other
             = _extract_topic_from_analysis analysis_text.
Proof.
  split; [|split].
  - unfold _extract_topic_from_analysis.
    apply (find_first (λ topic, contains (lower topic) (lower analysis_text))).
  - unfold _extract_topic_from_analysis. by rewrite lower_idemp.
  - intros other Heq. unfold _extract_topic_from_analysis. by rewrite Heq.
Qed.

(** ** Level titles *)

(** X6: the titles of the levels 1 to 12 are the twelve of [LEVEL_TITLES];
    every level above is a Math Wizard, which a student becomes at 900 XP. *)
Theorem level_title_wizard (g : gam_state) :
  0 ≤ g_xp g →
  (level_title (stats_of g) = "Math Wizard" ↔ 900 ≤ g_xp g)
  ∧ (g_xp g < 900 →
     (level (stats_of g), level_title (stats_of g)) ∈ LEVEL_TITLES).
Proof.
  intros Hxp. cbn [stats_of level level_title].
  destruct (level_from_xp_bounds (g_xp g) Hxp) as [Hl Hbr].
  assert (Hlevel : _level_from_xp (g_xp g) ≤ 12 ↔ g_xp g < 900).
  { split.
    - intros H12. specialize (Hbr ltac:(lia)). nia.
    - intros H900. destruct (decide (_level_from_xp (g_xp g) < 50)) as [Hc|Hc].
      + specialize (Hbr Hc). nia.
      + pose proof (level_from_xp_mono (g_xp g) 899 ltac:(lia)) as Hm.
        change (_level_from_xp 899) with 12 in Hm. lia. }
  revert Hl Hlevel. generalize (_level_from_xp (g_xp g)). intros l Hl Hlevel.
  destruct (decide (l ≤ 12)) as [H12|H12].
  - assert (l = 1 ∨ l = 2 ∨ l = 3 ∨ l = 4 ∨ l = 5 ∨ l = 6 ∨ l = 7 ∨ l = 8
            ∨ l = 9 ∨ l = 10 ∨ l = 11 ∨ l = 12) as Hcases by lia.
    split.
    + split; [|lia]. intros Ht. exfalso.
      repeat (destruct Hcases as [->|Hcases]; [by vm_compute in Ht|]).
      subst l. by vm_compute in Ht.
    + intros _.
      repeat (destruct Hcases as [->|Hcases];
              [by apply (bool_decide_unpack _); vm_compute|]).
      subst l. by apply (bool_decide_unpack _); vm_compute.
  - split; [|lia]. split; [lia|]. intros _.
    unfold _level_title.
    destruct (list_find _ LEVEL_TITLES) as [[i [k title]]|] eqn:Hfind; [|done].
    apply list_find_Some in Hfind as (Hi & Hk & _). cbn in Hk. subst k.
    apply list_elem_of_lookup_2 in Hi.
    exfalso. unfold LEVEL_TITLES in Hi.
    repeat (apply elem_of_cons in Hi as [[= ? ?]|Hi]; [lia|]).
    by apply not_elem_of_nil in Hi.
Qed.

(** ** History queries *)

Lemma elem_of_with_ids {A} (rows : list A) (id : Z) (r : A) :
  (id, r) ∈ with_ids rows ↔ 1 ≤ id ∧ rows !! Z.to_nat (id - 1) = Some r.
Proof.
  rewrite list_elem_of_lookup. split.
  - intros [i Hi]. rewrite with_ids_lookup in Hi.
    destruct (rows !! i) as [r'|] eqn:Hr; [|done]. cbn in Hi. simplify_eq.
    split; [lia|]. by replace (Z.to_nat (Z.of_nat (S i) - 1)) with i by lia.
  - intros [Hid Hr]. exists (Z.to_nat (id - 1)).
    rewrite with_ids_lookup, Hr. cbn. do 2 f_equal. lia.
Qed.

Lemma with_ids_sorted {A} (rows : list A) :
  StronglySorted (λ x y : Z * A, x.1 < y.1) (with_ids rows).
Proof.
  induction rows as [|r rows IH] using rev_ind; [constructor|].
  rewrite with_ids_app.
  apply StronglySorted_app_2; [|done|repeat constructor].
  intros [id x] [id' y] Hin [= -> ->]%list_elem_of_singleton. cbn.
  apply elem_of_with_ids in Hin as [_ Hin%lookup_lt_Some]. lia.
Qed.

Lemma strongly_sorted_filter {A} (R : relation A) (P : A → Prop)
    `{∀ x, Decision (P x)} (l : list A) :
  StronglySorted R l → StronglySorted R (filter P l).
Proof.
  induction 1 as [|a l _ IH Hall]; [constructor|].
  rewrite filter_cons. case_decide; [|done].
  constructor; [done|]. rewrite Forall_forall in *.
  intros y [_ Hy]%list_elem_of_filter. by apply Hall.
Qed.

Lemma strongly_sorted_reverse {A} (R : relation A) (l : list A) :
  StronglySorted R l → StronglySorted (flip R) (reverse l).
Proof.
  induction 1 as [|a l _ IH Hall]; [constructor|].
  rewrite reverse_cons. apply StronglySorted_app_2; [|done|repeat constructor].
  intros x y Hx ->%list_elem_of_singleton. rewrite Forall_forall in Hall.
  apply Hall. by apply elem_of_reverse.
Qed.

Lemma strongly_sorted_take {A} (R : relation A) (n : nat) (l : list A) :
  StronglySorted R l → StronglySorted R (take n l).
Proof.
  intros Hs. rewrite <- (take_drop n l) in Hs.
  by apply StronglySorted_app_1_l in Hs.
Qed.

Lemma last_student_row (rows : list history_row) (student_id : Z) :
  match last (filter (λ ir : Z * history_row, h_student_id ir.2 = student_id)
                (with_ids rows)) with
  | Some (id, row) =>
      rows !! Z.to_nat (id - 1) = Some row ∧ 1 ≤ id
      ∧ h_student_id row = student_id
      ∧ ∀ j row', (Z.to_nat (id - 1) < j)%nat → rows !! j = Some row' →
                  h_student_id row' ≠ student_id
  | None => filter (λ r, h_student_id r = student_id) rows = []
  end.
Proof.
  induction rows as [|r rows IH] using rev_ind; [done|].
  rewrite with_ids_app, !filter_app, !filter_cons, !filter_nil. cbn [snd].
  case_decide as Hr.
  - rewrite last_snoc.
    replace (Z.to_nat (Z.of_nat (S (length rows)) - 1)) with (length rows) by lia.
    split_and!; [by apply list_lookup_middle|lia|done|].
    intros j row' Hj Hrow'. apply lookup_lt_Some in Hrow'.
    rewrite length_app in Hrow'. cbn in Hrow'. lia.
  - rewrite !app_nil_r.
    destruct (last _) as [[id row]|]; [|done].
    destruct IH as (Hrow & Hid & Hsid & Hlater).
    split_and!; [by apply lookup_app_l_Some|done..|].
    intros j row' Hj Hrow'.
    apply lookup_app_Some in Hrow' as [Hrow'|[_ Hrow']]; [by eapply Hlater|].
    apply list_lookup_singleton_Some in Hrow' as [_ <-]. done.
Qed.

(** X7: the key [get_last_history_id] returns names the student's latest
    row; there is none exactly when the student has no history; a saved
    row becomes the latest of its student and of nobody else. *)
Theorem get_last_history_id_latest (d : database) (student_id : Z) :
  match get_last_history_id d student_id with
  | Some id =>
      ∃ row, history d !! Z.to_nat (id - 1) = Some row ∧ 1 ≤ id
        ∧ h_student_id row = student_id
        ∧ ∀ j row', (Z.to_nat (id - 1) < j)%nat → history d !! j = Some row' →
                    h_student_id row' ≠ student_id
  | None => student_history d student_id = []
  end
  ∧ ∀ row,
      get_last_history_id (save_result d row) student_id
      = if decide (h_student_id row = student_id)
        then Some (Z.of_nat (S (length (history d))))
        else get_last_history_id d student_id.
Proof.
  split.
  - unfold get_last_history_id, student_history.
    pose proof (last_student_row (history d) student_id) as H.
    destruct (last _) as [[id row]|]; cbn; [|done]. by exists row.
  - intros row. case_decide as Hr.
    + by apply get_last_history_id_save.
    + unfold get_last_history_id, save_result. cbn [history].
      rewrite with_ids_app, filter_app, filter_cons, filter_nil. cbn [snd].
      rewrite decide_False by done. by rewrite app_nil_r.
Qed.

(** X8: [get_history] lists rows of the student only, newest first, at most
    [limit] of them; it starts with the row [get_last_history_id] names, and
    right after a save with the saved row. *)
Theorem get_history_newest_first (d : database) (student_id limit : Z) :
  let rows := get_history d student_id limit in
  (∀ id row, (id, row) ∈ rows →
     h_student_id row = student_id ∧ 1 ≤ id
     ∧ history d !! Z.to_nat (id - 1) = Some row)
  ∧ StronglySorted (λ x y, y.1 < x.1) rows
  ∧ (0 ≤ limit →
     Z.of_nat (length rows)
     = Z.min limit (Z.of_nat (length (student_history d student_id))))
  ∧ (1 ≤ limit → fst <$> head rows = get_last_history_id d student_id)
  ∧ (1 ≤ limit → ∀ row, h_student_id row = student_id →
     head (get_history (save_result d row) student_id limit)
     = Some (Z.of_nat (S (length (history d))), row)).
Proof.
  intros rows. subst rows. unfold get_history.
  set (mine := filter _ (with_ids (history d))).
  assert (Hsub : ∀ ir, ir ∈ sql_limit limit (reverse mine) → ir ∈ mine).
  { intros ir. unfold sql_limit. case_match.
    - by rewrite elem_of_reverse.
    - intros (i & Hi & _)%elem_of_take.
      apply elem_of_reverse. by eapply list_elem_of_lookup_2. }
  split_and!.
  - intros id row Hin%Hsub. subst mine.
    apply list_elem_of_filter in Hin as [Hs Hin]. cbn in Hs.
    apply elem_of_with_ids in Hin as [? ?]. done.
  - assert (StronglySorted (λ x y : Z * history_row, y.1 < x.1) (reverse mine)) as Hs.
    { apply (strongly_sorted_reverse (λ x y : Z * history_row, x.1 < y.1)).
      apply strongly_sorted_filter, with_ids_sorted. }
    unfold sql_limit. case_match; [done|]. by apply strongly_sorted_take.
  - intros Hlimit. unfold sql_limit.
    destruct (Z.ltb_spec limit 0); [lia|].
    rewrite length_take, length_reverse.
    assert (length mine = length (student_history d student_id)) as ->; [|lia].
    subst mine. unfold student_history.
    generalize (history d). intros l.
    induction l as [|r l IH] using rev_ind; [done|].
    rewrite with_ids_app, !filter_app, !length_app, IH.
    rewrite !filter_cons, !filter_nil. cbn [snd]. by case_decide.
  - intros Hlimit. unfold sql_limit, get_last_history_id.
    destruct (Z.ltb_spec limit 0); [lia|]. fold mine.
    rewrite <- head_reverse.
    destruct (reverse mine) as [|x l]; [by rewrite take_nil|].
    by replace (Z.to_nat limit) with (S (Z.to_nat (limit - 1))) by lia.
  - intros Hlimit row Hrow. subst mine. unfold sql_limit, save_result.
    cbn [history]. destruct (Z.ltb_spec limit 0); [lia|].
    rewrite with_ids_app, filter_app, filter_cons, filter_nil. cbn [snd].
    rewrite decide_True by done. rewrite reverse_app. cbn.
    by replace (Z.to_nat limit) with (S (Z.to_nat (limit - 1))) by lia.
Qed.

(** ** Updates of a history row *)

Lemma update_row_absent {A} (f : A → A) (id : Z) (rows : list A) :
  ¬ (1 ≤ id ≤ Z.of_nat (length rows)) → update_row f id rows = rows.
Proof.
  intros Hid. unfold update_row. destruct (Z.ltb_spec id 1); [done|].
  apply list_eq. intros i. rewrite list_lookup_alter.
  case_decide; [|done]. subst i.
  rewrite lookup_ge_None_2 by lia. done.
Qed.

Lemma update_row_length {A} (f : A → A) (id : Z) (rows : list A) :
  length (update_row f id rows) = length rows.
Proof. unfold update_row. case_match; [done|]. by rewrite length_alter. Qed.

Lemma update_row_core (f : history_row → history_row) (id : Z)
    (rows : list history_row) :
  (∀ r, same_core r (f r)) →
  Forall2 same_core rows (update_row f id rows).
Proof.
  intros Hf. apply Forall2_same_length_lookup_2.
  - by rewrite update_row_length.
  - intros i r r' Hr Hr'. rewrite update_row_lookup, Hr in Hr'.
    case_bool_decide; cbn in Hr'; simplify_eq; [apply Hf|].
    by repeat split.
Qed.

Lemma same_core_filter (rows rows' : list history_row) (student_id : Z) :
  Forall2 same_core rows rows' →
  Forall2 same_core (filter (λ r, h_student_id r = student_id) rows)
    (filter (λ r, h_student_id r = student_id) rows').
Proof.
  induction 1 as [|r r' rows rows' Hr _ IH]; [constructor|].
  rewrite !filter_cons. destruct Hr as (Hs & ?).
  rewrite <- Hs. case_decide; [constructor|]; done.
Qed.

Lemma same_core_last_id (rows rows' : list history_row) (student_id : Z) :
  Forall2 same_core rows rows' →
  fst <$> last (filter (λ ir, h_student_id ir.2 = student_id) (with_ids rows))
  = fst <$> last (filter (λ ir, h_student_id ir.2 = student_id) (with_ids rows')).
Proof.
  revert rows'. induction rows as [|r rows IH] using rev_ind; intros rows' H.
  - by apply Forall2_nil_inv_l in H as ->.
  - apply Forall2_app_inv_l in H as (l1 & l2 & H1 & H2 & ->).
    apply Forall2_cons_inv_l in H2 as (r' & ? & Hr & ->%Forall2_nil_inv_l & ->).
    rewrite !with_ids_app, !filter_app, !filter_cons, !filter_nil. cbn [snd].
    rewrite <- (Forall2_length _ _ _ H1). destruct Hr as (Hs & _).
    rewrite <- Hs. case_decide.
    + by rewrite !last_snoc.
    + rewrite !app_nil_r. by apply IH.
Qed.

Lemma same_core_questions (rows rows' : list history_row) :
  Forall2 same_core rows rows' → h_question <$> rows = h_question <$> rows'.
Proof.
  induction 1 as [|r r' rows rows' (_ & Hq & _) _ IH]; [done|].
  cbn. by rewrite Hq, IH.
Qed.

Lemma same_core_topics (rows rows' : list history_row) :
  Forall2 same_core rows rows' → omap h_topic rows = omap h_topic rows'.
Proof.
  induction 1 as [|r r' rows rows' (_ & _ & _ & Ht & _) _ IH]; [done|].
  cbn. by rewrite Ht, IH.
Qed.

Lemma same_core_count (P : history_row → bool) (rows rows' : list history_row) :
  (∀ r r', same_core r r' → P r = P r') →
  Forall2 same_core rows rows' → count_where P rows = count_where P rows'.
Proof.
  intros HP. unfold count_where.
  induction 1 as [|r r' rows rows' Hr _ IH]; [done|].
  cbn [List.filter]. rewrite (HP r r' Hr).
  destruct (P r'); cbn [length]; lia.
Qed.

Lemma same_core_gam (rows rows' : list history_row) :
  Forall2 same_core rows rows' → gam_fold rows = gam_fold rows'.
Proof.
  intros H. unfold gam_fold. apply gam_rows_ext.
  eapply Forall2_impl; [exact H|].
  intros r r' (_ & _ & Hc & _ & Hl). by rewrite Hc, Hl.
Qed.

(** The queries that read a student's history see no difference between two
    tables that agree on the core columns. *)
Lemma same_core_queries (d d' : database) (student_id : Z) :
  Forall2 same_core (history d) (history d') →
  get_gamification_stats d' student_id = get_gamification_stats d student_id
  ∧ get_last_history_id d' student_id = get_last_history_id d student_id
  ∧ (∀ n, seen_questions d' student_id n = seen_questions d student_id n)
  ∧ achievement_checks d' student_id = achievement_checks d student_id.
Proof.
  intros H.
  pose proof (same_core_filter _ _ student_id H) as Hmine.
  fold (student_history d student_id) in Hmine.
  fold (student_history d' student_id) in Hmine.
  assert (Hg : gam_fold (student_history d' student_id)
               = gam_fold (student_history d student_id)).
  { symmetry. by apply same_core_gam. }
  split_and!.
  - unfold get_gamification_stats. by rewrite Hg.
  - unfold get_last_history_id. symmetry. by apply same_core_last_id.
  - intros n. unfold seen_questions. symmetry. apply same_core_questions.
    unfold sql_limit. case_match.
    + by apply Forall2_reverse.
    + by apply Forall2_take, Forall2_reverse.
  - unfold achievement_checks, get_gamification_stats. rewrite Hg.
    rewrite (same_core_topics _ _ Hmine).
    rewrite (Forall2_length _ _ _ Hmine).
    rewrite (same_core_count h_is_correct _ _ ltac:(by intros ?? (_ & _ & -> & _)) Hmine).
    rewrite (same_core_count (λ r, h_is_correct r && (0 <? h_scaffold_level r)) _ _
               ltac:(by intros ?? (_ & _ & -> & _ & ->)) Hmine).
    done.
Qed.

(** X9: storing the helper's feedback or the analyst's diagnosis changes
    those columns of the one row the key names and nothing when the key
    names no row: the bank, the achievements, and every student's
    gamification snapshot, latest key, seen questions and achievement
    conditions stay as they were. *)
Theorem history_updates_keep_stats (d : database) (history_id : Z)
    (fb : string) (ty detail : option string) (student_id : Z) :
  let d1 := update_feedback d history_id fb in
  let d2 := update_misconception d history_id ty detail in
  (∀ d', d' = d1 ∨ d' = d2 →
     problem_bank d' = problem_bank d ∧ achievements d' = achievements d
     ∧ get_gamification_stats d' student_id = get_gamification_stats d student_id
     ∧ get_last_history_id d' student_id = get_last_history_id d student_id
     ∧ (∀ n, seen_questions d' student_id n = seen_questions d student_id n)
     ∧ achievement_checks d' student_id = achievement_checks d student_id)
  ∧ (∀ i r, history d !! i = Some r →
       history d1 !! i
       = Some (if bool_decide (history_id = Z.of_nat (S i))
               then set_feedback fb r else r)
       ∧ history d2 !! i
         = Some (if bool_decide (history_id = Z.of_nat (S i))
                 then set_misconception ty detail r else r))
  ∧ (¬ (1 ≤ history_id ≤ Z.of_nat (length (history d))) → d1 = d ∧ d2 = d).
Proof.
  intros d1 d2. split_and!.
  - intros d' Hd'.
    assert (Forall2 same_core (history d) (history d')
            ∧ problem_bank d' = problem_bank d
            ∧ achievements d' = achievements d) as (Hcore & ? & ?).
    { destruct Hd' as [-> | ->]; subst d1 d2;
        cbn [update_feedback update_misconception history problem_bank achievements];
        (split; [|done]); apply update_row_core; intros r; by repeat split. }
    pose proof (same_core_queries d d' student_id Hcore) as (? & ? & ? & ?).
    done.
  - intros i r Hr. subst d1 d2.
    cbn [update_feedback update_misconception history].
    rewrite !update_row_lookup, Hr. cbn.
    split; case_bool_decide; case_bool_decide; try done; lia.
  - intros Hid. subst d1 d2. unfold update_feedback, update_misconception.
    rewrite !update_row_absent by done. by destruct d.
Qed.

(** ** Serving from the bank *)

Lemma elem_of_with_ids_update {A} (f : A → A) (key : Z) (rows : list A)
    (id : Z) (r : A) :
  (id, r) ∈ with_ids (update_row f key rows)
  ↔ ∃ r0, (id, r0) ∈ with_ids rows ∧ r = if bool_decide (id = key) then f r0 else r0.
Proof.
  rewrite elem_of_with_ids, update_row_lookup.
  setoid_rewrite elem_of_with_ids.
  destruct (rows !! Z.to_nat (id - 1)) as [r0|] eqn:Hr0; cbn.
  - split.
    + intros [Hid Hr]. exists r0. split; [done|].
      case_bool_decide; case_bool_decide; simplify_eq/=; try done; lia.
    + intros (r1 & [Hid Hr1] & ->). simplify_eq. split; [done|].
      case_bool_decide; case_bool_decide; simplify_eq/=; try done; lia.
  - split.
    + intros [_ Hr]. by case_bool_decide.
    + by intros (r1 & [_ ?] & _).
Qed.

(** X10: the bank rotates.  When the served row has a rival, another unseen
    matching row that was served no more often, the lookup that follows the
    increment returns a row other than the one just served, whatever the
    random order. *)
Theorem served_problem_rotates (d : database) (rnd rnd' : Z → Z) (grade : Z)
    (style topic : string) (student_id : Z) (is_scaffold : bool)
    (mtype : option string) (exclude_recent : Z)
    (id1 id2 : Z) (r1 r2 : bank_row) :
  find_reusable_problem d rnd grade style topic student_id is_scaffold mtype
    exclude_recent = Some (id1, r1) →
  (id2, r2) ∈ with_ids (problem_bank d) →
  bank_matches grade style topic is_scaffold mtype r2 = true →
  b_question r2 ∉ seen_questions d student_id exclude_recent →
  id2 ≠ id1 →
  b_times_served r2 ≤ b_times_served r1 →
  ∃ id' r',
    find_reusable_problem (increment_times_served d id1) rnd' grade style topic
      student_id is_scaffold mtype exclude_recent = Some (id', r')
    ∧ id' ≠ id1
    ∧ (id', r') ∈ with_ids (problem_bank d)
    ∧ b_times_served r' = b_times_served r1.
Proof.
  intros Hfound Hin2 Hm2 Hunseen2 Hne Hts.
  pose proof (find_reusable_problem_spec d rnd grade style topic student_id
                is_scaffold mtype exclude_recent) as (_ & Hsome & _).
  cbn zeta in Hsome. destruct (Hsome _ Hfound) as (Hunseen1 & [Hin1 Hm1] & Hmin1).
  cbn [fst snd] in *.
  set (d' := increment_times_served d id1).
  assert (Hseen : seen_questions d' student_id exclude_recent
                  = seen_questions d student_id exclude_recent) by done.
  pose proof (find_reusable_problem_spec d' rnd' grade style topic student_id
                is_scaffold mtype exclude_recent) as (_ & Hsome' & Hnone').
  cbn zeta in Hsome', Hnone'. rewrite Hseen in Hsome', Hnone'.
  assert (Hin2' : (id2, r2) ∈ with_ids (problem_bank d')).
  { subst d'. cbn [increment_times_served problem_bank].
    apply elem_of_with_ids_update. exists r2.
    by rewrite bool_decide_eq_false_2. }
  destruct (find_reusable_problem d' rnd' grade style topic student_id
              is_scaffold mtype exclude_recent) as [[id' r']|] eqn:Hfound'.
  2: { destruct Hunseen2. by apply (proj1 Hnone' eq_refl (id2, r2)). }
  destruct (Hsome' _ eq_refl) as (Hunseen' & [Hin' Hm'] & Hmin').
  cbn [fst snd] in *.
  pose proof (Hmin' (id2, r2) (conj Hin2' Hm2) Hunseen2) as Hle. cbn in Hle.
  subst d'. cbn [increment_times_served problem_bank] in Hin'.
  apply elem_of_with_ids_update in Hin' as (r0 & Hin0 & Hr').
  exists id', r'. split; [done|].
  case_bool_decide as Hid; subst r'.
  - subst id'. exfalso.
    apply elem_of_with_ids in Hin0 as [_ Hr0], Hin1 as [_ Hr1].
    simplify_eq. cbn in Hle. lia.
  - split; [done|]. split; [done|].
    assert (bank_matches grade style topic is_scaffold mtype r0 = true) by done.
    pose proof (Hmin1 (id', r0) (conj Hin0 ltac:(done)) Hunseen') as Hge.
    cbn in Hge. lia.
Qed.

(** ** What an achievement check reports *)

Lemma achievement_checks_keys (d : database) (student_id : Z) :
  fst <$> achievement_checks d student_id = ACHIEVEMENTS.
Proof. reflexivity. Qed.

Lemma unlock_fold_origin (student_id : Z) (checks : list (string * bool)) :
  ∀ acc db,
  let r := foldl (unlock_step student_id) (acc, db) checks in
  problem_bank r.2 = problem_bank db
  ∧ ∀ key, key ∈ r.1 → key ∈ acc ∨ (key, true) ∈ checks.
Proof.
  induction checks as [|[key cond] checks IH]; intros acc db; cbn [foldl].
  - split; [done|]. by left.
  - destruct (unlock_step_cases student_id acc db key cond)
      as [(-> & Hk & Hnew & ->)|[Hskip ->]].
    + specialize (IH (acc ++ [key])
                     (Database (history db) (problem_bank db)
                        (achievements db ++ [(student_id, key)]))).
      cbn zeta in IH. destruct IH as [Hb Hin]. split; [done|].
      intros k Hk'. destruct (Hin k Hk') as [Hacc|Hc].
      * apply elem_of_app in Hacc as [?|Heq]; [by left|].
        apply list_elem_of_singleton in Heq as ->. right. by left.
      * right. by right.
    + specialize (IH acc db). cbn zeta in IH. destruct IH as [Hb Hin].
      split; [done|]. intros k Hk'.
      destruct (Hin k Hk') as [?|?]; [by left|right; by right].
Qed.

(** X11: an achievement check reports exactly the keys whose condition holds
    and that the student has not unlocked yet; it appends them to the table
    in the order reported, so that afterwards every key whose condition
    holds is unlocked; history and bank are not touched. *)
Theorem check_achievements_reports (d : database) (student_id : Z) :
  let checked := check_achievements d student_id in
  (∀ key, key ∈ checked.1
          ↔ (key, true) ∈ achievement_checks d student_id
            ∧ (student_id, key) ∉ achievements d)
  ∧ achievements checked.2
    = achievements d ++ ((λ key, (student_id, key)) <$> checked.1)
  ∧ (∀ key, (key, true) ∈ achievement_checks d student_id →
            (student_id, key) ∈ achievements checked.2)
  ∧ history checked.2 = history d
  ∧ problem_bank checked.2 = problem_bank d.
Proof.
  unfold check_achievements. cbn zeta.
  pose proof (unlock_fold_spec student_id (achievement_checks d student_id) [] d)
    as Hspec.
  pose proof (unlock_fold_origin student_id (achievement_checks d student_id) [] d)
    as Horigin.
  pose proof (achievement_checks_keys d student_id) as Hkeys.
  cbn zeta in Hspec, Horigin. revert Hspec Horigin Hkeys.
  generalize (achievement_checks d student_id). intros checks.
  generalize (foldl (unlock_step student_id) ([], d) checks).
  intros [new d']. cbn [fst snd app].
  intros (Hh & (added & -> & Ha & Hnd & Hfresh) & Hall) [Hb Horigin] Hkeys.
  assert (Hknown : ∀ key, (key, true) ∈ checks → key ∈ ACHIEVEMENTS).
  { intros key Hin. rewrite <- Hkeys. apply list_elem_of_fmap.
    by exists (key, true). }
  split_and!; [|done| |done..].
  - intros key. split.
    + intros Hin. split; [|by apply Hfresh].
      destruct (Horigin key Hin) as [Hnil|?]; [|done].
      by apply not_elem_of_nil in Hnil.
    + intros [Hc Hnew]. specialize (Hall key Hc (Hknown key Hc)).
      rewrite Ha in Hall. apply elem_of_app in Hall as [?|Hin]; [done|].
      apply list_elem_of_fmap in Hin as (k & [= ->] & ?). done.
  - intros key Hc. by apply Hall, Hknown.
Qed.

(** ** Dashboard statistics ([get_stats], [get_score_over_time]) *)

Lemma pct_binary64_close (part whole : Z) :
  1 ≤ whole ≤ 300 → 0 ≤ part ≤ whole →
  Z.max 0 (100 * part / whole - 1) ≤ pct_binary64 part whole ≤ 100 * part / whole.
Proof.
  intros Hw Hp.
  assert (all_from pct_close_upto 1 300 = true) as Hall by (vm_compute; reflexivity).
  pose proof (all_from_spec _ _ _ Hall whole ltac:(lia)) as Hrow.
  unfold pct_close_upto in Hrow.
  pose proof (all_from_spec _ _ _ Hrow part ltac:(lia)) as Hc.
  unfold pct_close in Hc. cbn zeta in Hc.
  apply andb_true_iff in Hc as [H1 H2]. lia.
Qed.

Lemma count_where_cons (P : history_row → bool) (r : history_row)
    (rows : list history_row) :
  count_where P (r :: rows) = (if P r then 1 else 0) + count_where P rows.
Proof.
  unfold count_where. cbn [List.filter].
  destruct (P r); [rewrite length_cons|]; lia.
Qed.

Lemma count_where_bounds (P : history_row → bool) (rows : list history_row) :
  0 ≤ count_where P rows ≤ Z.of_nat (length rows).
Proof.
  induction rows as [|r rows IH]; [done|].
  rewrite count_where_cons, length_cons. destruct (P r); lia.
Qed.

Lemma count_where_le (P Q : history_row → bool) (rows : list history_row) :
  (∀ r, P r = true → Q r = true) → count_where P rows ≤ count_where Q rows.
Proof.
  intros HPQ. induction rows as [|r rows IH]; [done|].
  rewrite !count_where_cons.
  destruct (P r) eqn:HP; [rewrite (HPQ r HP)|destruct (Q r)]; lia.
Qed.

Lemma count_where_pos (P : history_row → bool) (rows : list history_row) (r : history_row) :
  r ∈ rows → P r = true → 1 ≤ count_where P rows.
Proof.
  intros Hin HP.
  induction Hin as [r rows|r r' rows Hin IH]; rewrite count_where_cons.
  - rewrite HP. pose proof (count_where_bounds P rows). lia.
  - specialize (IH HP). destruct (P r'); lia.
Qed.

Lemma count_where_zero (P : history_row → bool) (rows : list history_row) :
  count_where P rows = 0 → ∀ r, r ∈ rows → P r = false.
Proof.
  intros Hz r Hin. destruct (P r) eqn:HP; [|done].
  pose proof (count_where_pos P rows r Hin HP). lia.
Qed.

(** X12: the dashboard numbers of [get_stats]: the total is the number of
    the student's rows, the correct count is at most the total, the
    percentage is 0 without rows and for up to 300 rows it is the exact
    truncated percentage or one below it, as the binary64 product falls, and
    between 0 and 100; every topic listed has at least one row, counts that
    fit the totals and its own percentage, and a topic not listed has no
    row. *)
Theorem get_stats_counts (d : database) (student_id : Z) :
  let rows := student_history d student_id in
  let s := get_stats d student_id in
  st_total s = Z.of_nat (length rows)
  ∧ st_correct s = count_where h_is_correct rows
  ∧ 0 ≤ st_correct s ≤ st_total s
  ∧ (st_total s = 0 → st_pct s = 0)
  ∧ (1 ≤ st_total s ≤ 300 →
     100 * st_correct s / st_total s - 1 ≤ st_pct s ≤ 100 * st_correct s / st_total s
     ∧ 0 ≤ st_pct s ≤ 100)
  ∧ ∀ topic,
      match st_topics s !! topic with
      | Some t =>
          t = topic_group rows topic
          ∧ 1 ≤ ts_total t ≤ st_total s
          ∧ 0 ≤ ts_correct t ≤ ts_total t
          ∧ ts_correct t ≤ st_correct s
          ∧ ts_pct t = pct_binary64 (ts_correct t) (ts_total t)
      | None => ∀ r, r ∈ rows → h_topic r ≠ Some topic
      end.
Proof.
  intros rows s. subst s. unfold get_stats. fold rows.
  cbn [st_total st_correct st_pct st_topics].
  pose proof (count_where_bounds h_is_correct rows) as Hc.
  split; [reflexivity|]. split; [reflexivity|]. split; [lia|].
  split; [|split].
  - intros Hz. destruct (Z.ltb_spec 0 (Z.of_nat (length rows))); [lia|done].
  - intros Ht. destruct (Z.ltb_spec 0 (Z.of_nat (length rows))); [|lia].
    pose proof (pct_binary64_close (count_where h_is_correct rows)
                  (Z.of_nat (length rows)) Ht Hc) as Hp.
    assert (0 ≤ 100 * count_where h_is_correct rows / Z.of_nat (length rows) ≤ 100).
    { split; [apply Z.div_pos; lia|].
      apply Z.div_le_upper_bound; lia. }
    lia.
  - intros topic.
    set (groups := (λ topic, (topic, topic_group rows topic))
                     <$> remove_dups (omap h_topic rows)).
    assert (Hnd : NoDup groups.*1).
    { assert (groups.*1 = remove_dups (omap h_topic rows)) as ->.
      { subst groups. generalize (remove_dups (omap h_topic rows)). intros l.
        induction l as [|t l IH]; [done|]. cbn. by rewrite IH. }
      apply NoDup_remove_dups. }
    destruct (list_to_map groups !! topic) as [t|] eqn:Hlook.
    + apply elem_of_list_to_map in Hlook; [|done].
      subst groups. apply list_elem_of_fmap in Hlook as (topic' & [= <- ->] & Hin).
      apply elem_of_remove_dups, list_elem_of_omap in Hin as (r & Hr & Htopic).
      assert (has_topic topic r = true) as Hhas.
      { unfold has_topic. by apply bool_decide_eq_true. }
      pose proof (count_where_pos _ _ _ Hr Hhas) as Hpos.
      pose proof (count_where_bounds (has_topic topic) rows).
      pose proof (count_where_bounds (λ r, has_topic topic r && h_is_correct r) rows).
      pose proof (count_where_le (λ r, has_topic topic r && h_is_correct r)
                    (has_topic topic) rows
                    ltac:(by intros ? [? _]%andb_true_iff)).
      pose proof (count_where_le (λ r, has_topic topic r && h_is_correct r)
                    h_is_correct rows
                    ltac:(by intros ? [_ ?]%andb_true_iff)).
      unfold topic_group. cbn [ts_total ts_correct ts_pct].
      split; [reflexivity|]. split; [lia|]. split; [lia|]. split; [lia|].
      destruct (Z.ltb_spec 0 (count_where (has_topic topic) rows)); [done|lia].
    + intros r Hr Htopic. apply not_elem_of_list_to_map in Hlook.
      apply Hlook. subst groups. apply list_elem_of_fmap.
      exists (topic, topic_group rows topic). split; [done|].
      apply list_elem_of_fmap. exists topic. split; [done|].
      apply elem_of_remove_dups, list_elem_of_omap. by exists r.
Qed.

Lemma running_accuracy_lookup (rows : list history_row) :
  ∀ i running_correct k r,
    rows !! k = Some r →
    running_accuracy i running_correct rows !! k
    = Some (i + Z.of_nat (S k), h_is_correct r,
            pct_binary64
              (running_correct + count_where h_is_correct (take (S k) rows))
              (i + Z.of_nat (S k))).
Proof.
  induction rows as [|r0 rows IH]; intros i rc k r Hk; [done|].
  destruct k as [|k]; cbn [running_accuracy].
  - cbn in Hk. simplify_eq. cbn [lookup list_lookup take].
    rewrite count_where_cons, take_0.
    change (count_where h_is_correct []) with 0.
    replace (i + Z.of_nat 1) with (i + 1) by lia.
    by rewrite Z.add_0_r.
  - cbn in Hk. cbn [lookup list_lookup]. rewrite (IH _ _ k r Hk).
    rewrite (firstn_cons (S k) r0 rows), count_where_cons.
    replace (i + 1 + Z.of_nat (S k)) with (i + Z.of_nat (S (S k))) by lia.
    by rewrite Z.add_assoc.
Qed.

Lemma running_accuracy_length (rows : list history_row) :
  ∀ i running_correct,
    length (running_accuracy i running_correct rows) = length rows.
Proof.
  induction rows as [|r rows IH]; intros i rc; [done|].
  cbn [running_accuracy length]. by rewrite IH.
Qed.

(** X13: the score curve.  It covers the student's latest [limit] rows, oldest
    first; entry [k] carries the number [k + 1], the correctness of that row
    and the percentage of correct rows among the first [k + 1] of them; when
    the window holds the whole history, its last percentage is the one
    [get_stats] reports. *)
Theorem get_score_over_time_running (d : database) (student_id limit : Z) :
  let rows := student_history d student_id in
  let window := latest_rows d student_id limit in
  let data := get_score_over_time d student_id limit in
  window `suffix_of` rows
  ∧ length data = length window
  ∧ (0 ≤ limit → Z.of_nat (length window) = Z.min limit (Z.of_nat (length rows)))
  ∧ (∀ k r, window !! k = Some r →
       data !! k
       = Some (Z.of_nat (S k), h_is_correct r,
               pct_binary64 (count_where h_is_correct (take (S k) window))
                 (Z.of_nat (S k))))
  ∧ (limit < 0 ∨ Z.of_nat (length rows) ≤ limit →
     window = rows
     ∧ ∀ entry, last data = Some entry →
                entry.2 = st_pct (get_stats d student_id)).
Proof.
  intros rows window data. subst window data.
  unfold get_score_over_time, latest_rows. fold rows.
  set (window := reverse (sql_limit limit (reverse rows))).
  assert (Hwindow : window = if limit <? 0 then rows
                             else drop (length rows - Z.to_nat limit) rows).
  { subst window. unfold sql_limit. case_match; [by rewrite reverse_involutive|].
    by rewrite take_reverse, reverse_involutive. }
  clearbody window. subst window.
  assert (Hall : (limit < 0 ∨ Z.of_nat (length rows) ≤ limit) →
                 (if limit <? 0 then rows
                  else drop (length rows - Z.to_nat limit) rows) = rows).
  { intros Hl. destruct (Z.ltb_spec limit 0); [done|].
    replace (length rows - Z.to_nat limit)%nat with 0%nat by lia. done. }
  split_and!.
  - case_match; [done|apply suffix_drop].
  - apply running_accuracy_length.
  - intros Hl. destruct (Z.ltb_spec limit 0); [lia|]. rewrite length_drop. lia.
  - intros k r Hk. rewrite (running_accuracy_lookup _ 0 0 k r Hk).
    by rewrite !Z.add_0_l.
  - intros Hl. rewrite (Hall Hl). split; [done|].
    intros entry Hlast. unfold get_stats. fold rows. cbn [st_pct].
    destruct rows as [|r0 rows'] eqn:Hrows using rev_ind; [done|].
    clear IHrows'.
    rewrite last_lookup, running_accuracy_length in Hlast.
    rewrite length_app in Hlast. cbn [length] in Hlast.
    replace (Nat.pred (length rows' + 1)) with (length rows') in Hlast by lia.
    rewrite (running_accuracy_lookup _ 0 0 (length rows') r0) in Hlast
      by (by rewrite list_lookup_middle).
    simplify_eq. cbn [snd].
    rewrite firstn_all2 by (rewrite length_app; cbn; lia).
    rewrite length_app. cbn [length].
    destruct (Z.ltb_spec 0 (Z.of_nat (length rows' + 1))); [|lia].
    rewrite !Z.add_0_l. f_equal. lia.
Qed.

(** ** Students and PINs ([db.py]) *)

Section StudentTheorems.

Context {bc : bcrypt}.

(** What [db.py] relies on from the package. *)
Hypothesis checkpw_hashpw : ∀ pin salt, checkpw pin (hashpw pin salt) = Some true.

Hypothesis hashpw_prefix : ∀ pin salt, String.prefix "$2" (hashpw pin salt) = true.

Lemma get_student_update (f : student_row → student_row)
    (students : list student_row) (key student_id : Z) :
  get_student (update_row f key students) student_id
  = (if bool_decide (student_id = key) then f else id)
    <$> get_student students student_id.
Proof.
  unfold get_student. destruct (Z.ltb_spec student_id 1).
  - by case_bool_decide.
  - rewrite update_row_lookup.
    case_bool_decide as H1; case_bool_decide as H2; try done.
    + destruct H2. lia.
    + destruct H1. split; [lia|by subst].
    + by destruct (students !! _).
Qed.

(** X14: a PIN set through [create_student] or [update_student] verifies, and
    verifying against a stored hash never writes. *)
Theorem verify_pin_after_create (students : list student_row)
    (salt salt' name pin : string) (grade : Z) (curriculum_style : string) :
  let created := create_student students salt name pin grade curriculum_style in
  get_student created.2 created.1
    = Some (StudentRow name (hashpw pin salt) grade curriculum_style)
  ∧ verify_pin created.2 salt' created.1 pin = (Some true, created.2)
  ∧ (∀ student_id,
       is_Some (get_student students student_id) →
       get_student created.2 student_id = get_student students student_id)
  ∧ (∀ student_id new_pin row,
       get_student students student_id = Some row →
       let updated := update_student students salt student_id None None
                        (Some new_pin) None in
       get_student updated student_id = Some (set_pin (hashpw new_pin salt) row)
       ∧ verify_pin updated salt' student_id new_pin = (Some true, updated)).
Proof.
  intros created. subst created. cbn [create_student fst snd].
  assert (Hnew : get_student
            (students ++ [StudentRow name (_hash_pin salt pin) grade curriculum_style])
            (Z.of_nat (S (length students)))
          = Some (StudentRow name (hashpw pin salt) grade curriculum_style)).
  { unfold get_student. destruct (Z.ltb_spec (Z.of_nat (S (length students))) 1); [lia|].
    replace (Z.to_nat (Z.of_nat (S (length students)) - 1)) with (length students) by lia.
    by rewrite list_lookup_middle. }
  split_and!.
  - exact Hnew.
  - unfold verify_pin. rewrite Hnew. cbn [sr_pin].
    rewrite hashpw_prefix. unfold _verify_pin_hash. by rewrite checkpw_hashpw.
  - intros student_id [row Hrow]. rewrite Hrow. unfold get_student in *.
    destruct (student_id <? 1); [done|]. by apply lookup_app_l_Some.
  - intros student_id new_pin row Hrow.
    assert (Hupd : get_student
              (update_student students salt student_id None None (Some new_pin) None)
              student_id
            = Some (set_pin (hashpw new_pin salt) row)).
    { unfold update_student.
      rewrite get_student_update, Hrow, bool_decide_eq_true_2 by done. done. }
    split; [exact Hupd|].
    unfold verify_pin. rewrite Hupd. cbn [sr_pin set_pin].
    rewrite hashpw_prefix. unfold _verify_pin_hash. by rewrite checkpw_hashpw.
Qed.

(** X15: a legacy plain-text PIN.  The right PIN is accepted and replaced by
    its hash, so that it verifies again through the hash; a wrong PIN is
    refused and nothing is written; an unknown student is refused. *)
Theorem verify_pin_legacy (students : list student_row) (salt salt' : string)
    (student_id : Z) (row : student_row) :
  get_student students student_id = Some row →
  String.prefix "$2" (sr_pin row) = false →
  let verified := verify_pin students salt student_id (sr_pin row) in
  verified.1 = Some true
  ∧ get_student verified.2 student_id = Some (set_pin (hashpw (sr_pin row) salt) row)
  ∧ (∀ other, other ≠ student_id →
              get_student verified.2 other = get_student students other)
  ∧ verify_pin verified.2 salt' student_id (sr_pin row) = (Some true, verified.2)
  ∧ (∀ wrong, wrong ≠ sr_pin row →
              verify_pin students salt student_id wrong = (Some false, students))
  ∧ (∀ unknown pin, get_student students unknown = None →
                    verify_pin students salt unknown pin = (Some false, students)).
Proof.
  intros Hrow Hplain verified. subst verified.
  assert (verify_pin students salt student_id (sr_pin row)
          = (Some true, _migrate_pin students salt student_id (sr_pin row))) as ->.
  { unfold verify_pin. by rewrite Hrow, Hplain, String.eqb_refl. }
  cbn [fst snd]. unfold _migrate_pin.
  assert (Hmig : get_student
            (update_row (set_pin (_hash_pin salt (sr_pin row))) student_id students)
            student_id
          = Some (set_pin (hashpw (sr_pin row) salt) row)).
  { rewrite get_student_update, Hrow, bool_decide_eq_true_2 by done. done. }
  split_and!.
  - done.
  - exact Hmig.
  - intros other Hne. rewrite get_student_update, bool_decide_eq_false_2 by done.
    by destruct (get_student students other).
  - unfold verify_pin. rewrite Hmig. cbn [sr_pin set_pin].
    rewrite hashpw_prefix. unfold _verify_pin_hash. by rewrite checkpw_hashpw.
  - intros wrong Hwrong. unfold verify_pin. rewrite Hrow, Hplain.
    apply not_eq_sym, String.eqb_neq in Hwrong. by rewrite Hwrong.
  - intros unknown pin Hnone. unfold verify_pin. by rewrite Hnone.
Qed.

End StudentTheorems.

Lemma sample_bcrypt_checks :
  (∀ pin salt, checkpw (bcrypt := sample_bcrypt) pin
                 (hashpw (bcrypt := sample_bcrypt) pin salt) = Some true)
  ∧ (∀ pin salt, String.prefix "$2" (hashpw (bcrypt := sample_bcrypt) pin salt) = true).
Proof.
  split; intros pin salt; cbn; [|done].
  rewrite String.eqb_refl. by destruct pin.
Qed.

Lemma verify_pin_after_create_witness :
  let created := create_student (bc := sample_bcrypt) legacy_students "s1"
                   "Cy" "4321" 3 "singapore" in
  get_student created.2 created.1
    = Some (StudentRow "Cy" "$2b$4321" 3 "singapore")
  ∧ verify_pin (bc := sample_bcrypt) created.2 "s2" created.1 "4321"
    = (Some true, created.2).
Proof.
  destruct (verify_pin_after_create (bc := sample_bcrypt)
              (proj1 sample_bcrypt_checks) (proj2 sample_bcrypt_checks)
              legacy_students "s1" "s2" "Cy" "4321" 3 "singapore")
    as (H1 & H2 & _).
  split; [exact H1|exact H2].
Defined.

Lemma verify_pin_legacy_witness :
  get_student legacy_students 1 = Some (StudentRow "Ada" "1234" 4 "common_core")
  ∧ (verify_pin (bc := sample_bcrypt) legacy_students "s1" 1 "1234").1 = Some true
  ∧ verify_pin (bc := sample_bcrypt) legacy_students "s1" 1 "0000"
    = (Some false, legacy_students).
Proof.
  split; [reflexivity|].
  destruct (verify_pin_legacy (bc := sample_bcrypt)
              (proj1 sample_bcrypt_checks) (proj2 sample_bcrypt_checks)
              legacy_students "s1" "s2" 1 (StudentRow "Ada" "1234" 4 "common_core")
              eq_refl eq_refl)
    as (H1 & _ & _ & _ & H5 & _).
  split; [exact H1|]. by apply (H5 "0000").
Defined.

(** ** The substitution of [_parse_json_lenient] *)

Lemma is_json_escape_backslash : is_json_escape_char backslash = true.
Proof. reflexivity. Qed.

Lemma sanitize_apart (n : nat) :
  ∀ s, (String.length s < n)%nat → backslashes_apart s = true →
       has_invalid_escape (sanitize s) = false.
Proof.
  induction n as [|n IH]; intros s Hlen Hs; [lia|].
  destruct s as [|c s']; [done|]. cbn [String.length] in Hlen.
  cbn [backslashes_apart] in Hs. apply andb_true_iff in Hs as [Hc Hs'].
  cbn [sanitize]. destruct (Ascii.eqb c backslash) eqn:Hb.
  - destruct s' as [|d s'']; cbn [next_is_escape].
    + reflexivity.
    + apply negb_true_iff in Hc.
      cbn [backslashes_apart] in Hs'. apply andb_true_iff in Hs' as [_ Hs''].
      cbn [String.length] in Hlen.
      destruct (is_json_escape_char d) eqn:Hd.
      * cbn [sanitize]. rewrite Hc. cbn [has_invalid_escape].
        rewrite Ascii.eqb_refl, Hd. apply IH; [lia|done].
      * cbn [has_invalid_escape]. rewrite Ascii.eqb_refl, is_json_escape_backslash.
        cbn [sanitize]. rewrite Hc. cbn [has_invalid_escape]. rewrite Hc.
        apply IH; [lia|done].
  - cbn [has_invalid_escape]. rewrite Hb. apply IH; [lia|done].
Qed.

(** X16: what the substitution does.  It only inserts backslashes; it leaves a
    text as it is exactly when every backslash of the text is followed by an
    escape character; and when no two backslashes of the text touch, the
    result has no invalid escape left. *)
Theorem sanitize_repairs (raw : string) :
  without_backslashes (sanitize raw) = without_backslashes raw
  ∧ (String.length raw ≤ String.length (sanitize raw) ≤ 2 * String.length raw)%nat
  ∧ (sanitize raw = raw ↔ lone_backslash raw = false)
  ∧ (backslashes_apart raw = true → has_invalid_escape (sanitize raw) = false).
Proof.
  split; [|split; [|split]].
  - induction raw as [|c s IH]; [done|]. cbn [sanitize].
    destruct (Ascii.eqb c backslash) eqn:Hb.
    + destruct (next_is_escape s); cbn [without_backslashes];
        rewrite ?Ascii.eqb_refl, Hb; exact IH.
    + cbn [without_backslashes]. by rewrite Hb, IH.
  - induction raw as [|c s IH]; [cbn; lia|]. cbn [sanitize].
    destruct (Ascii.eqb c backslash); [destruct (next_is_escape s)|];
      cbn [String.length]; lia.
  - induction raw as [|c s IH]; [done|]. cbn [sanitize lone_backslash].
    destruct (Ascii.eqb c backslash) eqn:Hb; cbn [andb orb].
    + apply Ascii.eqb_eq in Hb as ->.
      destruct (next_is_escape s) eqn:He; cbn [negb orb].
      * rewrite <- IH. split; [by intros [= ?]|by intros ->].
      * split; [|done]. intros Heq. exfalso.
        apply (f_equal String.length) in Heq. cbn [String.length] in Heq.
        assert (String.length s ≤ String.length (sanitize s))%nat; [|lia].
        clear. induction s as [|c s IH]; [done|]. cbn [sanitize].
        destruct (Ascii.eqb c backslash); [destruct (next_is_escape s)|];
          cbn [String.length]; lia.
    + rewrite <- IH. split; [by intros [= ?]|by intros ->].
  - apply (sanitize_apart (S (String.length raw))). lia.
Qed.

(** ** Clearing LaTeX *)

Lemma strip_prefix_length (p s rest : string) :
  strip_prefix p s = Some rest →
  String.length s = (String.length p + String.length rest)%nat.
Proof.
  revert s. induction p as [|c p IH]; intros s H; cbn in H.
  - by simplify_eq.
  - destruct s as [|d s]; [done|]. destruct (Ascii.eqb c d); [|done].
    cbn [String.length]. by rewrite (IH s H).
Qed.

Lemma span_until_length (c : ascii) (s before after : string) :
  span_until c s = Some (before, after) →
  String.length s = S (String.length before + String.length after).
Proof.
  revert before. induction s as [|d s IH]; intros before H; [done|].
  cbn [span_until] in H. destruct (Ascii.eqb c d).
  - by simplify_eq.
  - destruct (span_until c s) as [[b a]|]; [|done]. cbn in H. simplify_eq.
    cbn [String.length]. by rewrite (IH b eq_refl).
Qed.

Lemma strip_prefix_trigger (c0 c : ascii) (p text : string) :
  Ascii.eqb c0 c = false → strip_prefix (String c0 p) (String c text) = None.
Proof. intros H. cbn. by rewrite H. Qed.

Lemma latex_patterns_start :
  Forall (λ cp, triggered_by cp.1 cp.2 ∧ consumes cp.2) latex_patterns.
Proof.
  assert (Hfrac : ∀ c0 lead, triggered_by c0 (frac_pattern (String c0 lead))
                             ∧ consumes (frac_pattern (String c0 lead))).
  { intros c0 lead. split.
    - intros c text Hc. unfold frac_pattern.
      change (String c0 lead ++ "rac{")%string with (String c0 (lead ++ "rac{")).
      by rewrite strip_prefix_trigger.
    - intros c text repl rest. unfold frac_pattern.
      change (String c0 lead ++ "rac{")%string with (String c0 (lead ++ "rac{")).
      destruct (strip_prefix _ (String c text)) as [r1|] eqn:H1; [|done].
      cbn [mbind option_bind].
      destruct (span_until "}" r1) as [[n r2]|] eqn:H2; [|done]. cbn [mbind option_bind].
      destruct (strip_prefix "{" r2) as [r3|] eqn:H3; [|done]. cbn [mbind option_bind].
      destruct (span_until "}" r3) as [[m r4]|] eqn:H4; [|done]. cbn [mbind option_bind].
      intros [= _ <-].
      apply strip_prefix_length in H1, H3. apply span_until_length in H2, H4.
      cbn [String.length] in *. lia. }
  assert (Hlit : ∀ c0 old new, triggered_by c0 (literal_pattern (String c0 old) new)
                               ∧ consumes (literal_pattern (String c0 old) new)).
  { intros c0 old new. split.
    - intros c text Hc. unfold literal_pattern. by rewrite strip_prefix_trigger.
    - intros c text repl rest. unfold literal_pattern.
      destruct (strip_prefix _ (String c text)) as [r1|] eqn:H1; [|done].
      intros [= _ <-]. apply strip_prefix_length in H1.
      cbn [String.length] in *. lia. }
  assert (Hdel : ∀ a b, triggered_by backslash (delimiter_pattern a b)
                        ∧ consumes (delimiter_pattern a b)).
  { intros a b. split.
    - intros c text Hc. unfold delimiter_pattern. destruct text; [done|].
      rewrite Ascii.eqb_sym in Hc. by rewrite Hc.
    - intros c text repl rest. unfold delimiter_pattern. destruct text; [done|].
      case_match; [|done]. intros [= _ <-]. cbn. lia. }
  unfold latex_patterns. repeat constructor; cbn [fst snd];
    try apply Hfrac; try apply Hlit; try apply Hdel.
  - intros c text Hc. unfold text_pattern. by rewrite strip_prefix_trigger.
  - intros c text repl rest. unfold text_pattern.
    destruct (strip_prefix _ (String c text)) as [r1|] eqn:H1; [|done].
    cbn [mbind option_bind].
    destruct (span_until "}" r1) as [[n r2]|] eqn:H2; [|done]. cbn [mbind option_bind].
    intros [= _ <-]. apply strip_prefix_length in H1. apply span_until_length in H2.
    cbn [String.length] in *. lia.
Qed.

(** With a pattern that consumes, more fuel than the length of the text
    changes nothing. *)
Lemma re_sub_fuel (pattern : string → option (string * string)) :
  consumes pattern →
  ∀ fuel fuel' text,
    (String.length text ≤ fuel)%nat → (String.length text ≤ fuel')%nat →
    re_sub fuel pattern text = re_sub fuel' pattern text.
Proof.
  intros Hp fuel. induction fuel as [|fuel IH]; intros fuel' text H1 H2.
  - destruct text; [by destruct fuel'|cbn in H1; lia].
  - destruct text as [|c text]; [by destruct fuel'|].
    destruct fuel' as [|fuel']; [cbn in H2; lia|].
    cbn [String.length] in H1, H2. cbn [re_sub].
    destruct (pattern (String c text)) as [[repl rest]|] eqn:Hm.
    + pose proof (Hp c text repl rest Hm). f_equal. apply IH; lia.
    + f_equal. apply IH; lia.
Qed.

Lemma re_sub_untriggered (c0 : ascii) (pattern : string → option (string * string)) :
  triggered_by c0 pattern →
  ∀ fuel text, has_char c0 text = false → re_sub fuel pattern text = text.
Proof.
  intros Hp fuel. induction fuel as [|fuel IH]; intros text Ht; [by destruct text|].
  destruct text as [|c text]; [done|]. cbn [has_char] in Ht.
  apply orb_false_iff in Ht as [Hc Ht]. cbn [re_sub].
  by rewrite (Hp c text Hc), (IH text Ht).
Qed.

Lemma sub_all_untriggered (c0 : ascii) (pattern : string → option (string * string))
    (text : string) :
  triggered_by c0 pattern → has_char c0 text = false → sub_all pattern text = text.
Proof. intros. unfold sub_all. by eapply re_sub_untriggered. Qed.

Lemma plain_has_char (s : string) :
  plain s = negb (has_char backslash s) && negb (has_char form_feed s).
Proof.
  induction s as [|c s IH]; [done|]. cbn [plain has_char]. rewrite IH.
  rewrite (Ascii.eqb_sym c backslash), (Ascii.eqb_sym c form_feed).
  destruct (Ascii.eqb backslash c), (Ascii.eqb form_feed c),
    (has_char backslash s), (has_char form_feed s); done.
Qed.

Lemma has_char_app (c : ascii) (s t : string) :
  has_char c (s ++ t)%string = has_char c s || has_char c t.
Proof.
  induction s as [|d s IH]; [done|].
  change (has_char c (String d (s ++ t)%string)
          = has_char c (String d s) || has_char c t).
  cbn [has_char]. rewrite IH. by rewrite orb_assoc.
Qed.

Lemma plain_app (s t : string) : plain (s ++ t)%string = plain s && plain t.
Proof.
  induction s as [|d s IH]; [done|].
  change (plain (String d (s ++ t)%string) = plain (String d s) && plain t).
  cbn [plain]. rewrite IH. by rewrite !andb_assoc.
Qed.

Lemma latex_pattern_triggered (i : nat) (c0 : ascii)
    (pattern : string → option (string * string)) :
  latex_patterns !! i = Some (c0, pattern) → triggered_by c0 pattern.
Proof.
  intros Hi. pose proof latex_patterns_start as Hall.
  rewrite Forall_lookup in Hall. by destruct (Hall i _ Hi).
Qed.

Lemma clean_latex_passes_plain (text : string) :
  plain text = true → clean_latex_passes text = text.
Proof.
  intros Hp. rewrite plain_has_char in Hp.
  apply andb_true_iff in Hp as [Hb%negb_true_iff Hf%negb_true_iff].
  unfold clean_latex_passes. cbn zeta.
  rewrite (sub_all_untriggered backslash (frac_pattern _) text
             (latex_pattern_triggered 0 _ _ eq_refl) Hb).
  rewrite (sub_all_untriggered form_feed (frac_pattern _) text
             (latex_pattern_triggered 1 _ _ eq_refl) Hf).
  rewrite (sub_all_untriggered backslash _ text
             (latex_pattern_triggered 2 _ _ eq_refl) Hb).
  rewrite (sub_all_untriggered backslash _ text
             (latex_pattern_triggered 3 _ _ eq_refl) Hb).
  rewrite (sub_all_untriggered backslash _ text
             (latex_pattern_triggered 4 _ _ eq_refl) Hb).
  rewrite (sub_all_untriggered backslash _ text
             (latex_pattern_triggered 5 _ _ eq_refl) Hb).
  rewrite (sub_all_untriggered backslash _ text
             (latex_pattern_triggered 6 _ _ eq_refl) Hb).
  rewrite (sub_all_untriggered backslash _ text
             (latex_pattern_triggered 7 _ _ eq_refl) Hb).
  by rewrite (sub_all_untriggered form_feed _ text
                (latex_pattern_triggered 8 _ _ eq_refl) Hf).
Qed.

Lemma strip_prefix_app (p s : string) : strip_prefix p (p ++ s)%string = Some s.
Proof.
  induction p as [|c p IH]; [done|].
  change (strip_prefix (String c p) (String c (p ++ s)%string) = Some s).
  cbn [strip_prefix]. by rewrite Ascii.eqb_refl.
Qed.

Lemma span_until_app (c : ascii) (before after : string) :
  has_char c before = false →
  span_until c (before ++ String c after)%string = Some (before, after).
Proof.
  induction before as [|d before IH]; intros H.
  - change (span_until c (String c after) = Some ("", after)).
    cbn [span_until]. by rewrite Ascii.eqb_refl.
  - cbn [has_char] in H. apply orb_false_iff in H as [Hd H].
    change (span_until c (String d (before ++ String c after)%string)
            = Some (String d before, after)).
    cbn [span_until]. rewrite Hd, (IH H). done.
Qed.

Lemma string_length_app (s t : string) :
  String.length (s ++ t)%string = (String.length s + String.length t)%nat.
Proof.
  induction s as [|c s IH]; [done|].
  change (S (String.length (s ++ t)%string) = S (String.length s + String.length t)).
  by rewrite IH.
Qed.

Lemma re_sub_prefix (c0 : ascii) (pattern : string → option (string * string))
    (rest : string) :
  triggered_by c0 pattern →
  ∀ pre fuel, has_char c0 pre = false →
    re_sub (String.length pre + fuel) pattern (pre ++ rest)%string
    = (pre ++ re_sub fuel pattern rest)%string.
Proof.
  intros Hp pre. induction pre as [|c pre IH]; intros fuel Hpre; [done|].
  cbn [has_char] in Hpre. apply orb_false_iff in Hpre as [Hc Hpre].
  change (re_sub (S (String.length pre + fuel)) pattern
            (String c (pre ++ rest)%string)
          = String c (pre ++ re_sub fuel pattern rest)%string).
  cbn [re_sub]. by rewrite (Hp c _ Hc), (IH fuel Hpre).
Qed.

(** One match in a text that otherwise never triggers the pattern. *)
Lemma sub_all_one_match (c0 : ascii) (pattern : string → option (string * string))
    (pre : string) (x : ascii) (matched replacement post : string) :
  triggered_by c0 pattern →
  has_char c0 pre = false → has_char c0 post = false →
  pattern (String x (matched ++ post)%string) = Some (replacement, post) →
  sub_all pattern (pre ++ String x (matched ++ post))%string
  = (pre ++ replacement ++ post)%string.
Proof.
  intros Hp Hpre Hpost Hm. unfold sub_all.
  rewrite string_length_app. rewrite (re_sub_prefix c0 pattern _ Hp pre _ Hpre).
  cbn [String.length re_sub]. rewrite Hm.
  by rewrite (re_sub_untriggered c0 pattern Hp _ post Hpost).
Qed.

Lemma string_app_assoc (s t u : string) :
  ((s ++ t) ++ u)%string = (s ++ t ++ u)%string.
Proof.
  induction s as [|c s IH]; [done|].
  change (String c ((s ++ t) ++ u)%string = String c (s ++ t ++ u)%string).
  by rewrite IH.
Qed.

Lemma frac_pattern_match (lead numerator denominator post : string) :
  has_char "}" numerator = false → has_char "}" denominator = false →
  frac_pattern lead
    ((lead ++ "rac{" ++ numerator ++ "}{" ++ denominator ++ "}") ++ post)%string
  = Some ((numerator ++ "/" ++ denominator)%string, post).
Proof.
  intros Hn Hd. unfold frac_pattern.
  rewrite !string_app_assoc. rewrite <- (string_app_assoc lead "rac{").
  rewrite strip_prefix_app. cbn [mbind option_bind].
  change ("}{" ++ denominator ++ "}" ++ post)%string
    with (String "}" (String "{" (denominator ++ String "}" post)%string)).
  rewrite (span_until_app "}" numerator _ Hn). cbn [mbind option_bind strip_prefix].
  rewrite Ascii.eqb_refl. cbn [mbind option_bind].
  by rewrite (span_until_app "}" denominator _ Hd).
Qed.

Section CleanLatexTheorems.

Context {py : python}.

(** X17: a text without backslash and form feed is only stripped. *)
Theorem clean_latex_plain_text (text : string) :
  plain text = true →
  clean_latex text = (if String.eqb text "" then "" else py_strip text)
  ∧ clean_latex_passes text = text.
Proof.
  intros Hp. unfold clean_latex. rewrite (clean_latex_passes_plain text Hp).
  split; [|done]. destruct (String.eqb_spec text ""); by subst.
Qed.

(** X18: a fraction command in a text that is plain otherwise becomes
    numerator, slash, denominator, both when the command still has its
    backslash and when a JSON reader has turned the backslash and the [f]
    into a form feed. *)
Theorem clean_latex_fraction (pre numerator denominator post : string) :
  plain pre = true → plain numerator = true → plain denominator = true →
  plain post = true →
  has_char "}" numerator = false → has_char "}" denominator = false →
  ∀ lead, lead = String backslash "f" ∨ lead = String form_feed "" →
    clean_latex
      (pre ++ (lead ++ "rac{" ++ numerator ++ "}{" ++ denominator ++ "}") ++ post)
    = py_strip (pre ++ (numerator ++ "/" ++ denominator) ++ post)%string.
Proof.
  intros Hpre Hn Hd Hpost Hbn Hbd lead Hlead.
  set (result := (pre ++ (numerator ++ "/" ++ denominator) ++ post)%string).
  assert (Hresult : plain result = true).
  { subst result. rewrite !plain_app, Hpre, Hn, Hd, Hpost. done. }
  assert (Hpasses : clean_latex_passes
            (pre ++ (lead ++ "rac{" ++ numerator ++ "}{" ++ denominator ++ "}") ++ post)
          = result).
  { rewrite <- (clean_latex_passes_plain result Hresult).
    rewrite plain_has_char in Hpre, Hpost, Hn, Hd.
    apply andb_true_iff in Hpre as [Hpre1%negb_true_iff Hpre2%negb_true_iff].
    apply andb_true_iff in Hpost as [Hpost1%negb_true_iff Hpost2%negb_true_iff].
    apply andb_true_iff in Hn as [Hn1%negb_true_iff Hn2%negb_true_iff].
    apply andb_true_iff in Hd as [Hd1%negb_true_iff Hd2%negb_true_iff].
    rewrite plain_has_char in Hresult.
    apply andb_true_iff in Hresult as [Hr1%negb_true_iff Hr2%negb_true_iff].
    unfold clean_latex_passes. cbn zeta.
    destruct Hlead as [-> | ->].
    - assert (sub_all (frac_pattern (String backslash "f"))
                (pre ++ (String backslash "f" ++ "rac{" ++ numerator ++ "}{"
                         ++ denominator ++ "}") ++ post)
              = result) as ->.
      { apply (sub_all_one_match backslash _ pre backslash
                 ("f" ++ "rac{" ++ numerator ++ "}{" ++ denominator ++ "}")
                 (numerator ++ "/" ++ denominator) post
                 (latex_pattern_triggered 0 _ _ eq_refl) Hpre1 Hpost1).
        by apply (frac_pattern_match (String backslash "f")). }
      by rewrite (sub_all_untriggered backslash (frac_pattern _) result
                    (latex_pattern_triggered 0 _ _ eq_refl) Hr1).
    - rewrite (sub_all_untriggered backslash (frac_pattern _) _
                 (latex_pattern_triggered 0 _ _ eq_refl)).
      2: { rewrite !has_char_app, Hpre1, Hpost1, Hn1, Hd1. done. }
      assert (sub_all (frac_pattern (String form_feed ""))
                (pre ++ (String form_feed "" ++ "rac{" ++ numerator ++ "}{"
                         ++ denominator ++ "}") ++ post)
              = result) as ->.
      { apply (sub_all_one_match form_feed _ pre form_feed
                 ("" ++ "rac{" ++ numerator ++ "}{" ++ denominator ++ "}")
                 (numerator ++ "/" ++ denominator) post
                 (latex_pattern_triggered 1 _ _ eq_refl) Hpre2 Hpost2).
        by apply (frac_pattern_match (String form_feed "")). }
      by rewrite (sub_all_untriggered backslash (frac_pattern _) result
                    (latex_pattern_triggered 0 _ _ eq_refl) Hr1),
                 (sub_all_untriggered form_feed (frac_pattern _) result
                    (latex_pattern_triggered 1 _ _ eq_refl) Hr2). }
  unfold clean_latex. rewrite Hpasses.
  assert ((pre ++ (lead ++ "rac{" ++ numerator ++ "}{" ++ denominator ++ "}") ++ post)%string
          ≠ "") as Hne%String.eqb_neq.
  { intros Heq. apply (f_equal String.length) in Heq.
    rewrite !string_length_app in Heq.
    destruct Hlead as [-> | ->]; cbn in Heq; lia. }
  by rewrite Hne.
Qed.

(** X19: nothing of a form feed is left after the passes, whatever the text;
    the scans consume their matches, so the fuel they run on never runs
    out. *)
Theorem clean_latex_no_form_feed (text : string) :
  has_char form_feed (clean_latex_passes text) = false
  ∧ clean_latex text
    = (if String.eqb text "" then "" else py_strip (clean_latex_passes text))
  ∧ Forall (λ cp, consumes cp.2) latex_patterns.
Proof.
  split_and!.
  - unfold clean_latex_passes. cbn zeta. unfold sub_all at 1.
    generalize (sub_all text_pattern
      (sub_all (literal_pattern (String backslash "cdot") "*")
         (sub_all (literal_pattern (String backslash "div") "/")
            (sub_all (literal_pattern (String backslash "times") "x")
               (sub_all (delimiter_pattern ")" "]")
                  (sub_all (delimiter_pattern "(" "[")
                     (sub_all (frac_pattern (String form_feed ""))
                        (sub_all (frac_pattern (String backslash "f")) text)))))))).
    intros s.
    assert (∀ fuel t, (String.length t ≤ fuel)%nat →
              has_char form_feed
                (re_sub fuel (literal_pattern (String form_feed "") "") t) = false)
      as Hgo; [|by apply Hgo].
    intros fuel. induction fuel as [|fuel IH]; intros t Hlen.
    + destruct t; [done|cbn in Hlen; lia].
    + destruct t as [|c t]; [done|]. cbn [String.length] in Hlen.
      cbn [re_sub].
      assert (literal_pattern (String form_feed "") "" (String c t)
              = if Ascii.eqb form_feed c then Some ("", t) else None) as ->.
      { unfold literal_pattern. cbn [strip_prefix].
        by destruct (Ascii.eqb form_feed c). }
      destruct (Ascii.eqb form_feed c) eqn:Hc.
      * apply IH. lia.
      * cbn [has_char]. rewrite Hc. apply IH. lia.
  - unfold clean_latex. destruct (String.eqb_spec text ""); by subst.
  - eapply Forall_impl; [apply latex_patterns_start|]. by intros ? [_ ?].
Qed.

End CleanLatexTheorems.

(** X20: an unknown style is read as Common Core and a grade outside 1 to 6 as
    grade 4 of the style in force; the scope and the pedagogy are never
    empty, and for a known style and grade they are the entries of that
    style. *)
Theorem get_curriculum_info_fallback (grade : Z) (style : string) :
  let known_style := if bool_decide (style ∈ VALID_STYLES) then style else "common_core" in
  let known_grade := if bool_decide (1 ≤ grade ≤ 6) then grade else 4 in
  get_curriculum_info grade style = get_curriculum_info known_grade known_style
  ∧ (get_curriculum_info grade style).1 ≠ ""
  ∧ (get_curriculum_info grade style).2 ≠ ""
  ∧ ∃ s, (known_style, s) ∈ CURRICULUM_STYLES
         ∧ (known_grade, (get_curriculum_info grade style).1) ∈ cs_grades s
         ∧ (get_curriculum_info grade style).2 = cs_pedagogy s.
Proof.
  intros known_style known_grade.
  assert (Hstyle : ∃ s, (known_style, s) ∈ CURRICULUM_STYLES
                        ∧ default common_core_style (assoc_get style CURRICULUM_STYLES) = s
                        ∧ assoc_get known_style CURRICULUM_STYLES = Some s).
  { subst known_style. unfold VALID_STYLES, CURRICULUM_STYLES.
    cbn [fmap list_fmap fst]. case_bool_decide as Hin.
    - rewrite !elem_of_cons in Hin.
      destruct Hin as [->|[->|[->|Hin]]]; [| | |by apply not_elem_of_nil in Hin].
      + exists common_core_style. split; [|done]. apply list_elem_of_here.
      + exists rsm_style. split; [|done].
        apply list_elem_of_further, list_elem_of_here.
      + exists singapore_style. split; [|done].
        do 2 apply list_elem_of_further. apply list_elem_of_here.
    - exists common_core_style. split; [apply list_elem_of_here|].
      split; [|reflexivity].
      rewrite !not_elem_of_cons in Hin. destruct Hin as (? & ? & ? & _).
      unfold assoc_get. cbn [List.find fst].
      rewrite !bool_decide_eq_false_2 by done. done. }
  destruct Hstyle as (s & Hs & Hdef & Hknown).
  assert (Hgrades : s = common_core_style ∨ s = rsm_style ∨ s = singapore_style).
  { unfold CURRICULUM_STYLES in Hs. rewrite !elem_of_cons in Hs.
    destruct Hs as [Hs|[Hs|[Hs|Hs]]];
      [injection Hs as _ ->; auto..|by apply not_elem_of_nil in Hs]. }
  assert (Hgrade : ∃ text, (known_grade, text) ∈ cs_grades s ∧ text ≠ ""
                    ∧ default (default "" (assoc_get 4 (cs_grades s)))
                        (assoc_get grade (cs_grades s)) = text
                    ∧ default (default "" (assoc_get 4 (cs_grades s)))
                        (assoc_get known_grade (cs_grades s)) = text).
  { assert (Hfour : ∃ text, assoc_get known_grade (cs_grades s) = Some text
                            ∧ text ≠ ""
                            ∧ default (default "" (assoc_get 4 (cs_grades s)))
                                (assoc_get grade (cs_grades s)) = text).
    { subst known_grade. case_bool_decide as Hin.
      - assert (grade = 1 ∨ grade = 2 ∨ grade = 3 ∨ grade = 4 ∨ grade = 5 ∨ grade = 6)
          as Hcases by lia.
        destruct Hgrades as [-> | [-> | ->]];
          repeat (destruct Hcases as [->|Hcases];
                  [eexists; split; [reflexivity|];
                   split; [discriminate|reflexivity]|]);
          subst grade;
          (eexists; split; [reflexivity|]; split; [discriminate|reflexivity]).
      - assert (assoc_get grade (cs_grades s) = None) as ->.
        { unfold assoc_get.
          destruct Hgrades as [-> | [-> | ->]];
            cbn [List.find cs_grades fst common_core_style rsm_style singapore_style];
            rewrite !bool_decide_eq_false_2 by lia; done. }
        destruct Hgrades as [-> | [-> | ->]];
          (eexists; split; [reflexivity|]; split; [discriminate|reflexivity]). }
    destruct Hfour as (text & Hget & Hne & Hg). exists text.
    split_and!; [|done|done|by rewrite Hget].
    unfold assoc_get in Hget. apply fmap_Some in Hget as ([k t] & Hfind & ->).
    apply List.find_some in Hfind as [Hin Hk].
    apply bool_decide_eq_true in Hk. cbn in Hk. subst k.
    by apply list_elem_of_In. }
  destruct Hgrade as (text & Hin & Hne & Hg & Hkg).
  unfold get_curriculum_info. rewrite Hdef, Hknown.
  change (default common_core_style (Some s)) with s. cbn zeta.
  rewrite Hg, Hkg. cbn [fst snd]. split_and!; [done|done| |].
  - destruct Hgrades as [-> | [-> | ->]]; discriminate.
  - exists s. done.
Qed.

(** ** The feedback event *)

Lemma stats_after_row (d : database) (row : history_row) :
  get_gamification_stats (save_result d row) (h_student_id row)
  = stats_of (gam_step (gam_fold (student_history d (h_student_id row))) row).
Proof.
  unfold get_gamification_stats.
  by rewrite student_history_save, decide_True, gam_fold_snoc.
Qed.

Lemma check_achievements_bank (d : database) (student_id : Z) :
  problem_bank (check_achievements d student_id).2 = problem_bank d.
Proof.
  unfold check_achievements.
  by destruct (unlock_fold_origin student_id (achievement_checks d student_id) [] d)
    as (Hb & _).
Qed.

Section FeedbackEvent.

Context {py : python}.

Lemma feedback_with_stats_event (session_id : string) (st : student)
    (gam_before : gam_stats)
    (make : Z → gam_stats → bool → list string → feedback_event) (w : world) :
  let w' := feedback_with_stats session_id st gam_before make w in
  let after := get_gamification_stats (db w) (s_id st) in
  history (db w') = history (db w)
  ∧ problem_bank (db w') = problem_bank (db w)
  ∧ current_problems w' = current_problems w
  ∧ scaffold_states w' = scaffold_states w
  ∧ ∃ new,
      trace w' = trace w ++ [Sent session_id
                               (EvFeedback (make (xp after - xp gam_before) after
                                              (level gam_before <? level after) new))].
Proof.
  unfold feedback_with_stats.
  pose proof (check_achievements_history (db w) (s_id st)) as Hh.
  pose proof (check_achievements_bank (db w) (s_id st)) as Hb.
  destruct (check_achievements (db w) (s_id st)) as [new d]. cbn [snd] in Hh, Hb.
  cbn. split_and!; [done..|]. by eexists.
Qed.

End FeedbackEvent.

Lemma stats_after_feedback (d : database) (row : history_row) (fb : string)
    (student_id : Z) :
  h_student_id row = student_id →
  get_gamification_stats
    (update_feedback (save_result d row) (Z.of_nat (S (length (history d)))) fb)
    student_id
  = stats_of (gam_step (gam_fold (student_history d student_id)) row).
Proof.
  intros <-. rewrite <- stats_after_row.
  apply same_core_queries. cbn [update_feedback history].
  apply update_row_core. intros r. by repeat split.
Qed.

(** Names the world [feedback_with_stats] returns, with its components and
    the event it sent. *)
Ltac name_feedback_event :=
    match goal with
    | |- context [feedback_with_stats ?a ?b ?c ?d ?e] =>
        let Hh := fresh "Hh" in
        let Hb := fresh "Hb" in
        let Hc := fresh "Hc" in
        let Hs := fresh "Hs" in
        let Ht := fresh "Ht" in
        destruct (feedback_with_stats_event a b c d e)
          as (Hh & Hb & Hc & Hs & (? & Ht));
        cbn zeta in Hh, Hb, Hc, Hs, Ht;
        revert Hh Hb Hc Hs Ht;
        generalize (feedback_with_stats a b c d e);
        world_cbn; rewrite ?update_row_last;
        intros ? Hh Hb Hc Hs Ht
    end.

Section AnswerOutcomes.

Context {py : python}.

(** X21: a correct answer with a reply of the helper.  The worker inserts
    the row, runs the helper, stores its feedback in that row and sends one
    feedback event; the analyst is not run and no practice round is offered.
    The event reports as XP earned the base award (10, or 8 above depth 0)
    plus the bonus of the streak reached, the snapshot after the row, and
    whether the level rose; for a practice problem it says
    [scaffold_complete] and the scaffold context is dropped, for a regular
    problem the context is left as it was. *)
Theorem check_answer_bg_correct (session_id : string) (st : student)
    (answer feedback : string) (analyst_says : reply) (w : world)
    (p : problem) (n : pynum) :
  current_problems w !! session_id = Some p →
  parse_answer answer = Some n →
  grade n (p_correct_answer p) = Graded true →
  let before := get_gamification_stats (db w) (s_id st) in
  let w' := check_answer_bg session_id st answer (Says feedback) analyst_says w in
  ∃ row f,
    trace w' = trace w ++ [ HistoryInsert row;
                            Sent session_id (EvPipeline [("helper", "working")]);
                            AgentRun Helper;
                            Sent session_id (EvPipeline [("helper", "done")]);
                            Sent session_id (EvFeedback f) ]
    ∧ history (db w') = history (db w) ++ [set_feedback feedback row]
    ∧ h_is_correct row = true ∧ h_scaffold_level row = p_scaffold_level p
    ∧ f_is_correct f = true ∧ f_feedback f = feedback
    ∧ f_analyzing f = None ∧ f_scaffold_maxed f = None
    ∧ f_scaffold_complete f = (if p_is_scaffold p then Some true else None)
    ∧ f_xp_earned f
      = (if 0 <? p_scaffold_level p then 8 else 10)
        + streak_bonus (streak before + 1)
    ∧ xp (f_stats f) = xp before + f_xp_earned f
    ∧ streak (f_stats f) = streak before + 1
    ∧ f_leveled_up f = (level before <? level (f_stats f))
    ∧ current_problems w' = current_problems w
    ∧ scaffold_states w'
      = (if p_is_scaffold p then delete session_id (scaffold_states w)
         else scaffold_states w).
Proof.
  intros Hp Hparse Hgrade before w'. subst w'. unfold check_answer_bg.
  rewrite Hp, Hparse, Hgrade.
  destruct (p_is_scaffold p) eqn:Hsc.
  all: cbn [db record with_db];
       erewrite get_last_history_id_save by reflexivity;
       name_feedback_event; world_cbn.
  all: erewrite !stats_after_feedback in Ht by reflexivity.
  all: eexists _, _; rewrite Ht, Hh, Hc, Hs, ?update_row_last;
       rewrite <- !app_assoc; cbn [app].
  all: split; [reflexivity|]; split; [reflexivity|].
  all: subst before; unfold get_gamification_stats;
       generalize (gam_fold (student_history (db w) (s_id st))) as g; intros g.
  all: cbn [h_is_correct h_scaffold_level f_is_correct f_feedback f_analyzing
            f_scaffold_maxed f_scaffold_complete f_xp_earned f_stats
            f_leveled_up gam_step stats_of xp streak level g_xp g_streak].
  all: split_and!; try reflexivity; lia.
Qed.



End AnswerOutcomes.

(** ** Problem generation *)

Section Generation.

Context {py : python}.

(** X24: a bank hit.  The problem comes from the bank row, the creator is not
    run, the row's serve count goes up by one and nothing is added. *)
Theorem generate_problem_bg_bank_hit (session_id : string) (st : student)
    (requested_topic : option string) (analysis : string)
    (creator_says : reply) (rnd : Z → Z) (w : world)
    (topic : string) (bank_id : Z) (row : bank_row) :
  or_else requested_topic (_extract_topic_from_analysis analysis) = Some topic →
  topic ≠ "" →
  find_reusable_problem (db w) rnd (s_grade st) (s_curriculum_style st) topic
    (s_id st) false None 20 = Some (bank_id, row) →
  let w' := generate_problem_bg session_id st requested_topic (Says analysis)
              creator_says rnd w in
  let p := Problem (b_question row) (Some (JStr (b_correct_answer row)))
             (b_hint row) (Some (b_topic row)) requested_topic false 0 in
  trace w' = trace w ++ [ Sent session_id (EvPipeline [("manager", "working");
                                                       ("creator", "waiting")]);
                          AgentRun Manager;
                          Sent session_id (EvPipeline [("manager", "done");
                                                       ("creator", "done")]);
                          Sent session_id (EvProblem p) ]
  ∧ current_problems w' = <[session_id := p]> (current_problems w)
  ∧ db w' = increment_times_served (db w) bank_id
  ∧ scaffold_states w' = scaffold_states w
  ∧ b_topic row = topic ∧ b_grade row = s_grade st
  ∧ b_curriculum_style row = s_curriculum_style st ∧ b_is_scaffold row = false
  ∧ b_question row ∉ seen_questions (db w) (s_id st) 20.
Proof.
  intros Htopic Hne Hfound w' p. subst w'. unfold generate_problem_bg.
  cbn [db pipeline send_event record]. rewrite Htopic.
  assert (truthy (Some topic) = true) as ->.
  { cbn. by apply negb_true_iff, String.eqb_neq. }
  rewrite Hfound. unfold publish_problem. world_cbn.
  rewrite <- !app_assoc. cbn [app].
  split_and!; try reflexivity.
  all: pose proof (find_reusable_problem_spec (db w) rnd (s_grade st)
                     (s_curriculum_style st) topic (s_id st) false None 20)
         as (_ & Hsome & _);
       destruct (Hsome _ Hfound) as (Hunseen & [_ Hm] & _).
  all: unfold bank_matches in Hm; cbn [andb truthy snd] in Hm;
       repeat (apply andb_true_iff in Hm as [Hm ?]);
       repeat match goal with
              | H : bool_decide _ = true |- _ => apply bool_decide_eq_true in H
              end; done.
Qed.


(** X26: the practice generator.  Without a scaffold context it reports the
    error and changes nothing.  With one, the context is kept, and either
    the creator failed and nothing else changed, or one problem was installed
    and sent last: a practice problem at the depth the context names, with no
    requested topic. *)
Theorem generate_scaffold_problem_bg_outcome (session_id : string)
    (st : student) (creator_says : reply) (rnd : Z → Z) (w : world) :
  let w' := generate_scaffold_problem_bg session_id st creator_says rnd w in
  scaffold_states w' = scaffold_states w
  ∧ history (db w') = history (db w)
  ∧ (length (problem_bank (db w)) ≤ length (problem_bank (db w')))%nat
  ∧ match scaffold_states w !! session_id with
    | None =>
        trace w' = trace w ++ [Sent session_id (EvErrorMsg "No scaffold context")]
        ∧ db w' = db w ∧ current_problems w' = current_problems w
    | Some ctx =>
        (∃ message,
           last (trace w') = Some (Sent session_id (EvErrorMsg message))
           ∧ db w' = db w ∧ current_problems w' = current_problems w)
        ∨ (∃ p,
             last (trace w') = Some (Sent session_id (EvProblem p))
             ∧ current_problems w' = <[session_id := p]> (current_problems w)
             ∧ p_is_scaffold p = true
             ∧ p_scaffold_level p = sc_scaffold_level ctx
             ∧ p_requested_topic p = None)
    end.
Proof.
  intros w'. subst w'. unfold generate_scaffold_problem_bg.
  destruct (scaffold_states w !! session_id) as [ctx|]; [|by world_cbn].
  repeat case_match; unfold publish_problem; world_cbn;
    cbn [save_to_problem_bank increment_times_served problem_bank history
         snd fst];
    rewrite ?update_row_length, ?length_app;
    (split; [reflexivity|]); (split; [reflexivity|]); (split; [lia|]).
  all: rewrite ?last_snoc.
  all: first [ left; eexists; split; [reflexivity|]; split; reflexivity
             | right; eexists; split; [reflexivity|];
               split_and!; reflexivity ].
Qed.

End Generation.

(** ** Skipping again and again *)


Create HintDb frame.

Lemma session_frame_refl (session_id : string) (w : world) :
  session_frame session_id w w.
Proof. split; [done|]. exists []. by rewrite app_nil_r. Qed.

Lemma session_frame_record (session_id : string) (e : effect) (w0 w : world) :
  session_frame session_id w0 w → sent_to session_id e →
  session_frame session_id w0 (record e w).
Proof.
  intros [Hother (added & Ht & Hall)] He. split; [done|].
  exists (added ++ [e]). cbn. rewrite Ht, <- app_assoc. split; [done|].
  apply Forall_app. split; [done|]. by constructor.
Qed.

Lemma session_frame_send_event (session_id : string) (ev : event) (w0 w : world) :
  session_frame session_id w0 w →
  session_frame session_id w0 (send_event session_id ev w).
Proof. intros. by apply session_frame_record. Qed.

Lemma session_frame_pipeline (session_id : string) agents (w0 w : world) :
  session_frame session_id w0 w →
  session_frame session_id w0 (pipeline session_id agents w).
Proof. apply session_frame_send_event. Qed.

Lemma session_frame_with_db (session_id : string) (d : database) (w0 w : world) :
  session_frame session_id w0 w → session_frame session_id w0 (with_db d w).
Proof. by intros [Hother Ht]. Qed.

Lemma session_frame_set_problem (session_id : string) (p : problem) (w0 w : world) :
  session_frame session_id w0 w →
  session_frame session_id w0 (set_problem session_id p w).
Proof.
  intros [Hother Ht]. split; [|done]. intros other Hne. cbn.
  rewrite lookup_insert_ne by done. by apply Hother.
Qed.

Lemma session_frame_set_scaffold (session_id : string) (c : scaffold_ctx)
    (w0 w : world) :
  session_frame session_id w0 w →
  session_frame session_id w0 (set_scaffold session_id c w).
Proof.
  intros [Hother Ht]. split; [|done]. intros other Hne. cbn.
  rewrite lookup_insert_ne by done. by apply Hother.
Qed.

Lemma session_frame_pop_scaffold (session_id : string) (w0 w : world) :
  session_frame session_id w0 w →
  session_frame session_id w0 (pop_scaffold session_id w).
Proof.
  intros [Hother Ht]. split; [|done]. intros other Hne. cbn.
  rewrite lookup_delete_ne by done. by apply Hother.
Qed.

Lemma session_frame_publish_problem (session_id : string) (p : problem)
    (w0 w : world) :
  session_frame session_id w0 w →
  session_frame session_id w0 (publish_problem session_id p w).
Proof.
  intros. by apply session_frame_send_event, session_frame_set_problem.
Qed.

#[local] Hint Resolve session_frame_refl session_frame_record
  session_frame_send_event session_frame_pipeline session_frame_with_db
  session_frame_set_problem session_frame_set_scaffold
  session_frame_pop_scaffold session_frame_publish_problem : frame.
#[local] Hint Extern 1 (sent_to _ _) => exact I : frame.

Section Frames.

Context {py : python}.

Lemma session_frame_feedback_with_stats (session_id : string) (st : student)
    (gam_before : gam_stats)
    (make : Z → gam_stats → bool → list string → feedback_event) (w0 w : world) :
  session_frame session_id w0 w →
  session_frame session_id w0 (feedback_with_stats session_id st gam_before make w).
Proof.
  intros. unfold feedback_with_stats.
  destruct (check_achievements (db w) (s_id st)). auto with frame.
Qed.

Lemma session_frame_store_feedback (session_id : string) (history_id : option Z)
    (feedback : string) (w0 w : world) :
  session_frame session_id w0 w →
  session_frame session_id w0 (store_feedback history_id feedback w).
Proof. intros. destruct history_id; cbn [store_feedback]; auto with frame. Qed.

#[local] Hint Resolve session_frame_feedback_with_stats
  session_frame_store_feedback : frame.

Lemma session_frame_generate_problem_bg (session_id : string) (st : student)
    (requested_topic : option string) (manager_says creator_says : reply)
    (rnd : Z → Z) (w0 w : world) :
  session_frame session_id w0 w →
  session_frame session_id w0
    (generate_problem_bg session_id st requested_topic manager_says
       creator_says rnd w).
Proof.
  intros. unfold generate_problem_bg.
  repeat case_match; auto 20 with frame.
Qed.

Lemma session_frame_generate_scaffold_problem_bg (session_id : string)
    (st : student) (creator_says : reply) (rnd : Z → Z) (w0 w : world) :
  session_frame session_id w0 w →
  session_frame session_id w0
    (generate_scaffold_problem_bg session_id st creator_says rnd w).
Proof.
  intros. unfold generate_scaffold_problem_bg.
  repeat case_match; auto 20 with frame.
Qed.

Lemma session_frame_check_answer_bg (session_id : string) (st : student)
    (answer : string) (helper_says analyst_says : reply) (w0 w : world) :
  session_frame session_id w0 w →
  session_frame session_id w0
    (check_answer_bg session_id st answer helper_says analyst_says w).
Proof.
  intros. unfold check_answer_bg.
  repeat case_match; auto 20 with frame.
Qed.

(** X28: a request touches its own session only: the current problem and
    the scaffold context of every other session are as before, the trace is
    extended, not rewritten, and every event added is addressed to the
    session of the request. *)
Theorem handle_own_session (w : world) (r : request) :
  let w' := handle w r in
  (∀ other, other ≠ request_session r →
     current_problems w' !! other = current_problems w !! other
     ∧ scaffold_states w' !! other = scaffold_states w !! other)
  ∧ ∃ added, trace w' = trace w ++ added
             ∧ Forall (sent_to (request_session r)) added.
Proof.
  change (session_frame (request_session r) w (handle w r)).
  destruct r; cbn [handle request_session].
  - apply session_frame_generate_problem_bg. auto with frame.
  - unfold api_submit_answer. case_match; [auto with frame|].
    apply session_frame_check_answer_bg. auto with frame.
  - unfold api_scaffold_problem. case_match; [|auto with frame].
    apply session_frame_generate_scaffold_problem_bg. auto with frame.
  - unfold api_skip. repeat case_match; cbn [snd]; auto with frame.
Qed.

End Frames.

Ltac no_new_rows :=
  exists []; rewrite app_nil_r;
  split_and!; [reflexivity|cbn; lia|constructor|done..].

Section HistoryGrowth.

Context {py : python}.

Lemma generate_problem_bg_history (session_id : string) (st : student)
    (requested_topic : option string) (manager_says creator_says : reply)
    (rnd : Z → Z) (w : world) :
  let w' := generate_problem_bg session_id st requested_topic manager_says
              creator_says rnd w in
  history (db w') = history (db w) ∧ achievements (db w') = achievements (db w).
Proof.
  unfold generate_problem_bg. repeat case_match; split; reflexivity.
Qed.

Lemma generate_scaffold_problem_bg_history (session_id : string)
    (st : student) (creator_says : reply) (rnd : Z → Z) (w : world) :
  let w' := generate_scaffold_problem_bg session_id st creator_says rnd w in
  history (db w') = history (db w) ∧ achievements (db w') = achievements (db w).
Proof.
  unfold generate_scaffold_problem_bg. repeat case_match; split; reflexivity.
Qed.

Lemma check_answer_bg_history (session_id : string) (st : student)
    (answer : string) (helper_says analyst_says : reply) (w : world) :
  let w' := check_answer_bg session_id st answer helper_says analyst_says w in
  ∃ rows, history (db w') = history (db w) ++ rows ∧ (length rows ≤ 1)%nat
          ∧ Forall (λ row, h_student_id row = s_id st) rows.
Proof.
  intros w'.
  destruct (current_problems w !! session_id) as [p|] eqn:Hp.
  2: { subst w'. unfold check_answer_bg. rewrite Hp. no_new_rows. }
  destruct (parse_answer answer) as [n|] eqn:Hn.
  2: { subst w'. unfold check_answer_bg. rewrite Hp, Hn. no_new_rows. }
  destruct (grade n (p_correct_answer p)) as [c|message] eqn:Hg.
  2: { subst w'. unfold check_answer_bg. rewrite Hp, Hn, Hg. no_new_rows. }
  destruct (check_answer_bg_graded session_id st answer helper_says
              analyst_says w p n c Hp Hn Hg)
    as (later & row' & _ & _ & _ & Hh & _ & _ & Hid & _).
  exists [row']. split; [exact Hh|]. split; [done|]. by repeat constructor.
Qed.

(** X29: no request deletes or rewrites a history row that was there before
    it.  A request adds at most one row, for its own student, and only an
    answer or a skip adds one; so the rows a database starts with are still
    its first rows after any sequence of requests. *)
Theorem history_append_only :
  (∀ (w : world) (r : request),
     ∃ rows,
       history (db (handle w r)) = history (db w) ++ rows
       ∧ (length rows ≤ 1)%nat
       ∧ Forall (λ row, h_student_id row = request_student r) rows
       ∧ match r with
         | NewProblem _ _ _ _ _ _ | ScaffoldProblem _ _ _ _ => rows = []
         | _ => True
         end)
  ∧ (∀ (d : database) (requests : list request),
       history d `prefix_of` history (db (serve_requests d requests))).
Proof.
  assert (Hstep : ∀ (w : world) (r : request),
     ∃ rows,
       history (db (handle w r)) = history (db w) ++ rows
       ∧ (length rows ≤ 1)%nat
       ∧ Forall (λ row, h_student_id row = request_student r) rows
       ∧ match r with
         | NewProblem _ _ _ _ _ _ | ScaffoldProblem _ _ _ _ => rows = []
         | _ => True
         end).
  { intros w r. destruct r as [sid st topic m c rnd|sid st answer h a
                              |sid st c rnd|sid student_id];
      cbn [handle request_student].
    - exists []. rewrite app_nil_r. split_and!; [|cbn; lia|constructor|done].
      apply (generate_problem_bg_history sid st topic m c rnd (pop_scaffold sid w)).
    - unfold api_submit_answer. case_match.
      + no_new_rows.
      + destruct (check_answer_bg_history sid st (py_strip answer) h a w)
          as (rows & ? & ? & ?). by exists rows.
    - exists []. rewrite app_nil_r. split_and!; [|cbn; lia|constructor|done].
      unfold api_scaffold_problem. case_match; [|done].
      apply generate_scaffold_problem_bg_history.
    - unfold api_skip. case_match; cbn [snd].
      + no_new_rows.
      + destruct (current_problems w !! sid) as [p|].
        * exists [skipped_row student_id p]. split_and!; try done.
          by repeat constructor.
        * no_new_rows. }
  split; [exact Hstep|].
  intros d requests. unfold serve_requests.
  induction requests as [|r requests IH] using rev_ind; [done|].
  rewrite foldl_app. cbn [foldl].
  destruct (Hstep (foldl handle (initial_world d) requests) r) as (rows & -> & _).
  by apply prefix_app_r.
Qed.

End HistoryGrowth.

(** ** The theorems on sample data *)

Lemma correct_answer_award_witness :
  xp (get_gamification_stats (save_result five_correct_db (correct_row 1 "f")) 1)
  = xp (get_gamification_stats five_correct_db 1) + 10 + 0
  ∧ streak (get_gamification_stats (save_result five_correct_db (correct_row 1 "f")) 1)
    = 5 + 1.
Proof.
  destruct (correct_answer_award five_correct_db (correct_row 1 "f") eq_refl)
    as (Hxp & Hstreak & _).
  split; [exact Hxp|exact Hstreak].
Defined.

Lemma level_title_wizard_witness :
  level_title (stats_of (GamState 900 0 0)) = "Math Wizard" ↔ 900 ≤ 900.
Proof.
  destruct (level_title_wizard (GamState 900 0 0)) as [H _]; [cbn; lia|exact H].
Defined.

Lemma served_problem_rotates_witness :
  ∃ id' r',
    find_reusable_problem (increment_times_served two_problem_db 1) (λ k, k) 4
      "common_core" "Addition" 1 false None 20 = Some (id', r')
    ∧ id' ≠ 1
    ∧ (id', r') ∈ with_ids (problem_bank two_problem_db)
    ∧ b_times_served r' = b_times_served bank_2plus3.
Proof.
  apply (served_problem_rotates two_problem_db (λ k, k) (λ k, k) 4 "common_core"
           "Addition" 1 false None 20 1 2 bank_2plus3 bank_9plus1).
  - reflexivity.
  - apply list_elem_of_further, list_elem_of_here.
  - reflexivity.
  - apply not_elem_of_nil.
  - lia.
  - cbn. lia.
Defined.

Lemma clean_latex_plain_text_witness :
  clean_latex (py := sample_python) "  3 + 4 " = "3 + 4".
Proof.
  destruct (clean_latex_plain_text (py := sample_python) "  3 + 4 " eq_refl)
    as [H _].
  exact H.
Defined.

Lemma clean_latex_fraction_witness :
  clean_latex (py := sample_python) "Add \frac{1}{2} now " = "Add 1/2 now".
Proof.
  exact (clean_latex_fraction (py := sample_python) "Add " "1" "2" " now "
           eq_refl eq_refl eq_refl eq_refl eq_refl eq_refl
           (String backslash "f") (or_introl eq_refl)).
Defined.

Lemma check_answer_bg_correct_witness :
  ∃ row f,
    trace (check_answer_bg (py := sample_python) "s1" ada "4" (Says "Well done")
             (Says "{}") depth0_world)
    = trace depth0_world
      ++ [ HistoryInsert row;
           Sent "s1" (EvPipeline [("helper", "working")]);
           AgentRun Helper;
           Sent "s1" (EvPipeline [("helper", "done")]);
           Sent "s1" (EvFeedback f) ]
    ∧ f_is_correct f = true ∧ f_xp_earned f = 10.
Proof.
  destruct (check_answer_bg_correct (py := sample_python) "s1" ada "4" "Well done"
              (Says "{}") depth0_world depth0_problem (PyInt 4)
              eq_refl eq_refl eq_refl)
    as (row & f & Ht & _ & _ & _ & Hc & _ & _ & _ & _ & Hxp & _).
  exists row, f. split; [exact Ht|]. split; [exact Hc|exact Hxp].
Defined.



Lemma generate_problem_bg_bank_hit_witness :
  db (generate_problem_bg (py := sample_python) "s1" ada (Some "Addition")
        (Says "Practise sums") (Fails "not run") (λ k, k)
        (initial_world one_problem_db))
  = increment_times_served one_problem_db 1.
Proof.
  destruct (generate_problem_bg_bank_hit (py := sample_python) "s1" ada
              (Some "Addition") "Practise sums" (Fails "not run") (λ k, k)
              (initial_world one_problem_db) "Addition" 1 bank_2plus3
              eq_refl ltac:(discriminate) eq_refl)
    as (_ & _ & Hdb & _).
  exact Hdb.
Defined.

